(** * Timetable scheduler: a shallow embedding of the conflict-aware planner,
      the optimized planner with its teacher-reassignment pass, the schedule
      verifier and the conflict recount, with the properties of the
      specification proved (or refuted) against them. *)

From Stdlib Require Import ZArith QArith Qminmax Lqa.
From stdpp Require Import base gmap strings list sorting fin_maps fin_sets pretty.

Local Open Scope string_scope.
Local Open Scope list_scope.
Local Open Scope Z_scope.

(** ** Data model ([models/data_models.py]) *)

Inductive Day := MONDAY | TUESDAY | WEDNESDAY | THURSDAY | FRIDAY.

Inductive CourseType := THEORY_4HR | THEORY_3HR_LAB_2HR.

Inductive SessionType := THEORY | LAB.

#[global] Instance Day_eq_dec : EqDecision Day.
Proof. solve_decision. Defined.

#[global] Instance CourseType_eq_dec : EqDecision CourseType.
Proof. solve_decision. Defined.

#[global] Instance SessionType_eq_dec : EqDecision SessionType.
Proof. solve_decision. Defined.

Definition Day_value (d : Day) : string :=
  match d with
  | MONDAY => "Monday" | TUESDAY => "Tuesday" | WEDNESDAY => "Wednesday"
  | THURSDAY => "Thursday" | FRIDAY => "Friday"
  end.

(** [list(Day)]: the members in definition order. *)
Definition list_Day : list Day := [MONDAY; TUESDAY; WEDNESDAY; THURSDAY; FRIDAY].

(** [list(Day).index(d)] *)
Definition Day_index (d : Day) : Z :=
  match d with
  | MONDAY => 0 | TUESDAY => 1 | WEDNESDAY => 2 | THURSDAY => 3 | FRIDAY => 4
  end.

#[global] Instance Day_countable : Countable Day.
Proof.
  refine (inj_countable' (λ d, Z.to_nat (Day_index d))
            (λ n, match n with
                  | O => MONDAY | 1%nat => TUESDAY | 2%nat => WEDNESDAY
                  | 3%nat => THURSDAY | _ => FRIDAY end) _).
  by intros [].
Defined.

(** A (day, hour) occupancy key.  The planners key their dictionaries by
    [(day, hour)] or [(day.value, hour)]; [Day] is a [str] enum whose values
    are pairwise distinct, so both are the same key. *)
Abbreviation Slot := (Day * Z)%type.

Record TimeSlot := mkTimeSlot { day : Day; hour : Z }.

#[global] Instance TimeSlot_eq_dec : EqDecision TimeSlot.
Proof. solve_decision. Defined.

Definition slot_key (s : TimeSlot) : Slot := (day s, hour s).

(** [TimeSlot(day=d, hour=h)]: the field is declared [ge=10, le=17], the
    constructor raises a validation error outside that range. *)
Definition TimeSlot_new (d : Day) (h : Z) : option TimeSlot :=
  if bool_decide (10 ≤ h ∧ h ≤ 17) then Some (mkTimeSlot d h) else None.

Record Room := mkRoom { room_id : string; capacity : Z }.

Record Teacher := mkTeacher { name : string; courses : list string }.

Record Course := mkCourse {
  code : string;
  course_type : CourseType;
  total_batches : Z;
  batches : list string;
  batch_sizes : list Z;
  teacher_assignments : gmap string string
}.

Definition theory_hours (c : Course) : Z :=
  if decide (course_type c = THEORY_4HR) then 4 else 3.

Definition lab_hours (c : Course) : Z :=
  if decide (course_type c = THEORY_4HR) then 0 else 2.

Definition total_hours (c : Course) : Z := theory_hours c + lab_hours c.

Record ScheduleEntry := mkEntry {
  course_code : string;
  batch_id : string;
  teacher_name : string;
  entry_room_id : string;
  time_slot : TimeSlot;
  session_type : SessionType;
  student_count : Z
}.

#[global] Instance ScheduleEntry_eq_dec : EqDecision ScheduleEntry.
Proof. solve_decision. Defined.

Record SchedulingConfig := mkConfig {
  days : list Day;
  start_hour : Z;
  end_hour : Z;
  num_rooms : Z;
  room_capacity : Z
}.

(** [range(a, b)] *)
Definition range (a b : Z) : list Z := (λ i : nat, a + Z.of_nat i) <$> seq 0 (Z.to_nat (b - a)).

(** [SchedulingConfig.generate_all_time_slots]; [None] when a [TimeSlot]
    constructor raises. *)
Definition generate_all_time_slots (cfg : SchedulingConfig) : option (list TimeSlot) :=
  mapM (λ dh : Day * Z, TimeSlot_new dh.1 dh.2)
       (d ← days cfg; (λ h, (d, h)) <$> range (start_hour cfg) (end_hour cfg)).

(** A course-batch [(course, batch)]. *)
Abbreviation CB := (string * string)%type.

Definition entry_cb (e : ScheduleEntry) : CB := (course_code e, batch_id e).
Definition entry_slot (e : ScheduleEntry) : Slot := slot_key (time_slot e).

(** Python's [<] on tuples of two strings. *)
Definition cb_lt (a b : CB) : bool :=
  if decide (a.1 = b.1) then String.ltb a.2 b.2 else String.ltb a.1 b.1.

(** [(cb1, cb2) if cb1 < cb2 else (cb2, cb1)] *)
Definition pair_key (a b : CB) : CB * CB := if cb_lt a b then (a, b) else (b, a).

(** Iteration over a Python [set] visits the elements in an order that
    depends on the string hash seed of the process: any enumeration of the
    elements, each once. *)
Record SetOrder := mkSetOrder {
  iter : gset CB → list CB;
  iter_perm : ∀ X, iter X ≡ₚ elements X
}.

Definition canonical_order : SetOrder := mkSetOrder elements (λ X, reflexivity _).

Definition reversed_order : SetOrder :=
  mkSetOrder (λ X, reverse (elements X)) (λ X, reverse_Permutation (elements X)).

(** [sum(f(x) for x in l)] *)
Definition sum_list_with_Z {A} (f : A → Z) (l : list A) : Z :=
  foldl (λ acc x, acc + f x) 0 l.

(** [d.get(k, set())] and [d[k]] on a [defaultdict(set)] *)
Definition get_set `{Countable K} {V} `{Countable V} (m : gmap K (gset V)) (k : K) : gset V :=
  default ∅ (m !! k).

(** [d.get(k, 0)] and [d[k]] on a [defaultdict(int)] *)
Definition get_int `{Countable K} (m : gmap K Z) (k : K) : Z := default 0 (m !! k).

(** [d[k]] on a [defaultdict(bool)] *)
Definition get_bool `{Countable K} (m : gmap K bool) (k : K) : bool := default false (m !! k).

(** [d[k].add(v)] on a [defaultdict(set)] *)
Definition set_add `{Countable K} {V} `{Countable V} (m : gmap K (gset V)) (k : K) (v : V)
  : gmap K (gset V) := <[k := get_set m k ∪ {[v]}]> m.

(** Stable sort by a key with a total preorder: what [sorted] and
    [list.sort] compute (an element goes after the ones it does not
    precede). *)
Fixpoint insert_sorted {A} (leb : A → A → bool) (x : A) (l : list A) : list A :=
  match l with
  | [] => [x]
  | y :: l' => if leb y x then y :: insert_sorted leb x l' else x :: l
  end.

Definition sorted_by {A} (leb : A → A → bool) (l : list A) : list A :=
  foldl (λ acc x, insert_sorted leb x acc) [] l.

(** What a stable sort is held to: the result is in order, and elements
    with the same key keep their relative order. *)
Definition ordered {A} (leb : A → A → bool) (l : list A) : Prop :=
  StronglySorted (λ x y, leb x y = true) l.

Definition same_key {A} (leb : A → A → bool) (k y : A) : Prop :=
  leb y k = true ∧ leb k y = true.

(** ** Student overlap index ([ConflictAwarePlanner._load_student_conflicts]) *)

Module Overlap.

Record Index := mkIndex {
  student_conflicts : gmap CB (gset CB);
  pair_student_count : gmap (CB * CB) Z;
  conflict_count : gmap CB Z
}.

(** The body of the inner loop, for one pair of a student's record. *)
Definition add_pair (st : gmap CB (gset CB) * gmap (CB * CB) Z) (cb1 cb2 : CB)
  : gmap CB (gset CB) * gmap (CB * CB) Z :=
  let sc := set_add (set_add st.1 cb1 cb2) cb2 cb1 in
  let key := pair_key cb1 cb2 in
  (sc, <[key := get_int st.2 key + 1]> st.2).

(** [for i, cb1 in enumerate(cbs): for cb2 in cbs[i+1:]: ...] *)
Fixpoint add_row (cbs : list CB) (st : gmap CB (gset CB) * gmap (CB * CB) Z)
  : gmap CB (gset CB) * gmap (CB * CB) Z :=
  match cbs with
  | [] => st
  | cb1 :: rest => add_row rest (foldl (λ st cb2, add_pair st cb1 cb2) st rest)
  end.

(** The second loop: the weighted degree of one course-batch. *)
Definition weighted_count (o : SetOrder) (psc : gmap (CB * CB) Z) (cb : CB) (s : gset CB) : Z :=
  sum_list_with_Z (λ conflict_cb, get_int psc (pair_key cb conflict_cb)) (iter o s).

(** [_load_student_conflicts], from the rows' [cbs] lists on (one list of
    course-batches per student). *)
Definition _load_student_conflicts (o : SetOrder) (rows : list (list CB)) : Index :=
  let st := foldl (λ st cbs, add_row cbs st) (∅, ∅) rows in
  mkIndex st.1 st.2 (map_imap (λ cb s, Some (weighted_count o st.2 cb s)) st.1).

(** The weight that [count_slot_conflicts] adds for an occupant
    [scheduled_cb] of the slot when [cb] is considered for it. *)
Definition conflict_weight (idx : Index) (cb scheduled_cb : CB) : Z :=
  if bool_decide (scheduled_cb ∈ get_set (student_conflicts idx) cb)
  then get_int (pair_student_count idx) (pair_key cb scheduled_cb)
  else 0.

End Overlap.

(** A proposal.  [generation_time_ms] is a wall-clock measurement and is left
    out; [proposal_id] embeds the clock reading [now]. *)
Record TimetableProposal := mkProposal {
  proposal_id : string;
  entries : list ScheduleEntry;
  algorithm_used : string
}.

(** ** The conflict-aware planner ([agents/conflict_aware_planner.py]) *)

Module CAP.
Import Overlap.

(** One element of [sessions_to_schedule]. *)
Record Session := mkSession {
  s_course : string;
  s_batch : string;
  s_type : string;
  s_hours : Z;
  s_teacher : string;
  s_students : Z;
  s_conflicts : Z
}.

(** The tracking structures of one run. *)
Record State := mkState {
  st_entries : list ScheduleEntry;
  teacher_schedule : gmap Slot (gset string);
  room_schedule : gmap (Slot * string) bool;
  slot_courses : gmap Slot (gset CB);
  total_conflicts : Z;
  scheduled_count : Z
}.

Definition init_state : State := mkState [] ∅ ∅ ∅ 0 0.

Definition regular_rooms : list string := (λ i, "R" +:+ pretty i) <$> range 1 29.
Definition lab_rooms : list string := (λ i, "LAB" +:+ pretty i) <$> range 1 8.
Definition hours : list Z := range 10 18.

(** The slots in the order of the two nested loops of [find_best_slot]. *)
Definition grid : list Slot := d ← list_Day; (λ h, (d, h)) <$> hours.

Definition students_of (c : Course) (batch_idx : nat) : Z :=
  default 60 (batch_sizes c !! batch_idx).

Definition teacher_of (c : Course) (b : string) : string :=
  default "TBA" (teacher_assignments c !! b).

(** The sessions of one batch of one course, theory first. *)
Definition batch_sessions (idx : Index) (code : string) (c : Course)
    (batch_idx : nat) (b : string) : list Session :=
  let conflict_score := get_int (conflict_count idx) (code, b) in
  (if bool_decide (theory_hours c > 0)
   then [mkSession code b "theory" (theory_hours c) (teacher_of c b)
           (students_of c batch_idx) conflict_score]
   else []) ++
  (if bool_decide (lab_hours c > 0)
   then [mkSession code b "lab" (lab_hours c) (teacher_of c b)
           (students_of c batch_idx) conflict_score]
   else []).

Definition build_sessions (idx : Index) (cs : list (string * Course)) : list Session :=
  kc ← cs; mjoin (imap (batch_sessions idx kc.1 kc.2) (batches kc.2)).

(** [sessions_to_schedule.sort(key=lambda x: -x["conflicts"])] *)
Definition sort_sessions (l : list Session) : list Session :=
  sorted_by (λ x y, bool_decide (- s_conflicts x ≤ - s_conflicts y)) l.

Section scan.
Context (o : SetOrder) (idx : Index).

Definition count_slot_conflicts (sc : gmap Slot (gset CB)) (d : Day) (h : Z)
    (course batch : string) : Z :=
  let cb := (course, batch) in
  foldl (λ acc scheduled_cb,
           if bool_decide (scheduled_cb ∈ get_set (student_conflicts idx) cb)
           then acc + get_int (pair_student_count idx) (pair_key cb scheduled_cb)
           else acc)
        0 (iter o (get_set sc (d, h))).

(** The room loop of [find_best_slot]: the first free room, if any. *)
Definition first_free_room (st : State) (s : Slot) (rooms : list string) : option string :=
  List.find (λ room, negb (get_bool (room_schedule st) (s, room))) rooms.

(** [conflicts < best_conflict_count], the count being [inf] at first. *)
Definition below_best (conflicts : Z) (best : option (Slot * string * Z)) : bool :=
  match best with
  | Some b => bool_decide (conflicts < b.2)
  | None => true
  end.

(** The scan of [find_best_slot] over the remaining slots; [best] is
    [(best_slot, best_room, best_conflict_count)], [None] standing for
    [(None, None, inf)]. *)
Fixpoint scan_slots (st : State) (course batch teacher : string) (rooms : list string)
    (slots : list Slot) (best : option (Slot * string * Z)) : option (Slot * string * Z) :=
  match slots with
  | [] => best
  | s :: rest =>
      if bool_decide (teacher ∈ get_set (teacher_schedule st) s)
      then scan_slots st course batch teacher rooms rest best
      else
        let conflicts := count_slot_conflicts (slot_courses st) s.1 s.2 course batch in
        match first_free_room st s rooms with
        | Some room =>
            if below_best conflicts best
            then if bool_decide (conflicts = 0)
                 then Some (s, room, conflicts)
                 else scan_slots st course batch teacher rooms rest (Some (s, room, conflicts))
            else scan_slots st course batch teacher rooms rest best
        | None => scan_slots st course batch teacher rooms rest best
        end
  end.

Definition find_best_slot (st : State) (course batch teacher session_type : string)
    (rooms : list string) : option (Slot * string * Z) :=
  scan_slots st course batch teacher rooms grid None.

Definition session_type_of (t : string) : SessionType :=
  if bool_decide (t = "lab") then LAB else THEORY.

(** The body of the hour loop after a slot was found. *)
Definition commit (st : State) (se : Session) (s : Slot) (room : string) (conflicts : Z)
    : State :=
  let entry := mkEntry (s_course se) (s_batch se) (s_teacher se) room
                 (mkTimeSlot s.1 s.2) (session_type_of (s_type se)) (s_students se) in
  mkState (st_entries st ++ [entry])
          (set_add (teacher_schedule st) s (s_teacher se))
          (<[(s, room) := true]> (room_schedule st))
          (set_add (slot_courses st) s (s_course se, s_batch se))
          (total_conflicts st + conflicts)
          (scheduled_count st + 1).

(** [for _ in range(hours_needed): ...], with its [break]. *)
Fixpoint place_hours (n : nat) (se : Session) (rooms : list string) (st : State) : State :=
  match n with
  | O => st
  | S n' =>
      match find_best_slot st (s_course se) (s_batch se) (s_teacher se) (s_type se) rooms with
      | None => st
      | Some (s, room, conflicts) => place_hours n' se rooms (commit st se s room conflicts)
      end
  end.

Definition place_session (st : State) (se : Session) : State :=
  let rooms := if bool_decide (s_type se = "lab") then lab_rooms else regular_rooms in
  place_hours (Z.to_nat (s_hours se)) se rooms st.

Definition run (cs : list (string * Course)) : State :=
  foldl place_session init_state (sort_sessions (build_sessions idx cs)).

(** [generate_proposal]; [teachers] and [config] are not read.  The
    progress message indexes [sessions_to_schedule[0]] and raises on an
    empty list: [None].  The proposal comes with the final state, whose
    counters [total_conflicts] and [scheduled_count] the source prints. *)
Definition generate_proposal (now : Z) (cs : list (string * Course))
    (teachers : list (string * Teacher)) (config : SchedulingConfig)
    : option (TimetableProposal * State) :=
  match sort_sessions (build_sessions idx cs) with
  | [] => None
  | _ :: _ =>
      let st := run cs in
      Some (mkProposal ("conflict_aware_" +:+ pretty now) (st_entries st) "conflict_aware", st)
  end.
End scan.

End CAP.

(** ** The conflict recount ([RefinementAgent.calculate_conflicts]) *)

Module Refine.

(** [for i, cb1 in enumerate(cbs): for cb2 in cbs[i+1:]: total += ...] *)
Fixpoint pairs_total (psc : gmap (CB * CB) Z) (cbs : list CB) : Z :=
  match cbs with
  | [] => 0
  | cb1 :: rest =>
      foldl (λ acc cb2, acc + get_int psc (pair_key cb1 cb2)) 0 rest + pairs_total psc rest
  end.

Definition group_by_slot (es : list ScheduleEntry) : gmap Slot (list CB) :=
  foldl (λ (m : gmap Slot (list CB)) e,
           <[entry_slot e := (default [] (m !! entry_slot e) ++ [entry_cb e])%list]> m) ∅ es.

Definition calculate_conflicts (p : TimetableProposal) (psc : gmap (CB * CB) Z) : Z :=
  map_fold (λ _ cbs total, total + pairs_total psc cbs) 0 (group_by_slot (entries p)).

End Refine.

(** ** The optimized planner and its repair pass ([agents/planner_agent.py]) *)

(** [d[k]] on a [dict] held as the list of its items in insertion order;
    [None] is the [KeyError]. *)
Definition dict_get {V} (k : string) (d : list (string * V)) : option V :=
  snd <$> List.find (λ kv, bool_decide (kv.1 = k)) d.

Module PA.

(** What the planner reads of the strategy the language model returned. *)
Record Strategy := mkStrategy {
  morning_theory : bool;
  spread_across_days : bool
}.

(** [{"approach": "balanced", "spread_across_days": True, "morning_theory": True}] *)
Definition default_strategy : Strategy := mkStrategy true true.

(** An element of the list [_find_unscheduled] returns. *)
Record Unscheduled := mkUnscheduled {
  u_course : string;
  u_batch : string;
  theory_missing : Z;
  lab_missing : Z;
  original_teacher : string
}.

(** The occupancy dictionaries of a pass, the entries it has appended and
    [student_conflicts.slot_schedule], which both passes share. *)
Record State := mkState {
  st_entries : list ScheduleEntry;
  teacher_schedule : gmap Slot (gset string);
  regular_room_schedule : gmap (Slot * string) bool;
  lab_room_schedule : gmap (Slot * string) bool;
  slot_schedule : gmap Slot (gset CB)
}.

Definition regular_rooms (config : SchedulingConfig) : list Room :=
  (λ i, mkRoom ("R" +:+ pretty i) (room_capacity config)) <$> range 1 22.
Definition lab_rooms (config : SchedulingConfig) : list Room :=
  (λ i, mkRoom ("LAB" +:+ pretty i) (room_capacity config)) <$> range 1 8.

(** [sorted(all_slots, key=lambda s: (list(Day).index(s.day), s.hour))];
    the theory pass negates the hour when [morning_theory] is false. *)
Definition slot_leb (morning : bool) (a b : TimeSlot) : bool :=
  let k (s : TimeSlot) := if morning then hour s else - hour s in
  bool_decide (Day_index (day a) < Day_index (day b)) ||
  (bool_decide (Day_index (day a) = Day_index (day b)) && bool_decide (k a ≤ k b)).

(** [sorted(courses.values(), key=lambda c: -(c.total_hours * len(c.batches)))] *)
Definition sort_courses (cs : list (string * Course)) : list Course :=
  let k (c : Course) := - (total_hours c * Z.of_nat (length (batches c))) in
  sorted_by (λ a b, bool_decide (k a ≤ k b)) (snd <$> cs).

Section passes.
Context (o : SetOrder).
(** [StudentConflictMatrix.conflicts], loaded once from the allocation
    file (empty when the file is missing). *)
Context (conflicts : gmap CB (gset CB)).

(** [StudentConflictMatrix.check_slot_available] *)
Definition check_slot_available (ss : gmap Slot (gset CB)) (course batch : string)
    (d : Day) (h : Z) : bool :=
  forallb (λ scheduled_cb, negb (bool_decide (scheduled_cb ∈ get_set conflicts (course, batch))))
          (iter o (get_set ss (d, h))).

(** [StudentConflictMatrix.mark_scheduled] *)
Definition mark_scheduled (ss : gmap Slot (gset CB)) (course batch : string)
    (d : Day) (h : Z) : gmap Slot (gset CB) :=
  set_add ss (d, h) (course, batch).

(** One lab hour appended and recorded. *)
Definition place_lab (c : Course) (b teacher : string) (students : Z) (lr : Room)
    (st : State) (slot : TimeSlot) : State :=
  mkState (st_entries st ++ [mkEntry (code c) b teacher (room_id lr) slot LAB students])
          (set_add (teacher_schedule st) (slot_key slot) teacher)
          (regular_room_schedule st)
          (<[(slot_key slot, room_id lr) := true]> (lab_room_schedule st))
          (mark_scheduled (slot_schedule st) (code c) b (day slot) (hour slot)).

(** One theory hour appended and recorded. *)
Definition place_theory (course b teacher : string) (students : Z) (r : Room)
    (st : State) (slot : TimeSlot) : State :=
  mkState (st_entries st ++ [mkEntry course b teacher (room_id r) slot THEORY students])
          (set_add (teacher_schedule st) (slot_key slot) teacher)
          (<[(slot_key slot, room_id r) := true]> (regular_room_schedule st))
          (lab_room_schedule st)
          (mark_scheduled (slot_schedule st) course b (day slot) (hour slot)).

(** The search for [slot2] among the slots after [slot1]. *)
Definition next_hour_slot (slot1 : TimeSlot) (later : list TimeSlot) : option TimeSlot :=
  List.find (λ s, bool_decide (day s = day slot1 ∧ hour s = hour slot1 + 1)) later.

Definition free_lab_room (st : State) (slot1 slot2 : TimeSlot) (rooms : list Room)
    : option Room :=
  List.find (λ lr, negb (get_bool (lab_room_schedule st) (slot_key slot1, room_id lr)) &&
                   negb (get_bool (lab_room_schedule st) (slot_key slot2, room_id lr))) rooms.

Definition free_regular_room (rs : gmap (Slot * string) bool) (slot : TimeSlot)
    (rooms : list Room) : option Room :=
  List.find (λ r, negb (get_bool rs (slot_key slot, room_id r))) rooms.

(** The [while] loop over [lab_slots]; [rest] is [lab_slots[i:]]. *)
Fixpoint lab_loop (c : Course) (b teacher : string) (students : Z) (rooms : list Room)
    (rest : list TimeSlot) (lab_scheduled : Z) (st : State) : State :=
  match rest with
  | slot1 :: ((_ :: rest2) as later) =>
      if bool_decide (lab_scheduled < lab_hours c) then
        match next_hour_slot slot1 later with
        | None => lab_loop c b teacher students rooms later lab_scheduled st
        | Some slot2 =>
            if bool_decide (teacher ∈ get_set (teacher_schedule st) (slot_key slot1)) ||
               bool_decide (teacher ∈ get_set (teacher_schedule st) (slot_key slot2))
            then lab_loop c b teacher students rooms later lab_scheduled st
            else if negb (check_slot_available (slot_schedule st) (code c) b
                            (day slot1) (hour slot1)) ||
                    negb (check_slot_available (slot_schedule st) (code c) b
                            (day slot2) (hour slot2))
            then lab_loop c b teacher students rooms later lab_scheduled st
            else
              match free_lab_room st slot1 slot2 rooms with
              | None => lab_loop c b teacher students rooms later lab_scheduled st
              | Some lr =>
                  lab_loop c b teacher students rooms rest2 (lab_scheduled + 2)
                    (foldl (place_lab c b teacher students lr) st [slot1; slot2])
              end
        end
      else st
  | _ => st
  end.

(** The [for] loop over [theory_slots]. *)
Fixpoint theory_loop (c : Course) (b teacher : string) (students : Z) (rooms : list Room)
    (slots : list TimeSlot) (theory_scheduled : Z) (st : State) : State :=
  match slots with
  | [] => st
  | slot :: rest =>
      if bool_decide (theory_scheduled >= theory_hours c) then st
      else if bool_decide (teacher ∈ get_set (teacher_schedule st) (slot_key slot))
      then theory_loop c b teacher students rooms rest theory_scheduled st
      else if negb (check_slot_available (slot_schedule st) (code c) b (day slot) (hour slot))
      then theory_loop c b teacher students rooms rest theory_scheduled st
      else
        match free_regular_room (regular_room_schedule st) slot rooms with
        | None => theory_loop c b teacher students rooms rest theory_scheduled st
        | Some r =>
            theory_loop c b teacher students rooms rest (theory_scheduled + 1)
              (place_theory (code c) b teacher students r st slot)
        end
  end.

(** The body of the batch loop. *)
Definition schedule_batch (strategy : Strategy) (all_slots : list TimeSlot)
    (regular lab : list Room) (c : Course) (st : State) (ib : nat * string) : State :=
  let teacher := default "TBA" (teacher_assignments c !! ib.2) in
  let students := default 60 (batch_sizes c !! ib.1) in
  let st1 :=
    if bool_decide (lab_hours c > 0)
    then lab_loop c ib.2 teacher students lab (sorted_by (slot_leb true) all_slots) 0 st
    else st in
  theory_loop c ib.2 teacher students regular
    (sorted_by (slot_leb (morning_theory strategy)) all_slots) 0 st1.

Definition schedule_course (strategy : Strategy) (all_slots : list TimeSlot)
    (regular lab : list Room) (st : State) (c : Course) : State :=
  foldl (schedule_batch strategy all_slots regular lab c) st (imap pair (batches c)).

(** [_schedule_optimized], returning the whole state so that the shared
    [slot_schedule] can be handed to the repair pass. *)
Definition _schedule_optimized (cs : list (string * Course))
    (teachers : list (string * Teacher)) (config : SchedulingConfig) (strategy : Strategy)
    (regular lab : list Room) : option State :=
  all_slots ← generate_all_time_slots config;
  Some (foldl (schedule_course strategy all_slots regular lab)
              (mkState [] ∅ ∅ ∅ ∅) (sort_courses cs)).

(** [scheduled[key]["theory"]] and [scheduled[key]["lab"]] *)
Definition scheduled_count (es : list ScheduleEntry) (key : CB) (theory : bool) : Z :=
  Z.of_nat (length (filter (λ e, entry_cb e = key ∧
              bool_decide (session_type e = THEORY) = theory) es)).

Definition _find_unscheduled (es : list ScheduleEntry) (cs : list (string * Course))
    : list Unscheduled :=
  kc ← cs;
  b ← batches kc.2;
  let tm := theory_hours kc.2 - scheduled_count es (kc.1, b) true in
  let lm := lab_hours kc.2 - scheduled_count es (kc.1, b) false in
  if bool_decide (tm > 0 ∨ lm > 0)
  then [mkUnscheduled kc.1 b tm lm (default "TBA" (teacher_assignments kc.2 !! b))]
  else [].

(** The occupancy rebuilt from the entries that are kept. *)
Definition occupy (st : State) (e : ScheduleEntry) : State :=
  let k := (entry_slot e, entry_room_id e) in
  mkState (st_entries st)
          (set_add (teacher_schedule st) (entry_slot e) (teacher_name e))
          (if String.prefix "LAB" (entry_room_id e) then regular_room_schedule st
           else <[k := true]> (regular_room_schedule st))
          (if String.prefix "LAB" (entry_room_id e) then <[k := true]> (lab_room_schedule st)
           else lab_room_schedule st)
          (slot_schedule st).

(** [teacher_hours] *)
Definition teacher_hours (cs : list (string * Course)) : gmap string Z :=
  foldl (λ acc kc,
           map_fold (λ _ teacher (acc : gmap string Z),
                       <[teacher := get_int acc teacher + total_hours kc.2]> acc)
                    acc (teacher_assignments kc.2))
        ∅ cs.

(** [sorted(teachers.keys(), key=lambda t: teacher_hours[t])] *)
Definition available_teachers (cs : list (string * Course))
    (teachers : list (string * Teacher)) : list string :=
  let th := teacher_hours cs in
  sorted_by (λ a b, bool_decide (get_int th a ≤ get_int th b)) (fst <$> teachers).

(** The search for [potential_slots] of one candidate teacher. *)
Fixpoint collect_slots (st : State) (course batch alt_teacher : string) (theory_needed : Z)
    (rooms : list Room) (slots : list TimeSlot)
    (potential : list (TimeSlot * Room * SessionType)) : list (TimeSlot * Room * SessionType) :=
  match slots with
  | [] => potential
  | slot :: rest =>
      if bool_decide (Z.of_nat (length potential) >= theory_needed) then potential
      else if bool_decide (alt_teacher ∈ get_set (teacher_schedule st) (slot_key slot))
      then collect_slots st course batch alt_teacher theory_needed rooms rest potential
      else
        match free_regular_room (regular_room_schedule st) slot rooms with
        | Some room =>
            if check_slot_available (slot_schedule st) course batch (day slot) (hour slot)
            then collect_slots st course batch alt_teacher theory_needed rooms rest
                   (potential ++ [(slot, room, THEORY)])
            else collect_slots st course batch alt_teacher theory_needed rooms rest potential
        | None => collect_slots st course batch alt_teacher theory_needed rooms rest potential
        end
  end.

(** The commit loop over [potential_slots[:theory_needed]]. *)
Definition commit_slot (course batch alt_teacher : string) (students : Z) (st : State)
    (p : TimeSlot * Room * SessionType) : State :=
  mkState (st_entries st ++
             [mkEntry course batch alt_teacher (room_id p.1.2) p.1.1 p.2 students])
          (set_add (teacher_schedule st) (slot_key p.1.1) alt_teacher)
          (<[(slot_key p.1.1, room_id p.1.2) := true]> (regular_room_schedule st))
          (lab_room_schedule st)
          (mark_scheduled (slot_schedule st) course batch (day p.1.1) (hour p.1.1)).

(** The loop over the candidate teachers for one item. *)
Fixpoint try_teachers (item : Unscheduled) (c : Course) (all_slots : list TimeSlot)
    (rooms : list Room) (candidates : list string) (st : State) : State :=
  match candidates with
  | [] => st
  | alt_teacher :: rest =>
      if bool_decide (alt_teacher = original_teacher item)
      then try_teachers item c all_slots rooms rest st
      else
        let theory_needed := theory_hours c in
        let potential := collect_slots st (u_course item) (u_batch item) alt_teacher
                           theory_needed rooms all_slots [] in
        if bool_decide (Z.of_nat (length potential) < theory_needed)
        then try_teachers item c all_slots rooms rest st
        else
          let students := default 60 (head (batch_sizes c)) in
          foldl (commit_slot (u_course item) (u_batch item) alt_teacher students) st
                (take (Z.to_nat theory_needed) potential)
  end.

(** The loop over [unscheduled]; [None] is the [KeyError] of
    [courses[code]]. *)
Fixpoint fix_items (cs : list (string * Course)) (all_slots : list TimeSlot)
    (rooms : list Room) (candidates : list string) (items : list Unscheduled) (st : State)
    : option State :=
  match items with
  | [] => Some st
  | item :: rest =>
      c ← dict_get (u_course item) cs;
      fix_items cs all_slots rooms candidates rest
        (try_teachers item c all_slots rooms candidates st)
  end.

Definition filtered_entries (es : list ScheduleEntry) (unscheduled : list Unscheduled)
    : list ScheduleEntry :=
  let courses_to_reassign : gset CB :=
    list_to_set ((λ item, (u_course item, u_batch item)) <$> unscheduled) in
  filter (λ e, entry_cb e ∉ courses_to_reassign) es.

(** The state of the repair pass after its last item: [st_entries] is
    [new_entries]. *)
Definition repair (es : list ScheduleEntry) (ss : gmap Slot (gset CB))
    (unscheduled : list Unscheduled) (cs : list (string * Course))
    (teachers : list (string * Teacher)) (config : SchedulingConfig)
    (regular lab : list Room) : option State :=
  let occ := foldl occupy (mkState [] ∅ ∅ ∅ ss) (filtered_entries es unscheduled) in
  all_slots ← generate_all_time_slots config;
  fix_items cs all_slots regular (available_teachers cs teachers) unscheduled occ.

(** [_fix_with_teacher_reassignment]: [filtered_entries + new_entries]. *)
Definition _fix_with_teacher_reassignment (es : list ScheduleEntry)
    (ss : gmap Slot (gset CB)) (unscheduled : list Unscheduled)
    (cs : list (string * Course)) (teachers : list (string * Teacher))
    (config : SchedulingConfig) (regular lab : list Room) : option (list ScheduleEntry) :=
  st ← repair es ss unscheduled cs teachers config regular lab;
  Some (filtered_entries es unscheduled ++ st_entries st)%list.

(** [generate_proposal]: the schedule pass, then the repair pass when
    some course-batch is incomplete.  The strategy is the answer of the
    language model; the later gap analysis returns the entries as they
    are. *)
Definition generate_proposal (now : Z) (cs : list (string * Course))
    (teachers : list (string * Teacher)) (config : SchedulingConfig) (strategy : Strategy)
    : option TimetableProposal :=
  let regular := regular_rooms config in
  let lab := lab_rooms config in
  st ← _schedule_optimized cs teachers config strategy regular lab;
  let unscheduled := _find_unscheduled (st_entries st) cs in
  es ← (if bool_decide (unscheduled = [])
        then Some (st_entries st)
        else _fix_with_teacher_reassignment (st_entries st) (slot_schedule st) unscheduled
               cs teachers config regular lab);
  Some (mkProposal ("optimized_" +:+ pretty now) es "optimized_llm").
End passes.

End PA.

(** ** Floating point ([float]) *)

(** Python's [float] is the binary64 format of IEEE 754, and every
    operation returns the number of the format that is nearest to the
    exact result, ties going to the even significand.  A number of the
    format is modelled by its value, a rational; [of_Q] is the rounding.
    Infinities are left out: no quantity here reaches 2^1024. *)
Module Binary64.

(** The integer nearest to [a / b], for [0 < b], ties to even. *)
Definition nearest_even (a b : Z) : Z :=
  let q := a `div` b in
  let r := a `mod` b in
  if bool_decide (b < 2 * r) || (bool_decide (2 * r = b) && Z.odd q) then q + 1 else q.

(** [floor (log2 (n / d))] for positive [n] and [d]. *)
Definition floor_log2 (n d : Z) : Z :=
  let e := Z.log2 n - Z.log2 d in
  if bool_decide (d * 2 ^ Z.max e 0 ≤ n * 2 ^ Z.max (- e) 0) then e else e - 1.

(** The exponent of the unit in the last place of [n / d]: 53 significant
    bits, and never below the exponent of the subnormal numbers. *)
Definition ulp_exponent (n d : Z) : Z := Z.max (floor_log2 n d - 52) (-1074).

(** The number of the format nearest to [n / d], for positive [n] and [d]. *)
Definition round_pos (n d : Z) : Q :=
  let e := ulp_exponent n d in
  let m := nearest_even (n * 2 ^ Z.max (- e) 0) (d * 2 ^ Z.max e 0) in
  Qred (Qmake (m * 2 ^ Z.max e 0) (Z.to_pos (2 ^ Z.max (- e) 0))).

Definition of_Q (x : Q) : Q :=
  match Qnum x with
  | 0 => 0%Q
  | Z.pos n => round_pos (Z.pos n) (Z.pos (Qden x))
  | Z.neg n => (- round_pos (Z.pos n) (Z.pos (Qden x)))%Q
  end.

End Binary64.

(** ** The schedule verifier ([agents/verification_agent.py]) *)

Module Verifier.

(** A conflict record; the [description] text is left out. *)
Record Conflict := mkConflict {
  c_type : string;
  severity : string;
  c_entries : list string
}.

Record VerificationResult := mkResult {
  r_proposal_id : string;
  is_valid : bool;
  score : Q;
  r_conflicts : list Conflict
}.

(** A [defaultdict(list)] filled by [d[key].append(x)], as the list of its
    items in insertion order. *)
Fixpoint group_insert {K V} `{EqDecision K} (k : K) (v : V) (g : list (K * list V))
    : list (K * list V) :=
  match g with
  | [] => [(k, [v])]
  | kv :: g' => if decide (kv.1 = k) then (kv.1, kv.2 ++ [v]) :: g'
                else kv :: group_insert k v g'
  end.

Definition group_by {K V} `{EqDecision K} (key : V → K) (l : list V) : list (K * list V) :=
  foldl (λ g x, group_insert (key x) x g) [] l.

Definition label (e : ScheduleEntry) : string := course_code e +:+ "-" +:+ batch_id e.

Definition _check_teacher_conflicts (p : TimetableProposal) : list Conflict :=
  kv ← group_by entry_slot (entries p);
  tv ← group_by teacher_name kv.2;
  if bool_decide (1 < length tv.2)%nat
  then [mkConflict "teacher_conflict" "hard" (label <$> tv.2)]
  else [].

Definition _check_room_conflicts (p : TimetableProposal) : list Conflict :=
  kv ← group_by (λ e, (entry_slot e, entry_room_id e)) (entries p);
  if bool_decide (1 < length kv.2)%nat
  then [mkConflict "room_conflict" "hard" (label <$> kv.2)]
  else [].

(** [scheduled[key]["theory"]] and [scheduled[key]["lab"]] *)
Definition scheduled_count (es : list ScheduleEntry) (key : CB) (theory : bool) : Z :=
  Z.of_nat (length (filter (λ e, entry_cb e = key ∧
              bool_decide (session_type e = THEORY) = theory) es)).

Definition _check_coverage (p : TimetableProposal) (cs : list (string * Course))
    : list Conflict :=
  kc ← cs;
  b ← batches kc.2;
  let theory_missing := theory_hours kc.2 - scheduled_count (entries p) (kc.1, b) true in
  let lab_missing := lab_hours kc.2 - scheduled_count (entries p) (kc.1, b) false in
  (if bool_decide (theory_missing > 0) then [mkConflict "incomplete_coverage" "hard" []]
   else []) ++
  (if bool_decide (lab_missing > 0) then [mkConflict "incomplete_coverage" "hard" []]
   else []).

Definition _check_time_bounds (p : TimetableProposal) (config : SchedulingConfig)
    : list Conflict :=
  let valid_days := Day_value <$> days config in
  e ← entries p;
  (if bool_decide (Day_value (day (time_slot e)) ∉ valid_days)
   then [mkConflict "invalid_day" "hard" [label e]] else []) ++
  (if bool_decide (hour (time_slot e) < start_hour config ∨
                   hour (time_slot e) >= end_hour config)
   then [mkConflict "invalid_time" "hard" [label e]] else []).

Definition _check_soft_constraints (p : TimetableProposal) (cs : list (string * Course))
    (config : SchedulingConfig) : list Conflict :=
  (kv ← group_by entry_cb (entries p);
   let days_used := remove_dups ((λ e, day (time_slot e)) <$> kv.2) in
   match dict_get kv.1.1 cs with
   | Some course =>
       if bool_decide (Z.of_nat (length days_used) < Z.min (total_hours course) 3)
       then [mkConflict "poor_distribution" "soft" []] else []
   | None => []
   end) ++
  (tv ← group_by teacher_name (entries p);
   dv ← group_by (λ e, day (time_slot e)) tv.2;
   if bool_decide (6 < length dv.2)%nat
   then [mkConflict "teacher_overload" "soft" []] else []).

(** [sum(c.total_hours * len(c.batches) for c in courses.values())] *)
Definition total_required (cs : list (string * Course)) : Z :=
  foldl (λ acc kc, acc + total_hours kc.2 * Z.of_nat (length (batches kc.2))) 0 cs.

(** [len(proposal.entries) / total_required if total_required > 0 else 0],
    the exact quotient; the code holds it rounded, [Binary64.of_Q] of
    this. *)
Definition coverage (p : TimetableProposal) (cs : list (string * Course)) : Q :=
  if bool_decide (total_required cs > 0)
  then Qmake (Z.of_nat (length (entries p))) (Z.to_pos (total_required cs))
  else 0%Q.

(** The score before [round]: [score = 1.0], [score -= hard * 0.1],
    [score -= soft * 0.02], the clamp, [score *= coverage], every
    operation rounded; [cov] is the exact quotient of the two integers,
    which the division rounds. *)
Definition raw_score (hard soft : nat) (cov : Q) : Q :=
  let fl := Binary64.of_Q in
  let score := 1%Q in
  let score := fl (score - fl (fl (inject_Z (Z.of_nat hard)) * fl (1 # 10)))%Q in
  let score := fl (score - fl (fl (inject_Z (Z.of_nat soft)) * fl (2 # 100)))%Q in
  let score := Qmax 0 (Qmin 1 score) in
  fl (score * fl cov)%Q.

(** [round(x, 3)] on a [float]: the float nearest to the multiple of
    1/1000 that is nearest to [x] (ties to even; [x] is taken exactly). *)
Definition round3 (x : Q) : Q :=
  Binary64.of_Q
    (Qmake (Binary64.nearest_even (Qnum (x * 1000)) (Z.pos (Qden (x * 1000)))) 1000).

Definition hard_conflicts (p : TimetableProposal) (cs : list (string * Course))
    (config : SchedulingConfig) : list Conflict :=
  _check_teacher_conflicts p ++ _check_room_conflicts p ++
  _check_coverage p cs ++ _check_time_bounds p config.

(** [len([c for c in conflicts if c["severity"] == "hard"])] *)
Definition hard_conflict_count (p : TimetableProposal) (cs : list (string * Course))
    (config : SchedulingConfig) : nat :=
  length (filter (λ c, severity c = "hard") (hard_conflicts p cs config)).

(** The value [verify] passes as [score] to [VerificationResult]. *)
Definition computed_score (p : TimetableProposal) (cs : list (string * Course))
    (config : SchedulingConfig) : Q :=
  round3 (raw_score (hard_conflict_count p cs config)
                    (length (_check_soft_constraints p cs config))
                    (coverage p cs)).

(** [verify]; [teachers] and [constraints] are not read, the feedback
    texts are left out.  [None] is the validation error of
    [VerificationResult], whose [score] field is declared
    [ge=0.0, le=1.0].  The test [coverage >= 0.95] is made on the exact
    quotient: the rounded quotient compares in the same way with the
    float 0.95 as long as [total_required] is at most 2^48
    ([coverage_test_exact]). *)
Definition verify (p : TimetableProposal) (cs : list (string * Course))
    (teachers : list (string * Teacher)) (config : SchedulingConfig)
    : option VerificationResult :=
  let conflicts := hard_conflicts p cs config in
  let soft_issues := _check_soft_constraints p cs config in
  let score := computed_score p cs config in
  let valid := bool_decide (hard_conflict_count p cs config = 0%nat) &&
               Qle_bool (95 # 100) (coverage p cs) in
  if Qle_bool 0 score && Qle_bool score 1
  then Some (mkResult (proposal_id p) valid score (conflicts ++ soft_issues))
  else None.

End Verifier.

(** ** The slot-selection policy in the words of the specification *)

Module Policy.

(** The time grid is the cross product of the five weekdays and the hours
    from 10 to 17. *)
Definition in_grid (s : Slot) : Prop := 10 ≤ s.2 ≤ 17.

Definition day_rank (d : Day) : Z :=
  match d with
  | MONDAY => 1 | TUESDAY => 2 | WEDNESDAY => 3 | THURSDAY => 4 | FRIDAY => 5
  end.

(** The canonical order of the grid: day, then hour ascending. *)
Definition slot_before (s1 s2 : Slot) : Prop :=
  day_rank s1.1 < day_rank s2.1 ∨ (s1.1 = s2.1 ∧ s1.2 < s2.2).

(** The place of a room in its pool (the first, if the pool names it more
    than once). *)
Fixpoint pool_rank (rooms : list string) (room : string) : nat :=
  match rooms with
  | [] => 0
  | r :: rest => if decide (r = room) then 0 else S (pool_rank rest room)
  end.

(** The canonical order of (slot, room) pairs: the order of the slots,
    then the order of the pool. *)
Definition before (rooms : list string) (c1 c2 : Slot * string) : Prop :=
  slot_before c1.1 c2.1 ∨ (c1.1 = c2.1 ∧ (pool_rank rooms c1.2 < pool_rank rooms c2.2)%nat).

(** A candidate: a slot of the grid where the teacher is free, with a
    room of the pool that is free in it. *)
Definition candidate (st : CAP.State) (teacher : string) (rooms : list string)
    (c : Slot * string) : Prop :=
  in_grid c.1 ∧ (teacher ∉ get_set (CAP.teacher_schedule st) c.1) ∧
  c.2 ∈ rooms ∧ get_bool (CAP.room_schedule st) c = false.

(** [conflict_weight(a, b)]: the counter that the index keeps for the
    pair, under its canonical key. *)
Definition conflict_weight (idx : Overlap.Index) (a b : CB) : Z :=
  get_int (Overlap.pair_student_count idx) (pair_key a b).

(** The marginal conflict cost of a slot: the sum, over the
    course-batches that occupy it, of their conflict weights with [cb]. *)
Definition marginal_cost (idx : Overlap.Index) (st : CAP.State) (cb : CB) (s : Slot) : Z :=
  foldr (λ occupant r, conflict_weight idx cb occupant + r) 0
        (elements (get_set (CAP.slot_courses st) s)).

(** [c] is the first, in canonical order, of the pairs with the property
    [P]. *)
Definition first_of (rooms : list string) (P : Slot * string → Prop) (c : Slot * string)
    : Prop :=
  P c ∧ ∀ c', P c' → c' = c ∨ before rooms c c'.

(** What the policy selects.  Nothing, if there is no candidate.
    Otherwise a candidate with its cost: the first of the zero-cost
    candidates if there is one, else the first of the candidates of
    globally minimum cost. *)
Definition selects (idx : Overlap.Index) (st : CAP.State) (cb : CB) (teacher : string)
    (rooms : list string) (result : option (Slot * string * Z)) : Prop :=
  let cand := candidate st teacher rooms in
  let cost := λ c : Slot * string, marginal_cost idx st cb c.1 in
  match result with
  | None => ∀ c, ¬ cand c
  | Some (s, room, k) =>
      cand (s, room) ∧ k = cost (s, room) ∧
      ((∃ c, cand c ∧ cost c = 0) →
       first_of rooms (λ c, cand c ∧ cost c = 0) (s, room)) ∧
      ((∀ c, cand c → cost c ≠ 0) →
       first_of rooms (λ c, cand c ∧ ∀ c', cand c' → cost c ≤ cost c') (s, room))
  end.

(** The occupancy maps of [st] and [st'] hold the same for the slot [s]
    and for every slot before it. *)
Definition same_up_to (s : Slot) (st st' : CAP.State) : Prop :=
  ∀ s', s' = s ∨ slot_before s' s →
    get_set (CAP.teacher_schedule st) s' = get_set (CAP.teacher_schedule st') s' ∧
    (∀ room, get_bool (CAP.room_schedule st) (s', room)
             = get_bool (CAP.room_schedule st') (s', room)) ∧
    get_set (CAP.slot_courses st) s' = get_set (CAP.slot_courses st') s'.

End Policy.

(** ** Double booking *)

(** How many entries put teacher [t], or room [r], in slot [s]. *)
Definition teacher_bookings (es : list ScheduleEntry) (s : Slot) (t : string) : nat :=
  length (filter (λ e, entry_slot e = s ∧ teacher_name e = t) es).

Definition room_bookings (es : list ScheduleEntry) (s : Slot) (r : string) : nat :=
  length (filter (λ e, entry_slot e = s ∧ entry_room_id e = r) es).

Definition no_double_booking (es : list ScheduleEntry) : Prop :=
  ∀ (d : Day) (h : Z),
    (∀ t, (teacher_bookings es (d, h) t ≤ 1)%nat) ∧ (∀ r, (room_bookings es (d, h) r ≤ 1)%nat).

(** ** Properties of entry lists that the claims speak of *)

(** [e1] and [e2] are the two hours of a lab block: both lab entries of one
    course-batch, same day, same room, [e2] on the hour after [e1]. *)
Definition lab_block (e1 e2 : ScheduleEntry) : Prop :=
  session_type e1 = LAB ∧ session_type e2 = LAB ∧ entry_cb e1 = entry_cb e2 ∧
  day (time_slot e1) = day (time_slot e2) ∧ entry_room_id e1 = entry_room_id e2 ∧
  hour (time_slot e2) = hour (time_slot e1) + 1.

(** Every lab entry is followed by its block partner on the next hour. *)
Definition lab_adjacent (es : list ScheduleEntry) : Prop :=
  Forall (λ e, session_type e = LAB → Exists (λ e', lab_block e e') es) es.

(** Every lab entry is one half of a block. *)
Definition lab_paired (es : list ScheduleEntry) : Prop :=
  Forall (λ e, session_type e = LAB → Exists (λ e', lab_block e e' ∨ lab_block e' e) es) es.

(** A theory entry in a room of the pool [rooms]. *)
Definition theory_in (rooms : list Room) (e : ScheduleEntry) : Prop :=
  session_type e = THEORY ∧ entry_room_id e ∈ room_id <$> rooms.

(** The number of placed sessions of a course-batch. *)
Definition placed (es : list ScheduleEntry) (cb : CB) : nat :=
  length (filter (λ e, entry_cb e = cb) es).

(** A record lists the course-batch [a] at most once. *)
Definition listed_once (a : CB) (cbs : list CB) : Prop :=
  (length (filter (λ x, x = a) cbs) ≤ 1)%nat.

(** ** Invariants and auxiliary notions of the proofs *)

Section cap_notions.
Import Overlap CAP Refine.

(** What every state of the two loops of [_load_student_conflicts]
    satisfies: the counts are non-negative and the adjacency sets hold
    exactly the pairs with a positive count. *)
Definition index_ok (st : gmap CB (gset CB) * gmap (CB * CB) Z) : Prop :=
  (∀ k, 0 ≤ get_int st.2 k) ∧
  (∀ a b, b ∈ get_set st.1 a ↔ 0 < get_int st.2 (pair_key a b)).

(** The marginal cost as a sum of conflict weights. *)
Definition weights_sum (idx : Index) (cb : CB) (l : list CB) : Z :=
  foldr (λ x r, conflict_weight idx cb x + r) 0 l.

(** No two entries share a (slot, teacher) key or a (slot, room) key. *)
Definition NDB (es : list ScheduleEntry) : Prop :=
  NoDup ((λ e, (entry_slot e, teacher_name e)) <$> es) ∧
  NoDup ((λ e, (entry_slot e, entry_room_id e)) <$> es).

(** Every entry is recorded as busy by the occupancy tests [tb] (teacher)
    and [rb] (room). *)
Definition recorded (tb rb : Slot → string → Prop) (es : list ScheduleEntry) : Prop :=
  ∀ e, e ∈ es → tb (entry_slot e) (teacher_name e) ∧ rb (entry_slot e) (entry_room_id e).

Definition cap_booked (st : State) : Prop :=
  NDB (st_entries st) ∧
  recorded (λ s t, t ∈ get_set (teacher_schedule st) s)
           (λ s r, get_bool (room_schedule st) (s, r) = true) (st_entries st).

(** The course-batches that the entries put in slot [s], in entry order. *)
Definition slot_cbs (es : list ScheduleEntry) (s : Slot) : list CB :=
  entry_cb <$> filter (λ e, entry_slot e = s) es.

(** The weights of [cb] against the members of [l]. *)
Definition against (psc : gmap (CB * CB) Z) (cb : CB) (l : list CB) : Z :=
  foldr (λ x r, get_int psc (pair_key x cb) + r) 0 l.

Definition recount (psc : gmap (CB * CB) Z) (es : list ScheduleEntry) : Z :=
  map_fold (λ _ cbs total, total + pairs_total psc cbs) 0 (group_by_slot es).

(** The teacher of a course-batch, read off the course dictionary. *)
Definition assigned_teacher (cs : list (string * Course)) (cb : CB) : string :=
  match dict_get cb.1 cs with
  | Some c => teacher_of c cb.2
  | None => "TBA"
  end.

(** What the run maintains of its conflict total, of [slot_courses] and of
    the teachers of its entries. *)
Definition recount_inv (idx : Index) (cs : list (string * Course)) (st : State) : Prop :=
  total_conflicts st = recount (pair_student_count idx) (st_entries st) ∧
  (∀ s x, x ∈ get_set (slot_courses st) s ↔ x ∈ slot_cbs (st_entries st) s) ∧
  (∀ s, NoDup (slot_cbs (st_entries st) s)) ∧
  (∀ e, e ∈ st_entries st →
     teacher_name e ∈ get_set (teacher_schedule st) (entry_slot e) ∧
     teacher_name e = assigned_teacher cs (entry_cb e)).

End cap_notions.

Section pa_notions.
Import PA.

(** The occupancy tests of the planner: the teacher set of the slot, and
    the room dictionary of the pool the room id belongs to. *)
Definition pa_teacher_busy (st : State) (s : Slot) (t : string) : Prop :=
  t ∈ get_set (teacher_schedule st) s.

Definition pa_room_busy (st : State) (s : Slot) (r : string) : Prop :=
  (if String.prefix "LAB" r then get_bool (lab_room_schedule st) (s, r)
   else get_bool (regular_room_schedule st) (s, r)) = true.

(** [pre] holds the entries kept from an earlier pass. *)
Definition pa_booked (pre : list ScheduleEntry) (st : State) : Prop :=
  NDB (pre ++ st_entries st) ∧
  recorded (pa_teacher_busy st) (pa_room_busy st) (pre ++ st_entries st).

(** What [collect_slots] checks of a slot before it keeps it. *)
Definition slot_ok (st : State) (alt : string) (rooms : list Room)
    (p : TimeSlot * Room * SessionType) : Prop :=
  (alt ∉ get_set (teacher_schedule st) (slot_key p.1.1)) ∧
  p.1.2 ∈ rooms ∧
  get_bool (regular_room_schedule st) (slot_key p.1.1, room_id p.1.2) = false ∧
  p.2 = THEORY.

End pa_notions.

(** ** Worked inputs *)

(** Two students, both enrolled in CS101-B1 and MA101-B2. *)
Definition two_students : list (list CB) :=
  [[("CS101", "B1"); ("MA101", "B2")]; [("MA101", "B2"); ("CS101", "B1")]].


(** A course dictionary entry: the course [k] of type [t] with batches [b],
    no recorded batch sizes and the teacher assignments [ta]. *)
Definition mk_course (k : string) (t : CourseType) (b : list string)
    (ta : list (string * string)) : string * Course :=
  (k, mkCourse k t (Z.of_nat (length b)) b [] (list_to_map ta)).

Definition mk_teachers (l : list string) : list (string * Teacher) :=
  (λ n, (n, mkTeacher n [])) <$> l.

Definition empty_index : Overlap.Index := Overlap.mkIndex ∅ ∅ ∅.

(** Teacher T gives ten four-hour courses, forty hours in a grid of forty
    slots; teacher U gives the course D; one student takes all eleven. *)
Definition busy_codes : list string :=
  ["C01"; "C02"; "C03"; "C04"; "C05"; "C06"; "C07"; "C08"; "C09"; "C10"].

Definition busy_teacher_courses : list (string * Course) :=
  mk_course "D" THEORY_4HR ["B1"] [("B1", "U")] ::
  ((λ k, mk_course k THEORY_4HR ["B1"] [("B1", "T")]) <$> busy_codes).

Definition one_student_everywhere : list (list CB) :=
  [("D", "B1") :: ((λ k, (k, "B1")) <$> busy_codes)].

(** The default configuration: five days, 10:00 to 18:00. *)
Definition week : SchedulingConfig := mkConfig list_Day 10 18 10 90.

(** One teacher for a four-hour course and for a course with a lab. *)
Definition two_courses : list (string * Course) :=
  [mk_course "X" THEORY_4HR ["B1"] [("B1", "T")];
   mk_course "A" THEORY_3HR_LAB_2HR ["B1"] [("B1", "T")]].

(** A Monday of three hours, and one course with a lab. *)
Definition short_monday : SchedulingConfig := mkConfig [MONDAY] 10 13 10 90.

Definition lab_course : list (string * Course) :=
  [mk_course "A" THEORY_3HR_LAB_2HR ["B1"] [("B1", "T1")]].

(** A configuration that lists Monday four times, one hour a day. *)
Definition four_mondays : SchedulingConfig :=
  mkConfig [MONDAY; MONDAY; MONDAY; MONDAY] 10 11 10 90.

Definition one_course : list (string * Course) :=
  [mk_course "C1" THEORY_4HR ["B1"] [("B1", "T1")]].

(** The entries of the schedule pass on [lab_course] and [short_monday]:
    the lab block on Monday 10 and 11, one theory hour on Monday 12. *)
Definition short_monday_entries : list ScheduleEntry :=
  [mkEntry "A" "B1" "T1" "LAB1" (mkTimeSlot MONDAY 10) LAB 60;
   mkEntry "A" "B1" "T1" "LAB1" (mkTimeSlot MONDAY 11) LAB 60;
   mkEntry "A" "B1" "T1" "R1" (mkTimeSlot MONDAY 12) THEORY 60].

Definition short_monday_marks : gmap Slot (gset CB) :=
  {[ (MONDAY, 10) := {[ ("A", "B1") ]}; (MONDAY, 11) := {[ ("A", "B1") ]};
     (MONDAY, 12) := {[ ("A", "B1") ]} ]}.

(** Eight theory entries of C-B1, two a day from Monday to Thursday, for a
    course that needs four. *)
Definition over_covered : TimetableProposal :=
  mkProposal "p"
    ((λ dh : Day * Z, mkEntry "C" "B1" "T" "R1" (mkTimeSlot dh.1 dh.2) THEORY 60) <$>
     [(MONDAY, 10); (MONDAY, 11); (TUESDAY, 10); (TUESDAY, 11);
      (WEDNESDAY, 10); (WEDNESDAY, 11); (THURSDAY, 10); (THURSDAY, 11)])
    "manual".

Definition four_hour_course : list (string * Course) :=
  [mk_course "C" THEORY_4HR ["B1"] [("B1", "T")]].

(** Two students take A-B1 with X-B1, a third takes A-B1 with Y-B1. *)
Definition shared_students : list (list CB) :=
  [[("A", "B1"); ("X", "B1")]; [("A", "B1"); ("X", "B1")]; [("A", "B1"); ("Y", "B1")]].

(** The slots that teacher T has left in [crowded_week]. *)
Definition free_slots : list Slot :=
  [(TUESDAY, 11); (WEDNESDAY, 10); (WEDNESDAY, 11); (THURSDAY, 10)].

(** A week in which teacher T is busy but for four slots, each of them
    occupied by X-B1 or Y-B1 or both, and room R1 is taken in the second
    of them. *)
Definition crowded_week : CAP.State :=
  CAP.mkState []
    (foldr (λ s m, if decide (s ∈ free_slots) then m else set_add m s "T") ∅ CAP.grid)
    {[ ((WEDNESDAY, 10), "R1") := true ]}
    {[ (TUESDAY, 11) := {[ ("X", "B1") ]}; (WEDNESDAY, 10) := {[ ("Y", "B1") ]};
       (WEDNESDAY, 11) := {[ ("Y", "B1") ]};
       (THURSDAY, 10) := {[ ("X", "B1"); ("Y", "B1") ]} ]}
    0 0.

(** The same week with teacher T free, and nobody placed, on Friday at 17. *)
Definition crowded_week_but_friday : CAP.State :=
  CAP.mkState []
    (delete (FRIDAY, 17) (CAP.teacher_schedule crowded_week))
    (CAP.room_schedule crowded_week) (CAP.slot_courses crowded_week) 0 0.

(** ** Further parts of the code and the notions of their properties *)

(** An entry lies within the configured days and hours. *)
Definition within (config : SchedulingConfig) (e : ScheduleEntry) : Prop :=
  day (time_slot e) ∈ days config ∧
  start_hour config ≤ hour (time_slot e) < end_hour config.

(** [g[k]] on a grouped dictionary, the empty list when the key is absent. *)
Definition group_lookup {K V} `{EqDecision K} (k : K) (g : list (K * list V)) : list V :=
  default [] (snd <$> List.find (λ kv, bool_decide (kv.1 = k)) g).

(** Four theory entries of C-B1, one a day from Monday to Thursday: what
    [four_hour_course] requires. *)
Definition exactly_covered : TimetableProposal :=
  mkProposal "q"
    ((λ d : Day, mkEntry "C" "B1" "T" "R1" (mkTimeSlot d 10) THEORY 60) <$>
     [MONDAY; TUESDAY; WEDNESDAY; THURSDAY])
    "manual".

(** The hours that a list of sessions asks for. *)
Definition hours_asked (l : list CAP.Session) : nat :=
  foldr (λ se r, (Z.to_nat (CAP.s_hours se) + r)%nat) 0%nat l.

(** An entry of the conflict-aware planner: an hour of the fixed grid and
    a room of the pool of its session type. *)
Definition cap_entry_ok (e : ScheduleEntry) : Prop :=
  10 ≤ hour (time_slot e) ≤ 17 ∧
  entry_room_id e ∈ (if decide (session_type e = LAB) then CAP.lab_rooms
                     else CAP.regular_rooms).

(** An entry [e1] that was placed before [e2] does not clash with it: the
    two are in different slots, or the course-batch of [e1] is not among
    the conflicts of the course-batch of [e2]. *)
Definition no_clash (conflicts : gmap CB (gset CB)) (e1 e2 : ScheduleEntry) : Prop :=
  entry_slot e1 = entry_slot e2 → entry_cb e1 ∉ get_set conflicts (entry_cb e2).

(** No entry clashes with an earlier one. *)
Definition clash_free (conflicts : gmap CB (gset CB)) (es : list ScheduleEntry) : Prop :=
  StronglySorted (no_clash conflicts) es.

(** The entries are free of clashes and [slot_schedule] has a mark for
    each of them; [pre] holds the entries kept from an earlier pass. *)
Definition pa_marked (conflicts : gmap CB (gset CB)) (pre : list ScheduleEntry)
    (st : PA.State) : Prop :=
  clash_free conflicts (pre ++ PA.st_entries st) ∧
  ∀ e, e ∈ pre ++ PA.st_entries st →
       entry_cb e ∈ get_set (PA.slot_schedule st) (entry_slot e).

(** An entry of the optimized planner: a slot of the configuration, on an
    hour a [TimeSlot] admits, in a room of the pool of its session type. *)
Definition pa_entry_ok (config : SchedulingConfig) (e : ScheduleEntry) : Prop :=
  within config e ∧ 10 ≤ hour (time_slot e) ≤ 17 ∧
  entry_room_id e ∈ room_id <$> (if decide (session_type e = LAB) then PA.lab_rooms config
                                 else PA.regular_rooms config).

(** What [collect_slots] checks of a slot besides [slot_ok]: no
    course-batch marked in it conflicts with the one to place. *)
Definition slot_clear (o : SetOrder) (conflicts : gmap CB (gset CB)) (st : PA.State)
    (course batch : string) (p : TimeSlot * Room * SessionType) : Prop :=
  PA.check_slot_available o conflicts (PA.slot_schedule st) course batch
    (day p.1.1) (hour p.1.1) = true.

(** The course-batches X-B1 and A-B1 share a student. *)
Definition x_a_conflict : gmap CB (gset CB) :=
  {[ ("X", "B1") := {[ ("A", "B1") ]}; ("A", "B1") := {[ ("X", "B1") ]} ]}.

(** ** The student conflict matrix ([utils/student_conflicts.py]) *)

Module SCM.

(** The body of the inner loop of [_load_conflicts], for one pair of a
    student's record. *)
Definition add_conflict (m : gmap CB (gset CB)) (cb1 cb2 : CB) : gmap CB (gset CB) :=
  set_add (set_add m cb1 cb2) cb2 cb1.

(** [for i, cb1 in enumerate(course_batches): for cb2 in course_batches[i+1:]: ...] *)
Fixpoint add_row (cbs : list CB) (m : gmap CB (gset CB)) : gmap CB (gset CB) :=
  match cbs with
  | [] => m
  | cb1 :: rest => add_row rest (foldl (λ m cb2, add_conflict m cb1 cb2) m rest)
  end.

(** [_load_conflicts], from the rows' [course_batches] lists on; [None]
    stands for a missing allocation file, which leaves the matrix empty. *)
Definition _load_conflicts (file : option (list (list CB))) : gmap CB (gset CB) :=
  match file with
  | None => ∅
  | Some rows => foldl (λ m cbs, add_row cbs m) ∅ rows
  end.

(** [unmark_scheduled]: [slot_schedule[slot_key].discard(cb)] *)
Definition unmark_scheduled (ss : gmap Slot (gset CB)) (course batch : string)
    (d : Day) (h : Z) : gmap Slot (gset CB) :=
  <[(d, h) := get_set ss (d, h) ∖ {[(course, batch)]}]> ss.

(** [get_conflicts_count] *)
Definition get_conflicts_count (conflicts : gmap CB (gset CB)) (course batch : string) : Z :=
  Z.of_nat (size (get_set conflicts (course, batch))).

(** [reset_schedule] *)
Definition reset_schedule (ss : gmap Slot (gset CB)) : gmap Slot (gset CB) := ∅.

End SCM.

(** The course-batches [a] and [b] stand at two different places of the
    record [row]. *)
Definition listed_together (a b : CB) (row : list CB) : Prop :=
  ∃ i j : nat, i ≠ j ∧ row !! i = Some a ∧ row !! j = Some b.

(** One student, enrolled in X-B1 and A-B1. *)
Definition x_a_students : list (list CB) := [[("X", "B1"); ("A", "B1")]].

(** ** The refinement agent ([agents/refinement_agent.py]) *)

Module Refinement.

(** An element of the list [analyze_conflicts] returns. *)
Record SlotConflict := mkSlotConflict {
  sc_day : string;
  sc_hour : Z;
  sc_courses : list string;
  sc_conflicts : Z
}.

(** [analyze_conflicts]: the entries grouped by slot in the order in which
    the slots first occur, the pair counts of each group summed, the
    groups with a positive sum kept and sorted by falling sum. *)
Definition analyze_conflicts (p : TimetableProposal) (student_conflicts : gmap (CB * CB) Z)
    : list SlotConflict :=
  let slot_conflicts :=
    kv ← Verifier.group_by entry_slot (entries p);
    let conflict_count := Refine.pairs_total student_conflicts (entry_cb <$> kv.2) in
    if bool_decide (conflict_count > 0)
    then [mkSlotConflict (Day_value kv.1.1) kv.1.2 (Verifier.label <$> kv.2) conflict_count]
    else [] in
  sorted_by (λ x y, bool_decide (- sc_conflicts x ≤ - sc_conflicts y)) slot_conflicts.

(** A move of the language model after parsing: the target course-batch
    and the destination day and hour.  A move whose target or destination
    does not parse is skipped by the source and is not listed here. *)
Record Move := mkMove {
  m_course : string;
  m_batch : string;
  to_day : Day;
  to_hour : Z
}.

(** The entries, the occupancy sets and the counter of [apply_refinements]. *)
Record State := mkState {
  st_entries : list ScheduleEntry;
  teacher_schedule : gmap Slot (gset string);
  room_schedule : gmap Slot (gset string);
  applied : Z
}.

(** [d[k].discard(v)] on a [defaultdict(set)] *)
Definition set_discard (m : gmap Slot (gset string)) (k : Slot) (v : string)
    : gmap Slot (gset string) :=
  <[k := get_set m k ∖ {[v]}]> m.

(** The occupancy built from the entries. *)
Definition init_state (es : list ScheduleEntry) : State :=
  foldl (λ st e, mkState (st_entries st)
                   (set_add (teacher_schedule st) (entry_slot e) (teacher_name e))
                   (set_add (room_schedule st) (entry_slot e) (entry_room_id e))
                   (applied st))
        (mkState es ∅ ∅ 0) es.

(** The room of the moved entry: its own when free in the new slot, else
    the first free one of LAB1..LAB7 or of R1..R28, by the prefix of its
    own room. *)
Definition room_to_use (st : State) (new_slot : Slot) (entry : ScheduleEntry)
    : option string :=
  if bool_decide (entry_room_id entry ∈ get_set (room_schedule st) new_slot)
  then List.find (λ r, bool_decide (r ∉ get_set (room_schedule st) new_slot))
         (if String.prefix "LAB" (entry_room_id entry)
          then (λ r, "LAB" +:+ pretty r) <$> range 1 8
          else (λ r, "R" +:+ pretty r) <$> range 1 29)
  else Some (entry_room_id entry).

(** The move applied to the entry at index [i]; [None] is the validation
    error of [TimeSlot], raised after the occupancy sets were updated. *)
Definition relocate (mv : Move) (i : nat) (entry : ScheduleEntry) (room : string)
    (st : State) : option State :=
  let new_slot := (to_day mv, to_hour mv) in
  let old_slot := entry_slot entry in
  let ts := set_add (set_discard (teacher_schedule st) old_slot (teacher_name entry))
              new_slot (teacher_name entry) in
  let rs := set_add (set_discard (room_schedule st) old_slot (entry_room_id entry))
              new_slot room in
  slot ← TimeSlot_new (to_day mv) (to_hour mv);
  let new_entry := mkEntry (course_code entry) (batch_id entry) (teacher_name entry) room
                     slot (session_type entry) (student_count entry) in
  Some (mkState (<[i := new_entry]> (st_entries st)) ts rs (applied st + 1)).

(** [for i, entry in enumerate(entries): ...]: the first entry of the
    target whose teacher is free in the new slot and that finds a room
    there is moved, and the loop is left. *)
Fixpoint move_entry (mv : Move) (rest : list ScheduleEntry) (i : nat) (st : State)
    : option State :=
  match rest with
  | [] => Some st
  | entry :: rest' =>
      if bool_decide (course_code entry = m_course mv ∧ batch_id entry = m_batch mv)
      then
        if bool_decide (teacher_name entry ∈
                          get_set (teacher_schedule st) (to_day mv, to_hour mv))
        then move_entry mv rest' (S i) st
        else
          match room_to_use st (to_day mv, to_hour mv) entry with
          | None => move_entry mv rest' (S i) st
          | Some room => relocate mv i entry room st
          end
      else move_entry mv rest' (S i) st
  end.

(** [apply_refinements], from the parsed moves on. *)
Definition apply_refinements (p : TimetableProposal) (moves : list Move)
    : option (TimetableProposal * Z) :=
  st ← foldl (λ (acc : option State) mv,
                st ← acc; move_entry mv (st_entries st) 0 st)
             (Some (init_state (entries p))) moves;
  Some (mkProposal (proposal_id p +:+ "_refined") (st_entries st) "llm_refined",
        applied st).

End Refinement.

(** What a move leaves of an entry: the course-batch, the teacher, the
    session type, the student count, and whether the room is a lab room. *)
Definition session_of (e : ScheduleEntry) : CB * string * SessionType * Z * bool :=
  (entry_cb e, teacher_name e, session_type e, student_count e,
   String.prefix "LAB" (entry_room_id e)).

(** The entries book no teacher and no room twice, and the occupancy sets
    hold the teacher and the room of each of them. *)
Definition refine_booked (st : Refinement.State) : Prop :=
  NDB (Refinement.st_entries st) ∧
  recorded (λ s t, t ∈ get_set (Refinement.teacher_schedule st) s)
           (λ s r, r ∈ get_set (Refinement.room_schedule st) s) (Refinement.st_entries st).

(** CS101-B1 and MA101-B2 in the same slot, and a room to spare. *)
Definition shared_slot : TimetableProposal :=
  mkProposal "s"
    [mkEntry "CS101" "B1" "T1" "R1" (mkTimeSlot MONDAY 10) THEORY 60;
     mkEntry "MA101" "B2" "T2" "R2" (mkTimeSlot MONDAY 10) THEORY 60;
     mkEntry "PH101" "B1" "T3" "R1" (mkTimeSlot TUESDAY 11) THEORY 60]
    "manual".

(** The move of CS101-B1 to Tuesday 11, and a move to an hour that no
    [TimeSlot] admits. *)
Definition to_tuesday : Refinement.Move := Refinement.mkMove "CS101" "B1" TUESDAY 11.
Definition to_evening : Refinement.Move := Refinement.mkMove "CS101" "B1" TUESDAY 19.

(** [day_map.get(s)]: the day of a name, [None] for any other string. *)
Definition Day_of_value (s : string) : option Day :=
  List.find (λ d, bool_decide (Day_value d = s)) list_Day.

(** ** The planner driven by the answers of a language model
       ([agents/llm_planner.py]) *)

Module LLMPlanner.

(** An item of the JSON array in an answer.  A missing key reads as the
    default of [item.get]: the empty string, or the hour 0. *)
Record Item := mkItem {
  i_course : string;
  i_batch : string;
  i_teacher : string;
  i_room : string;
  i_day : string;
  i_hour : Z;
  i_type : string
}.

Record State := mkState {
  scheduled_entries : list ScheduleEntry;
  teacher_schedule : gmap Slot (gset string);
  room_schedule : gmap (Slot * string) bool
}.

(** [_create_entry_from_llm]; [None] for an item that is turned down, also
    when a constructor raises. *)
Definition _create_entry_from_llm (item : Item) (config : SchedulingConfig)
    : option ScheduleEntry :=
  d ← Day_of_value (i_day item);
  if bool_decide (i_hour item < 10 ∨ i_hour item > 17) then None
  else
    slot ← TimeSlot_new d (i_hour item);
    Some (mkEntry (i_course item) (i_batch item) (i_teacher item) (i_room item) slot
            (if bool_decide (i_type item = "lab") then LAB else THEORY) 60).

(** [_is_valid_entry] *)
Definition _is_valid_entry (st : State) (entry : ScheduleEntry) : bool :=
  if bool_decide (teacher_name entry ∈ get_set (teacher_schedule st) (entry_slot entry))
  then false
  else if get_bool (room_schedule st) (entry_slot entry, entry_room_id entry) then false
  else true.

(** The body of the loop over [new_entries]. *)
Definition add_entry (st : State) (entry : ScheduleEntry) : State :=
  if _is_valid_entry st entry
  then mkState (scheduled_entries st ++ [entry])
         (set_add (teacher_schedule st) (entry_slot entry) (teacher_name entry))
         (<[(entry_slot entry, entry_room_id entry) := true]> (room_schedule st))
  else st.

(** The entries that [_llm_schedule_batch] makes of the items of an answer. *)
Definition new_entries (items : list Item) (config : SchedulingConfig) : list ScheduleEntry :=
  omap (λ item, _create_entry_from_llm item config) items.

(** [(len(course_summaries) + batch_size - 1) // batch_size], with one
    summary per batch of a course and [batch_size = 20]. *)
Definition total_batches (cs : list (string * Course)) : Z :=
  (Z.of_nat (length (kc ← cs; batches kc.2)) + 20 - 1) `div` 20.

(** [generate_proposal]; [llm batch_idx st] is the list of items of the
    answer to the prompt of batch [batch_idx], which is written from the
    state [st]. *)
Definition generate_proposal (llm : Z → State → list Item) (now : Z)
    (cs : list (string * Course)) (teachers : list (string * Teacher))
    (config : SchedulingConfig) : TimetableProposal :=
  let st :=
    foldl (λ st batch_idx, foldl add_entry st (new_entries (llm batch_idx st) config))
          (mkState [] ∅ ∅) (range 0 (total_batches cs)) in
  mkProposal ("llm_full_" +:+ pretty now) (scheduled_entries st) "llm_full_scheduling".

End LLMPlanner.

(** ** The planner driven by tool calls ([agents/tool_planner.py]) *)

Module ToolPlanner.

(** The arguments of a call of [check_slot_available] or [assign_slot]. *)
Record Args := mkArgs {
  a_course : string;
  a_batch : string;
  a_teacher : string;
  a_room : string;
  a_day : string;
  a_hour : Z;
  a_session_type : string
}.

(** The state of the agent: [teacher_schedule] keeps one teacher per
    slot, [course_progress] the pair (theory, lab) per course-batch label. *)
Record State := mkState {
  scheduled_entries : list ScheduleEntry;
  teacher_schedule : gmap (string * Z) string;
  room_schedule : gmap (string * Z * string) bool;
  course_progress : gmap string (Z * Z)
}.

(** [reset_state] *)
Definition reset_state : State := mkState [] ∅ ∅ ∅.

(** [_check_slot]: the value of ["available"]. *)
Definition _check_slot (st : State) (a : Args) : bool :=
  if bool_decide (teacher_schedule st !! (a_day a, a_hour a) = Some (a_teacher a)) then false
  else if get_bool (room_schedule st) (a_day a, a_hour a, a_room a) then false
  else true.

(** [_assign_slot]: the new state and the value of ["success"]; [None]
    when a constructor raises. *)
Definition _assign_slot (st : State) (a : Args) : option (State * bool) :=
  if bool_decide (a_hour a < 10 ∨ a_hour a > 17) then Some (st, false)
  else if negb (_check_slot st a) then Some (st, false)
  else
    match Day_of_value (a_day a) with
    | None => Some (st, false)
    | Some d =>
        slot ← TimeSlot_new d (a_hour a);
        let entry := mkEntry (a_course a) (a_batch a) (a_teacher a) (a_room a) slot
                       (if bool_decide (a_session_type a = "lab") then LAB else THEORY) 60 in
        let key := a_course a +:+ "-" +:+ a_batch a in
        let progress :=
          match course_progress st !! key with
          | Some tl =>
              <[key := if bool_decide (a_session_type a = "lab") then (tl.1, tl.2 + 1)
                       else (tl.1 + 1, tl.2)]> (course_progress st)
          | None => course_progress st
          end in
        Some (mkState (scheduled_entries st ++ [entry])
                (<[(a_day a, a_hour a) := a_teacher a]> (teacher_schedule st))
                (<[(a_day a, a_hour a, a_room a) := true]> (room_schedule st))
                progress, true)
    end.

(** A run of [assign_slot] calls, in the order in which they are made. *)
Definition assign_all (st : State) (calls : list Args) : option State :=
  foldl (λ (acc : option State) a, st ← acc; fst <$> _assign_slot st a) (Some st) calls.

End ToolPlanner.

(** The room dictionary of the tool planner holds the room of every
    entry, and no two entries share a slot and a room. *)
Definition tool_rooms_booked (st : ToolPlanner.State) : Prop :=
  NoDup ((λ e, (entry_slot e, entry_room_id e)) <$> ToolPlanner.scheduled_entries st) ∧
  ∀ e, e ∈ ToolPlanner.scheduled_entries st →
       get_bool (ToolPlanner.room_schedule st)
         (Day_value (day (time_slot e)), hour (time_slot e), entry_room_id e) = true.

(** What [add_entry] maintains. *)
Definition llm_booked (st : LLMPlanner.State) : Prop :=
  NDB (LLMPlanner.scheduled_entries st) ∧
  recorded (λ s t, t ∈ get_set (LLMPlanner.teacher_schedule st) s)
           (λ s r, get_bool (LLMPlanner.room_schedule st) (s, r) = true)
           (LLMPlanner.scheduled_entries st).

(** An entry made of an answer of the language model or of a tool call. *)
Definition llm_entry_ok (e : ScheduleEntry) : Prop :=
  10 ≤ hour (time_slot e) ≤ 17 ∧ student_count e = 60.

(** [SchedulingConfig.slots_per_day] and [SchedulingConfig.total_slots] *)
Definition slots_per_day (cfg : SchedulingConfig) : Z := end_hour cfg - start_hour cfg.

Definition total_slots (cfg : SchedulingConfig) : Z :=
  Z.of_nat (length (days cfg)) * slots_per_day cfg.

(** ** The sessions to schedule ([utils/data_loader.py]) *)

Module DataLoader.

(** An element of the list [get_course_batch_sessions] returns. *)
Record SessionRow := mkRow {
  r_course_code : string;
  r_batch_id : string;
  r_teacher_name : string;
  r_session_type : string;
  session_number : Z;
  r_student_count : Z
}.

(** [l.index(b)] *)
Definition index_of (b : string) (l : list string) : option nat :=
  fst <$> list_find (λ x, x = b) l.

(** [get_course_batch_sessions], on the course dictionary. *)
Definition get_course_batch_sessions (cs : list (string * Course)) : list SessionRow :=
  kc ← cs;
  b ← batches kc.2;
  let teacher := default "TBA" (teacher_assignments kc.2 !! b) in
  let student_count :=
    default 0 (batch_idx ← index_of b (batches kc.2); batch_sizes kc.2 !! batch_idx) in
  ((λ h, mkRow kc.1 b teacher "Theory" (h + 1) student_count)
     <$> range 0 (theory_hours kc.2)) ++
  ((λ h, mkRow kc.1 b teacher "Lab" (h + 1) student_count)
     <$> range 0 (lab_hours kc.2)).

End DataLoader.

(** ** The scheduling tools of the crew ([crew/tools.py]) *)

Module Crew.

(** An entry of [state.scheduled_entries]. *)
Record Entry := mkEntry {
  e_day : string;
  e_hour : Z;
  e_teacher : string;
  e_room : string;
  e_course : string;
  e_batch : string;
  e_type : string
}.

(** The state shared by the tools; [course_progress] holds the pair
    (theory, lab) per course-batch. *)
Record State := mkState {
  scheduled_entries : list Entry;
  teacher_schedule : gmap (string * Z) (gset string);
  room_schedule : gmap (string * Z * string) bool;
  student_conflicts : gmap CB (gset CB);
  slot_schedule : gmap (string * Z) (gset CB);
  course_progress : gmap CB (Z * Z)
}.

(** The state after [reset] and [load_data], which fills
    [student_conflicts]. *)
Definition loaded (conflicts : gmap CB (gset CB)) : State := mkState [] ∅ ∅ conflicts ∅ ∅.

(** The arguments of [assign_slot]. *)
Record Args := mkArgs {
  a_day : string;
  a_hour : Z;
  a_teacher : string;
  a_room : string;
  a_course : string;
  a_batch : string;
  a_session_type : string
}.

(** The loop over the course-batches of the slot: whether none of them is
    among the conflicts of [(course, batch)]. *)
Definition no_student_conflict (o : SetOrder) (st : State) (a : Args) : bool :=
  forallb (λ scheduled_cb,
             negb (bool_decide (scheduled_cb ∈
                     get_set (student_conflicts st) (a_course a, a_batch a))))
          (iter o (get_set (slot_schedule st) (a_day a, a_hour a))).

(** [assign_slot]: the new state, and whether the answer is a success. *)
Definition assign_slot (o : SetOrder) (st : State) (a : Args) : State * bool :=
  if bool_decide (a_hour a < 10 ∨ a_hour a > 17) then (st, false)
  else if bool_decide (a_day a ∉ Day_value <$> list_Day) then (st, false)
  else if bool_decide (a_teacher a ∈ get_set (teacher_schedule st) (a_day a, a_hour a))
  then (st, false)
  else if get_bool (room_schedule st) (a_day a, a_hour a, a_room a) then (st, false)
  else if negb (no_student_conflict o st a) then (st, false)
  else
    let cb := (a_course a, a_batch a) in
    let tl := default (0, 0) (course_progress st !! cb) in
    (mkState
       (scheduled_entries st ++
          [mkEntry (a_day a) (a_hour a) (a_teacher a) (a_room a) (a_course a) (a_batch a)
             (a_session_type a)])
       (set_add (teacher_schedule st) (a_day a, a_hour a) (a_teacher a))
       (<[(a_day a, a_hour a, a_room a) := true]> (room_schedule st))
       (student_conflicts st)
       (set_add (slot_schedule st) (a_day a, a_hour a) cb)
       (<[cb := if bool_decide (a_session_type a = "lab") then (tl.1, tl.2 + 1)
                else (tl.1 + 1, tl.2)]> (course_progress st)),
     true).

(** A run of [assign_slot] calls, in the order in which they are made. *)
Definition assign_all (o : SetOrder) (st : State) (calls : list Args) : State :=
  foldl (λ st a, (assign_slot o st a).1) st calls.

(** [verify_schedule]: the numbers it reports as room conflicts and as
    teacher conflicts. *)
Definition verify_schedule (st : State) : Z * Z :=
  let room_check :=
    Verifier.group_by (λ e, (e_day e, e_hour e, e_room e)) (scheduled_entries st) in
  let teacher_check :=
    Verifier.group_by (λ e, (e_day e, e_hour e, e_teacher e)) (scheduled_entries st) in
  (Z.of_nat (length (filter (λ kv, (1 < length kv.2)%nat) room_check)),
   Z.of_nat (length (filter (λ kv, (1 < length kv.2)%nat) teacher_check))).

End Crew.

(** What [assign_slot] of the crew maintains: no two entries share a slot
    and a teacher or a slot and a room, the occupancy holds every entry,
    and no entry shares its slot with an earlier entry of a conflicting
    course-batch. *)
Definition crew_booked (st : Crew.State) : Prop :=
  NoDup ((λ e, (Crew.e_day e, Crew.e_hour e, Crew.e_teacher e))
           <$> Crew.scheduled_entries st) ∧
  NoDup ((λ e, (Crew.e_day e, Crew.e_hour e, Crew.e_room e))
           <$> Crew.scheduled_entries st) ∧
  (∀ e, e ∈ Crew.scheduled_entries st →
     Crew.e_teacher e ∈ get_set (Crew.teacher_schedule st) (Crew.e_day e, Crew.e_hour e) ∧
     get_bool (Crew.room_schedule st) (Crew.e_day e, Crew.e_hour e, Crew.e_room e) = true ∧
     (Crew.e_course e, Crew.e_batch e)
       ∈ get_set (Crew.slot_schedule st) (Crew.e_day e, Crew.e_hour e)) ∧
  StronglySorted
    (λ e1 e2, (Crew.e_day e1, Crew.e_hour e1) = (Crew.e_day e2, Crew.e_hour e2) →
              (Crew.e_course e1, Crew.e_batch e1)
                ∉ get_set (Crew.student_conflicts st) (Crew.e_course e2, Crew.e_batch e2))
    (Crew.scheduled_entries st).

(** The course-batches of the course dictionary, in the order of its
    items. *)
Definition course_batches (cs : list (string * Course)) : list CB :=
  kc ← cs; (λ b, (kc.1, b)) <$> batches kc.2.

(** The hours that the dictionary requires of a course-batch. *)
Definition required_hours (cs : list (string * Course)) (cb : CB) : Z :=
  default 0 (total_hours <$> dict_get cb.1 cs).

(** A course dictionary that holds every course under its own code, as
    [_load_courses] stores them, and in which no course lists a batch
    twice.  (The keys of a [dict] are distinct.) *)
Definition well_keyed (cs : list (string * Course)) : Prop :=
  NoDup (fst <$> cs) ∧ Forall (λ kc, code kc.2 = kc.1 ∧ NoDup (batches kc.2)) cs.

(** The hours that the batch loops of the courses [l] may place for the
    course-batch [cb]. *)
Definition allowance (l : list Course) (cb : CB) : Z :=
  foldr (λ c r,
           foldr (λ b r', (if decide ((code c, b) = cb) then total_hours c else 0) + r')
                 0 (batches c) + r)
        0 l.

(** The hours that the repair pass may place for [cb] on the items [l]. *)
Definition repair_allowance (cs : list (string * Course)) (l : list PA.Unscheduled)
    (cb : CB) : Z :=
  foldr (λ item r,
           (if decide ((PA.u_course item, PA.u_batch item) = cb)
            then default 0 (theory_hours <$> dict_get (PA.u_course item) cs) else 0) + r)
        0 l.

(** * Proofs *)

(** ** Facts on the data model *)

Lemma string_ltb_irrefl (s : string) : String.ltb s s = false.
Proof.
  unfold String.ltb. pose proof (String.compare_antisym s s) as H.
  destruct (String.compare s s); simpl in H; congruence.
Qed.

Lemma cb_lt_irrefl a : cb_lt a a = false.
Proof. unfold cb_lt. rewrite decide_True by done. apply string_ltb_irrefl. Qed.

Lemma string_ltb_total (s t : string) : s ≠ t → String.ltb s t = negb (String.ltb t s).
Proof.
  intros Hne. unfold String.ltb. rewrite (String.compare_antisym t s).
  destruct (String.compare s t) eqn:E; try done.
  by apply String.compare_eq_iff in E.
Qed.

Lemma cb_lt_total (a b : CB) : a ≠ b → cb_lt a b = negb (cb_lt b a).
Proof.
  destruct a as [a1 a2], b as [b1 b2]. unfold cb_lt; simpl. intros Hne.
  destruct (decide (a1 = b1)) as [->|H1].
  - rewrite decide_True by done. apply string_ltb_total. congruence.
  - rewrite decide_False by congruence. by apply string_ltb_total.
Qed.

Lemma pair_key_comm (a b : CB) : pair_key a b = pair_key b a.
Proof.
  destruct (decide (a = b)) as [->|Hne]; [done|].
  unfold pair_key. rewrite (cb_lt_total a b Hne). by destruct (cb_lt b a).
Qed.

Lemma pair_key_cases (a b : CB) : pair_key a b = (a, b) ∨ pair_key a b = (b, a).
Proof. unfold pair_key. destruct (cb_lt a b); auto. Qed.

Lemma pair_key_eq (x y a b : CB) :
  pair_key x y = pair_key a b ↔ (x = a ∧ y = b) ∨ (x = b ∧ y = a).
Proof.
  split.
  - destruct (pair_key_cases x y) as [-> | ->], (pair_key_cases a b) as [-> | ->];
      intros [= -> ->]; auto.
  - intros [[-> ->] | [-> ->]]; [done | apply pair_key_comm].
Qed.

Section dict_facts.
Context `{Countable K} `{Countable V}.

Lemma elem_of_get_set_add (m : gmap K (gset V)) (k k' : K) (v x : V) :
  x ∈ get_set (set_add m k v) k' ↔ x ∈ get_set m k' ∨ (k = k' ∧ x = v).
Proof.
  unfold set_add, get_set. destruct (decide (k = k')) as [<- | Hne].
  - rewrite lookup_insert_eq. simpl. rewrite elem_of_union, elem_of_singleton. intuition.
  - rewrite lookup_insert_ne by done. intuition.
Qed.

Lemma get_int_insert (m : gmap K Z) (k k' : K) (z : Z) :
  get_int (<[k := z]> m) k' = if decide (k = k') then z else get_int m k'.
Proof.
  unfold get_int. destruct (decide (k = k')) as [<- | Hne].
  - by rewrite lookup_insert_eq.
  - by rewrite lookup_insert_ne.
Qed.

Lemma get_bool_insert (m : gmap K bool) (k k' : K) (z : bool) :
  get_bool (<[k := z]> m) k' = if decide (k = k') then z else get_bool m k'.
Proof.
  unfold get_bool. destruct (decide (k = k')) as [<- | Hne].
  - by rewrite lookup_insert_eq.
  - by rewrite lookup_insert_ne.
Qed.
End dict_facts.

(** ** Facts on the overlap index *)

Section overlap_facts.
Import Overlap.

Lemma index_ok_empty : index_ok (∅, ∅).
Proof.
  split; simpl.
  - intros k. unfold get_int. by rewrite lookup_empty.
  - intros a b. unfold get_int, get_set. rewrite !lookup_empty. simpl.
    split; [by intros ?%elem_of_empty | lia].
Qed.

Lemma add_pair_ok st (cb1 cb2 : CB) : index_ok st → index_ok (add_pair st cb1 cb2).
Proof.
  intros [Hnn Hiff]. split; simpl.
  - intros k. rewrite get_int_insert. case_decide; [|done]. specialize (Hnn (pair_key cb1 cb2)). lia.
  - intros a b. rewrite !elem_of_get_set_add, get_int_insert, Hiff.
    pose proof (Hnn (pair_key a b)) as Hab. pose proof (Hnn (pair_key cb1 cb2)) as H12.
    case_decide as Hk.
    + rewrite <- Hk. split; [lia|]. intros _. apply pair_key_eq in Hk.
      destruct Hk as [[<- <-] | [<- <-]]; auto.
    + rewrite pair_key_eq in Hk.
      split; [intros [[H | [-> ->]] | [-> ->]]; [done | destruct Hk; auto..] | auto].
Qed.

Lemma add_pairs_ok (cb1 : CB) (rest : list CB) st :
  index_ok st → index_ok (foldl (λ st cb2, add_pair st cb1 cb2) st rest).
Proof. revert st. induction rest; simpl; auto using add_pair_ok. Qed.

Lemma add_row_ok (cbs : list CB) st : index_ok st → index_ok (add_row cbs st).
Proof. revert st. induction cbs; simpl; auto using add_pairs_ok. Qed.

Lemma add_rows_ok (rows : list (list CB)) st :
  index_ok st → index_ok (foldl (λ st cbs, add_row cbs st) st rows).
Proof. revert st. induction rows; simpl; auto using add_row_ok. Qed.

Lemma load_ok o rows :
  index_ok (student_conflicts (_load_student_conflicts o rows),
            pair_student_count (_load_student_conflicts o rows)).
Proof.
  unfold _load_student_conflicts. simpl.
  destruct (foldl _ _ rows) as [sc psc] eqn:E. simpl.
  change (index_ok (sc, psc)). rewrite <- E. apply add_rows_ok, index_ok_empty.
Qed.

(** The count of the self-pair of [a] stays zero as long as no record
    lists [a] twice. *)
Lemma add_pairs_self (a cb1 : CB) (rest : list CB) (st : gmap CB (gset CB) * gmap (CB * CB) Z) :
  (cb1 = a → a ∉ rest) →
  get_int st.2 (a, a) = 0 →
  get_int (foldl (λ st cb2, add_pair st cb1 cb2) st rest).2 (a, a) = 0.
Proof.
  revert st. induction rest as [|cb2 rest IH]; simpl; intros st Hfresh H0; [done|].
  apply IH.
  - intros Heq. specialize (Hfresh Heq). set_solver.
  - simpl. rewrite get_int_insert. case_decide as Hk; [|done].
    exfalso. destruct (pair_key_cases cb1 cb2) as [Hc | Hc]; rewrite Hc in Hk;
      injection Hk as -> ->; apply Hfresh; set_solver.
Qed.

Lemma add_row_self (a : CB) (cbs : list CB) (st : gmap CB (gset CB) * gmap (CB * CB) Z) :
  listed_once a cbs →
  get_int st.2 (a, a) = 0 →
  get_int (add_row cbs st).2 (a, a) = 0.
Proof.
  unfold listed_once. revert st. induction cbs as [|cb1 rest IH]; simpl; intros st Hone H0; [done|].
  rewrite filter_cons in Hone. apply IH.
  - destruct (decide (cb1 = a)); simpl in Hone; lia.
  - apply add_pairs_self; [|done]. intros ->. rewrite decide_True in Hone by done.
    simpl in Hone. intros Hin.
    assert (a ∈ filter (λ x, x = a) rest) as Hf by (by apply list_elem_of_filter).
    destruct (filter (λ x, x = a) rest); [by apply elem_of_nil in Hf | simpl in Hone; lia].
Qed.

Lemma add_rows_self (a : CB) (rows : list (list CB)) (st : gmap CB (gset CB) * gmap (CB * CB) Z) :
  Forall (listed_once a) rows →
  get_int st.2 (a, a) = 0 →
  get_int (foldl (λ st cbs, add_row cbs st) st rows).2 (a, a) = 0.
Proof.
  intros Hall. revert st. induction Hall as [|cbs rows Hone _ IH]; simpl; intros st H0; [done|].
  by apply IH, add_row_self.
Qed.

Lemma conflict_weight_sym_built o rows (a b : CB) :
  conflict_weight (_load_student_conflicts o rows) a b =
  conflict_weight (_load_student_conflicts o rows) b a.
Proof.
  destruct (load_ok o rows) as [_ Hiff]. simpl in Hiff. unfold conflict_weight.
  rewrite (pair_key_comm b a).
  destruct (decide (b ∈ get_set (student_conflicts (_load_student_conflicts o rows)) a)) as [Hin | Hin].
  - rewrite bool_decide_eq_true_2 by done.
    rewrite bool_decide_eq_true_2; [done|]. apply Hiff. rewrite pair_key_comm. by apply Hiff.
  - rewrite bool_decide_eq_false_2 by done.
    rewrite bool_decide_eq_false_2; [done|]. intros Hin'. apply Hin, Hiff.
    rewrite pair_key_comm. by apply Hiff.
Qed.

Lemma conflict_weight_self_built o rows (a : CB) :
  Forall (listed_once a) rows →
  conflict_weight (_load_student_conflicts o rows) a a = 0.
Proof.
  intros Hall. unfold conflict_weight. case_bool_decide; [|done].
  unfold _load_student_conflicts. simpl.
  replace (pair_key a a) with (a, a) by (unfold pair_key; by rewrite cb_lt_irrefl).
  apply add_rows_self; [done|]. simpl. unfold get_int. by rewrite lookup_empty.
Qed.
End overlap_facts.

(** C7 (amended).  For every sequence of enrollment records the conflict
    weight read off the built index is symmetric, and the weight of a
    course-batch against itself is zero as soon as no record lists that
    course-batch twice. *)
Theorem conflict_weight_symmetric_and_self_zero :
  ∀ (o : SetOrder) (rows : list (list CB)) (a b : CB),
    Overlap.conflict_weight (Overlap._load_student_conflicts o rows) a b =
    Overlap.conflict_weight (Overlap._load_student_conflicts o rows) b a ∧
    (Forall (listed_once a) rows →
     Overlap.conflict_weight (Overlap._load_student_conflicts o rows) a a = 0).
Proof.
  intros o rows a b. split.
  - apply conflict_weight_sym_built.
  - apply conflict_weight_self_built.
Qed.

(** Two records that share a pair: weight 2 both ways, 0 against itself. *)
Lemma conflict_weight_symmetric_and_self_zero_witness :
  Overlap.conflict_weight (Overlap._load_student_conflicts canonical_order two_students)
    ("CS101", "B1") ("MA101", "B2") = 2 ∧
  Overlap.conflict_weight (Overlap._load_student_conflicts canonical_order two_students)
    ("MA101", "B2") ("CS101", "B1") = 2 ∧
  Forall (listed_once ("CS101", "B1")) two_students ∧
  Overlap.conflict_weight (Overlap._load_student_conflicts canonical_order two_students)
    ("CS101", "B1") ("CS101", "B1") = 0.
Proof.
  assert (Forall (listed_once ("CS101", "B1")) two_students) as Hall
    by (repeat constructor).
  destruct (conflict_weight_symmetric_and_self_zero canonical_order two_students
              ("CS101", "B1") ("MA101", "B2")) as [Hsym Hself].
  split; [vm_compute; reflexivity|]. split; [rewrite <- Hsym; vm_compute; reflexivity|].
  split; [done|]. by apply Hself.
Defined.

(** C7 (as stated) fails: a record that lists one course-batch twice
    records the self-pair, and the weight of that course-batch against
    itself is 1. *)
Lemma conflict_weight_self_nonzero :
  ¬ (∀ (rows : list (list CB)) (a : CB),
       Overlap.conflict_weight (Overlap._load_student_conflicts canonical_order rows) a a = 0).
Proof.
  intros H.
  specialize (H [[("CS101", "B1"); ("CS101", "B1")]] ("CS101", "B1")).
  vm_compute in H. discriminate H.
Qed.

(** ** Facts on the conflict-aware planner *)

Section cap_cost.
Import Overlap CAP.

Lemma count_fold_sum idx (cb : CB) (l : list CB) (a : Z) :
  foldl (λ acc scheduled_cb,
           if bool_decide (scheduled_cb ∈ get_set (student_conflicts idx) cb)
           then acc + get_int (pair_student_count idx) (pair_key cb scheduled_cb)
           else acc) a l
  = a + weights_sum idx cb l.
Proof.
  revert a. induction l as [|x l IH]; simpl; intros a; [lia|].
  rewrite IH. unfold conflict_weight. case_bool_decide; lia.
Qed.

Lemma weights_sum_perm idx (cb : CB) (l1 l2 : list CB) :
  l1 ≡ₚ l2 → weights_sum idx cb l1 = weights_sum idx cb l2.
Proof. induction 1; simpl; lia. Qed.

Lemma count_slot_conflicts_canonical o idx sc d h c b :
  count_slot_conflicts o idx sc d h c b
  = weights_sum idx (c, b) (elements (get_set sc (d, h))).
Proof.
  unfold count_slot_conflicts. rewrite count_fold_sum, Z.add_0_l.
  apply weights_sum_perm, iter_perm.
Qed.

Lemma weights_sum_nonneg idx (cb : CB) (l : list CB) :
  (∀ k, 0 ≤ get_int (pair_student_count idx) k) → 0 ≤ weights_sum idx cb l.
Proof.
  intros Hnn. induction l as [|x l IH]; simpl; [lia|].
  unfold conflict_weight. case_bool_decide; [|lia].
  specialize (Hnn (pair_key cb x)). lia.
Qed.

Lemma scan_slots_order o1 o2 idx st c b t rooms slots best :
  scan_slots o1 idx st c b t rooms slots best = scan_slots o2 idx st c b t rooms slots best.
Proof.
  revert best. induction slots as [|s rest IH]; simpl; intros best; [done|].
  rewrite !count_slot_conflicts_canonical. repeat case_match; auto.
Qed.

Lemma place_hours_order o1 o2 idx n se rooms st :
  place_hours o1 idx n se rooms st = place_hours o2 idx n se rooms st.
Proof.
  revert st. induction n as [|n IH]; simpl; intros st; [done|].
  unfold find_best_slot. rewrite (scan_slots_order o1 o2).
  repeat case_match; auto.
Qed.

Lemma run_order o1 o2 idx cs : run o1 idx cs = run o2 idx cs.
Proof.
  unfold run. generalize init_state.
  induction (sort_sessions (build_sessions idx cs)) as [|se l IH]; simpl; intros st; [done|].
  unfold place_session at 2 4. rewrite (place_hours_order o1 o2). apply IH.
Qed.
End cap_cost.

(** C8.  For fixed courses, teachers, configuration and overlap index, two
    runs of [generate_proposal] from the empty occupancy give the same
    sequence of entries (and the same counters), whatever order the two
    processes enumerate their sets in and whatever their clocks read. *)
Theorem generate_proposal_deterministic :
  ∀ (o1 o2 : SetOrder) (now1 now2 : Z) (idx : Overlap.Index)
    (cs : list (string * Course)) (teachers : list (string * Teacher))
    (config : SchedulingConfig),
    (λ r, (entries r.1, r.2)) <$> CAP.generate_proposal o1 idx now1 cs teachers config =
    (λ r, (entries r.1, r.2)) <$> CAP.generate_proposal o2 idx now2 cs teachers config.
Proof.
  intros. unfold CAP.generate_proposal.
  destruct (CAP.sort_sessions (CAP.build_sessions idx cs)); [done|].
  simpl. by rewrite (run_order o1 o2).
Qed.

(** Two runs on the saturated week, one enumerating its sets in the
    canonical order at clock 0, one in the reverse order at clock 1. *)
Lemma generate_proposal_deterministic_witness :
  (λ r, (entries r.1, r.2)) <$>
    CAP.generate_proposal canonical_order
      (Overlap._load_student_conflicts canonical_order one_student_everywhere) 0
      busy_teacher_courses [] week =
  (λ r, (entries r.1, r.2)) <$>
    CAP.generate_proposal reversed_order
      (Overlap._load_student_conflicts canonical_order one_student_everywhere) 1
      busy_teacher_courses [] week.
Proof. apply generate_proposal_deterministic. Defined.

(** ** The scan of [find_best_slot] against the selection policy *)

Section cap_policy.
Import Overlap CAP Policy.

#[local] Instance slot_before_dec (s1 s2 : Slot) : Decision (slot_before s1 s2).
Proof. unfold slot_before. apply _. Defined.

(** The two loops of [find_best_slot] go through the grid, in canonical
    order. *)
Lemma elem_of_grid (s : Slot) : s ∈ grid ↔ in_grid s.
Proof.
  unfold grid, hours, in_grid, range. rewrite list_elem_of_bind. split.
  - intros (d & (i & -> & (h & -> & Hh%elem_of_seq)%list_elem_of_fmap)%list_elem_of_fmap & _).
    cbn in *. lia.
  - intros Hs. destruct s as [d h]. exists d.
    split; [| apply list_elem_of_In; destruct d; cbn; tauto].
    apply list_elem_of_fmap. exists h. split; [done |].
    apply list_elem_of_fmap. exists (Z.to_nat (h - 10)). cbn in *.
    split; [lia | apply elem_of_seq; cbn; lia].
Qed.

Lemma grid_canonical : StronglySorted slot_before grid.
Proof. apply (bool_decide_unpack _). vm_compute. exact I. Qed.

(** On an index as the loader builds it, [count_slot_conflicts] is the
    marginal cost. *)
Lemma count_slot_conflicts_marginal o idx st (s : Slot) course batch :
  index_ok (student_conflicts idx, pair_student_count idx) →
  count_slot_conflicts o idx (slot_courses st) s.1 s.2 course batch
  = marginal_cost idx st (course, batch) s.
Proof.
  intros [Hnn Hiff]. rewrite count_slot_conflicts_canonical. destruct s as [d h].
  unfold marginal_cost, weights_sum. cbn [fst snd].
  induction (elements _) as [|x l IH]; cbn [foldr]; [done |].
  rewrite IH. f_equal. unfold Overlap.conflict_weight, Policy.conflict_weight.
  case_bool_decide as Hin; [done |].
  cbn [fst snd] in Hiff, Hnn. rewrite Hiff in Hin. specialize (Hnn (pair_key (course, batch) x)).
  lia.
Qed.

Lemma marginal_cost_nonneg idx st (cb : CB) (s : Slot) :
  (∀ k, 0 ≤ get_int (pair_student_count idx) k) → 0 ≤ marginal_cost idx st cb s.
Proof.
  intros Hnn. unfold marginal_cost.
  induction (elements _) as [|x l IH]; cbn [foldr]; [done |].
  apply Z.add_nonneg_nonneg; [apply Hnn | exact IH].
Qed.

(** The room loop: the first free room of the pool. *)
Lemma first_free_room_first st (s : Slot) rooms room :
  first_free_room st s rooms = Some room →
  room ∈ rooms ∧ get_bool (room_schedule st) (s, room) = false ∧
  ∀ room', room' ∈ rooms → get_bool (room_schedule st) (s, room') = false →
    room' = room ∨ (pool_rank rooms room < pool_rank rooms room')%nat.
Proof.
  unfold first_free_room. induction rooms as [|r rest IH]; [done |]. cbn [List.find].
  destruct (get_bool (room_schedule st) (s, r)) eqn:Hr; cbn [negb].
  - intros (Hin & Hfree & Hfirst)%IH. split_and!; [by right | done |].
    intros room' [->|Hin']%elem_of_cons Hfree'; [congruence |].
    cbn [pool_rank]. rewrite !decide_False by congruence.
    destruct (Hfirst room' Hin' Hfree'); [by left | right; lia].
  - intros [= <-]. split_and!; [left | done |].
    intros room' _ _. cbn [pool_rank]. rewrite decide_True by done.
    destruct (decide (r = room')) as [->|Hne]; [by left | right; lia].
Qed.

Lemma first_free_room_None st (s : Slot) rooms :
  first_free_room st s rooms = None →
  ∀ room, room ∈ rooms → get_bool (room_schedule st) (s, room) = true.
Proof.
  unfold first_free_room. intros Hnone room Hin.
  apply list_elem_of_In in Hin. pose proof (find_none _ _ Hnone room Hin) as Hf.
  cbn in Hf. by destruct (get_bool _ _).
Qed.

Section scan.
Context (o : SetOrder) (idx : Index) (st : State) (course batch teacher : string)
  (rooms : list string).

(** A slot that the scan takes into account, and its cost. *)
Local Abbreviation open s :=
  ((teacher ∉ get_set (teacher_schedule st) s) ∧ first_free_room st s rooms ≠ None).
Local Abbreviation cost s :=
  (count_slot_conflicts o idx (slot_courses st) (fst s) (snd s) course batch).

(** What the scan returns: the best so far, if no later slot is cheaper;
    else a slot with only dearer slots before it, which is either free
    of cost or not dearer than any slot after it. *)
Lemma scan_slots_choice slots best s room k :
  (∀ s', 0 ≤ cost s') →
  match best with Some b => 0 < b.2 | None => True end →
  scan_slots o idx st course batch teacher rooms slots best = Some (s, room, k) →
  (best = Some (s, room, k) ∧ ∀ s', s' ∈ slots → open s' → k ≤ cost s') ∨
  ∃ pre post,
    slots = pre ++ s :: post ∧
    (teacher ∉ get_set (teacher_schedule st) s) ∧
    first_free_room st s rooms = Some room ∧ k = cost s ∧
    match best with Some b => k < b.2 | None => True end ∧
    (∀ s', s' ∈ pre → open s' → k < cost s') ∧
    (k = 0 ∨ ∀ s', s' ∈ post → open s' → k ≤ cost s').
Proof.
  intros Hnn. revert best. induction slots as [|s0 rest IH]; intros best Hbest.
  { cbn [scan_slots]. intros ->. left. split; [done |]. by intros s' ?%elem_of_nil. }
  assert (∀ (P : Slot → Prop) (l : list Slot),
            P s0 → (∀ s', s' ∈ l → P s') → ∀ s', s' ∈ s0 :: l → P s')
    as Hcons by (intros P l ? ? s' [->|?]%elem_of_cons; auto).
  assert ((open s0 → match best with Some b => b.2 ≤ cost s0 | None => False end) →
          scan_slots o idx st course batch teacher rooms rest best = Some (s, room, k) →
          (best = Some (s, room, k) ∧ ∀ s', s' ∈ s0 :: rest → open s' → k ≤ cost s') ∨
          ∃ pre post,
            s0 :: rest = pre ++ s :: post ∧
            (teacher ∉ get_set (teacher_schedule st) s) ∧
            first_free_room st s rooms = Some room ∧ k = cost s ∧
            match best with Some b => k < b.2 | None => True end ∧
            (∀ s', s' ∈ pre → open s' → k < cost s') ∧
            (k = 0 ∨ ∀ s', s' ∈ post → open s' → k ≤ cost s')) as Hskip.
  { intros Hs0 Hscan.
    destruct (IH best Hbest Hscan)
      as [[-> Hall] | (pre & post & -> & Hfree & Hroom & Hk & Hlt & Hpre & Hpost)].
    - left. split; [done |]. apply (Hcons (λ s', open s' → k ≤ cost s') _); [| done].
      intros Ho. exact (Hs0 Ho).
    - right. exists (s0 :: pre), post. split_and!; try done.
      apply (Hcons (λ s', open s' → k < cost s') _); [| done]. intros Ho. specialize (Hs0 Ho).
      destruct best as [b|]; [lia | done]. }
  cbn [scan_slots].
  case_bool_decide as Hbusy; [apply Hskip; by intros [? _] |].
  destruct (first_free_room st s0 rooms) as [r0|] eqn:Hr0; [| apply Hskip; by intros [_ ?]].
  destruct (below_best (cost s0) best) eqn:Hbelow.
  - assert (match best with Some b => cost s0 < b.2 | None => True end) as Hlt0.
    { destruct best as [b|]; [| done]. cbn in Hbelow. by apply bool_decide_eq_true in Hbelow. }
    case_bool_decide as Hzero.
    + intros [= <- <- <-]. right. exists [], rest.
      split_and!; [done | done | done | done | done | by intros s' ?%elem_of_nil | by left].
    + intros Hscan. apply IH in Hscan; [| cbn; specialize (Hnn s0); lia].
      destruct Hscan
        as [[[= <- <- <-] Hall] | (pre & post & -> & Hfree & Hroom & Hk & Hlt & Hpre & Hpost)].
      * right. exists [], rest.
        split_and!; [done | done | done | done | done | by intros s' ?%elem_of_nil | by right].
      * cbn [snd] in Hlt. right. exists (s0 :: pre), post. split_and!; try done.
        -- destruct best as [b|]; [lia | done].
        -- apply (Hcons (λ s', open s' → k < cost s') _); [| done]. intros _. lia.
  - apply Hskip. intros _. destruct best as [b|]; [| done].
    cbn in Hbelow. apply bool_decide_eq_false in Hbelow. lia.
Qed.

Lemma scan_slots_nothing slots best :
  scan_slots o idx st course batch teacher rooms slots best = None →
  best = None ∧ ∀ s', s' ∈ slots → ¬ open s'.
Proof.
  revert best. induction slots as [|s0 rest IH]; intros best; cbn [scan_slots].
  { intros ->. split; [done |]. by intros s' ?%elem_of_nil. }
  assert (¬ open s0 →
          scan_slots o idx st course batch teacher rooms rest best = None →
          best = None ∧ ∀ s', s' ∈ s0 :: rest → ¬ open s') as Hskip.
  { intros Hs0 [-> Hall]%IH. split; [done |]. by intros s' [->|?]%elem_of_cons; auto. }
  case_bool_decide as Hbusy; [apply Hskip; by intros [? _] |].
  destruct (first_free_room st s0 rooms) as [r0|] eqn:Hr0; [| apply Hskip; by intros [_ ?]].
  destruct (below_best _ best) eqn:Hbelow.
  - case_bool_decide; [done |]. by intros [? _]%IH.
  - destruct best; [| done]. by intros [? _]%IH.
Qed.

End scan.

Lemma slot_before_asym (s1 s2 : Slot) : slot_before s1 s2 → slot_before s2 s1 → False.
Proof. intros [H1|[E1 H1]] [H2|[E2 H2]]; rewrite ?E1, ?E2 in *; lia. Qed.

Lemma before_asym rooms (c1 c2 : Slot * string) : before rooms c1 c2 → before rooms c2 c1 → False.
Proof.
  intros [H1|[E1 H1]] [H2|[E2 H2]]; rewrite ?E1, ?E2 in *;
    try (by eapply slot_before_asym); lia.
Qed.

Lemma before_irrefl rooms (c : Slot * string) : ¬ before rooms c c.
Proof. intros H. exact (before_asym rooms c c H H). Qed.

(** [find_best_slot] selects as the policy says, on an index as the
    loader builds it. *)
Lemma find_best_slot_selects o idx st course batch teacher session_type rooms :
  index_ok (student_conflicts idx, pair_student_count idx) →
  selects idx st (course, batch) teacher rooms
    (find_best_slot o idx st course batch teacher session_type rooms).
Proof.
  intros Hok.
  assert (∀ s' : Slot, count_slot_conflicts o idx (slot_courses st) s'.1 s'.2 course batch
                       = marginal_cost idx st (course, batch) s') as Hcost
    by (intros s'; by apply count_slot_conflicts_marginal).
  assert (∀ s' : Slot, 0 ≤ marginal_cost idx st (course, batch) s') as Hnn
    by (intros s'; apply marginal_cost_nonneg, Hok).
  assert (∀ c, candidate st teacher rooms c →
            c.1 ∈ grid ∧ (teacher ∉ get_set (teacher_schedule st) c.1) ∧
            first_free_room st c.1 rooms ≠ None) as Hopen.
  { intros [s' r'] (Hg & Hfree & Hin & Hr). cbn [fst snd] in *. split_and!; [by apply elem_of_grid | done |].
    intros Hnone. rewrite (first_free_room_None _ _ _ Hnone r' Hin) in Hr. done. }
  unfold find_best_slot.
  destruct (scan_slots _ _ _ _ _ _ _ grid None) as [[[s room] k]|] eqn:Hscan; unfold selects.
  - apply scan_slots_choice in Hscan
      as [[? _] | (pre & post & Hgrid & Hfree & Hroom & Hk & _ & Hpre & Hpost)];
      [done | | intros s'; rewrite Hcost; apply Hnn | done].
    rewrite Hcost in Hk.
    destruct (first_free_room_first _ _ _ _ Hroom) as (Hin & Hr & Hfirst).
    assert (candidate st teacher rooms (s, room)) as Hcand.
    { split_and!; [| done..]. apply elem_of_grid. rewrite Hgrid.
      apply elem_of_app. right. left. }
    pose proof grid_canonical as Hsorted. rewrite Hgrid in Hsorted.
    apply StronglySorted_app_1_r, StronglySorted_cons in Hsorted as [Hafter _].
    rewrite Forall_forall in Hafter.
    assert (∀ c, candidate st teacher rooms c →
              k ≤ marginal_cost idx st (course, batch) c.1 ∧
              (marginal_cost idx st (course, batch) c.1 ≤ k →
               c = (s, room) ∨ before rooms (s, room) c)) as Hall.
    { intros [s' r'] Hc. destruct (Hopen _ Hc) as (Hg & Hf' & Hr').
      destruct Hc as (_ & _ & Hin' & Hfree'). cbn [fst snd] in *.
      rewrite Hgrid in Hg. apply elem_of_app in Hg as [Hg | [->|Hg]%elem_of_cons].
      - specialize (Hpre s' Hg (conj Hf' Hr')). rewrite Hcost in Hpre. lia.
      - split; [lia |]. intros _.
        destruct (Hfirst r' Hin' Hfree') as [->|Hlt]; [by left | right; right; by split].
      - split.
        + destruct Hpost as [-> | Hpost]; [apply Hnn |].
          specialize (Hpost s' Hg (conj Hf' Hr')). by rewrite Hcost in Hpost.
        + intros _. right. left. cbn [fst]. by apply Hafter. }
    split_and!; [done | done | |].
    + intros (c0 & Hc0 & Hzero). destruct (Hall c0 Hc0) as [Hle _].
      assert (k = 0) as Hk0 by (specialize (Hnn s); lia).
      split; [split; [done | cbn [fst]; lia] |].
      intros c' [Hc' Hz']. apply (Hall c' Hc'). lia.
    + intros _. split; [split; [done |] |].
      * intros c' Hc'. cbn [fst]. rewrite <- Hk. by apply Hall.
      * intros c' [Hc' Hmin]. apply (Hall c' Hc'). specialize (Hmin _ Hcand). cbn [fst] in Hmin. lia.
  - apply scan_slots_nothing in Hscan as [_ Hnone].
    intros c Hc. destruct (Hopen c Hc) as (Hg & Hf & Hr). by apply (Hnone c.1 Hg).
Qed.

(** The policy selects at most one result. *)
Lemma selects_functional idx st (cb : CB) teacher rooms r1 r2 :
  selects idx st cb teacher rooms r1 → selects idx st cb teacher rooms r2 → r1 = r2.
Proof.
  assert (∀ P c1 c2, first_of rooms P c1 → first_of rooms P c2 → c1 = c2) as Hfirst.
  { intros P c1 c2 [H1 F1] [H2 F2].
    destruct (F1 c2 H2) as [|B1]; [done |]. destruct (F2 c1 H1) as [|B2]; [done |].
    destruct (before_asym rooms c1 c2 B1 B2). }
  destruct r1 as [[[s1 x1] k1]|], r2 as [[[s2 x2] k2]|]; unfold selects; [| | | done].
  - intros (C1 & K1 & Z1 & M1) (C2 & K2 & Z2 & M2).
    assert ((s1, x1) = (s2, x2)) as [= -> ->]; [| by rewrite K1, K2].
    destruct (decide (k1 = 0)) as [E1|N1]; [| destruct (decide (k2 = 0)) as [E2|N2]].
    + apply (Hfirst _ _ _ (Z1 (ex_intro _ _ (conj C1 (eq_trans (eq_sym K1) E1))))
                          (Z2 (ex_intro _ _ (conj C1 (eq_trans (eq_sym K1) E1))))).
    + apply (Hfirst _ _ _ (Z1 (ex_intro _ _ (conj C2 (eq_trans (eq_sym K2) E2))))
                          (Z2 (ex_intro _ _ (conj C2 (eq_trans (eq_sym K2) E2))))).
    + assert (∀ c, candidate st teacher rooms c → marginal_cost idx st cb c.1 ≠ 0) as Hno.
      { intros c Hc Hz. destruct (Z1 (ex_intro _ c (conj Hc Hz))) as [[_ Hz1] _]. congruence. }
      apply (Hfirst _ _ _ (M1 Hno) (M2 Hno)).
  - intros (C1 & _) Hnone. destruct (Hnone _ C1).
  - intros Hnone (C2 & _). destruct (Hnone _ C2).
Qed.

End cap_policy.

(** C5.  On an index built from enrollment records, [find_best_slot]
    returns what the policy selects: nothing if there is no candidate;
    otherwise a candidate together with its marginal cost, namely the
    first zero-cost candidate in canonical order if there is one, else
    the first of the candidates of globally minimum cost.  And the scan
    stops at a zero-cost candidate: what the occupancy maps hold for the
    slots after it does not change the result. *)
Theorem find_best_slot_refines_policy :
  ∀ (o o' : SetOrder) (rows : list (list CB)) (st : CAP.State)
    (course batch teacher session_type : string) (rooms : list string),
    let idx := Overlap._load_student_conflicts o' rows in
    let result := CAP.find_best_slot o idx st course batch teacher session_type rooms in
    Policy.selects idx st (course, batch) teacher rooms result ∧
    ∀ s room st',
      result = Some (s, room, 0) → Policy.same_up_to s st st' →
      CAP.find_best_slot o idx st' course batch teacher session_type rooms = result.
Proof.
  intros o o' rows st course batch teacher session_type rooms idx result.
  pose proof (load_ok o' rows) as Hok. fold idx in Hok.
  pose proof (find_best_slot_selects o idx st course batch teacher session_type rooms Hok)
    as Hsel. fold result in Hsel.
  split; [done |]. intros s room st' Hres Hsame.
  pose proof (find_best_slot_selects o idx st' course batch teacher session_type rooms Hok)
    as Hsel'.
  rewrite Hres in Hsel |- *. destruct Hsel as (Hcand & Hk & Hzero & _).
  assert (∀ c : Slot * string,
            c.1 = s ∨ Policy.slot_before c.1 s →
            (Policy.candidate st teacher rooms c ↔ Policy.candidate st' teacher rooms c) ∧
            Policy.marginal_cost idx st (course, batch) c.1
            = Policy.marginal_cost idx st' (course, batch) c.1) as Hagree.
  { intros [s' r'] Hs'. destruct (Hsame s' Hs') as (Ht & Hr & Hc). cbn [fst snd] in *.
    unfold Policy.candidate, Policy.marginal_cost. cbn [fst snd]. by rewrite Ht, Hr, Hc. }
  destruct (Hagree (s, room) (or_introl eq_refl)) as [Hc1 Hm1]. cbn [fst] in Hm1, Hk.
  assert (∃ c, Policy.candidate st teacher rooms c ∧
               Policy.marginal_cost idx st (course, batch) c.1 = 0) as Hex
    by (exists (s, room); by split).
  destruct (Hzero Hex) as [_ Hfirst].
  destruct (CAP.find_best_slot o idx st' course batch teacher session_type rooms)
    as [[[s2 r2] k2]|]; unfold Policy.selects in Hsel'.
  - destruct Hsel' as (Hcand2 & Hk2 & Hzero2 & _).
    destruct Hzero2 as [[_ Hz2] Hfirst2].
    { exists (s, room). split; [by apply Hc1 | cbn [fst]; by rewrite <- Hm1]. }
    cbn [fst] in Hz2, Hk2.
    destruct (Hfirst2 (s, room)) as [[= -> ->] | Hbefore].
    { split; [by apply Hc1 | cbn [fst]; by rewrite <- Hm1]. }
    + by rewrite Hk2, Hz2.
    + exfalso.
      assert (s2 = s ∨ Policy.slot_before s2 s) as Hs2
        by (destruct Hbefore as [?|[? _]]; [by right | by left]).
      destruct (Hagree (s2, r2) Hs2) as [Hc2 Hm2]. cbn [fst] in Hm2.
      destruct (Hfirst (s2, r2)) as [[= -> ->] | Hbefore'].
      { split; [by apply Hc2 | cbn [fst]; by rewrite Hm2]. }
      * by apply (before_irrefl rooms (s, room)).
      * by apply (before_asym rooms (s, room) (s2, r2)).
  - exfalso. apply (Hsel' (s, room)). by apply Hc1.
Qed.

(** In [crowded_week] the four candidates for A-B1 with teacher T cost 2,
    1, 1 and 3: the first of cost 1 is selected, in the room R2, as R1 is
    taken.  With Friday at 17 free of cost as well, that slot is
    selected. *)
Lemma find_best_slot_refines_policy_witness :
  (CAP.find_best_slot canonical_order
     (Overlap._load_student_conflicts canonical_order shared_students) crowded_week
     "A" "B1" "T" "theory" ["R1"; "R2"]
   = Some ((WEDNESDAY, 10), "R2", 1) ∧
   Policy.selects (Overlap._load_student_conflicts canonical_order shared_students)
     crowded_week ("A", "B1") "T" ["R1"; "R2"] (Some ((WEDNESDAY, 10), "R2", 1))) ∧
  (CAP.find_best_slot canonical_order
     (Overlap._load_student_conflicts canonical_order shared_students)
     crowded_week_but_friday "A" "B1" "T" "theory" ["R1"; "R2"]
   = Some ((FRIDAY, 17), "R1", 0) ∧
   Policy.selects (Overlap._load_student_conflicts canonical_order shared_students)
     crowded_week_but_friday ("A", "B1") "T" ["R1"; "R2"] (Some ((FRIDAY, 17), "R1", 0))).
Proof.
  assert (CAP.find_best_slot canonical_order
            (Overlap._load_student_conflicts canonical_order shared_students) crowded_week
            "A" "B1" "T" "theory" ["R1"; "R2"]
          = Some ((WEDNESDAY, 10), "R2", 1)) as E1 by (vm_compute; reflexivity).
  assert (CAP.find_best_slot canonical_order
            (Overlap._load_student_conflicts canonical_order shared_students)
            crowded_week_but_friday "A" "B1" "T" "theory" ["R1"; "R2"]
          = Some ((FRIDAY, 17), "R1", 0)) as E2 by (vm_compute; reflexivity).
  split; (split; [done |]).
  - rewrite <- E1.
    exact (proj1 (find_best_slot_refines_policy canonical_order canonical_order
                    shared_students crowded_week "A" "B1" "T" "theory" ["R1"; "R2"])).
  - rewrite <- E2.
    exact (proj1 (find_best_slot_refines_policy canonical_order canonical_order
                    shared_students crowded_week_but_friday "A" "B1" "T" "theory"
                    ["R1"; "R2"])).
Defined.

(** ** Double booking: the invariant shared by the planners *)

Section booking.

Lemma NDB_nil : NDB [].
Proof. split; constructor. Qed.

Lemma NDB_snoc tb rb es e :
  NDB es → recorded tb rb es →
  ¬ tb (entry_slot e) (teacher_name e) →
  ¬ rb (entry_slot e) (entry_room_id e) →
  NDB (es ++ [e]).
Proof.
  intros [Ht Hr] Hrec Hnt Hnr. split; rewrite fmap_app; apply NoDup_app;
    (split; [done|]); (split; [|apply NoDup_singleton]);
    intros k [e' [-> He']]%list_elem_of_fmap [Hs Hx]%list_elem_of_singleton%pair_equal_spec;
    destruct (Hrec e' He') as [Htb Hrb]; rewrite Hs in Htb, Hrb;
    first [rewrite Hx in Htb | rewrite Hx in Hrb]; done.
Qed.

Lemma NDB_sublist es1 es2 : es1 `sublist_of` es2 → NDB es2 → NDB es1.
Proof.
  intros Hsub [Ht Hr].
  split; [apply (sublist_NoDup _ _ Ht) | apply (sublist_NoDup _ _ Hr)];
    by apply fmap_sublist.
Qed.

Lemma key_count_le_1 {K} (f : ScheduleEntry → K) (P : ScheduleEntry → Prop)
    `{∀ e, Decision (P e)} (k : K) es :
  (∀ e, P e ↔ f e = k) → NoDup (f <$> es) → (length (filter P es) ≤ 1)%nat.
Proof.
  intros HP. induction es as [|e es IH]; simpl; [lia|].
  rewrite NoDup_cons. intros [Hnin Hnd]. rewrite filter_cons.
  destruct (decide (P e)) as [He|He]; [|auto].
  assert (filter P es = []) as ->; [|simpl; lia].
  destruct (filter P es) as [|e' l] eqn:E; [done|]. exfalso.
  assert (e' ∈ filter P es) as [He' Hin]%list_elem_of_filter by (rewrite E; left).
  apply Hnin. apply HP in He, He'. rewrite He, <- He'.
  by apply list_elem_of_fmap_2.
Qed.

Lemma NDB_no_double_booking es : NDB es → no_double_booking es.
Proof.
  intros [Ht Hr] d h. split.
  - intros t. unfold teacher_bookings.
    apply (key_count_le_1 (λ e, (entry_slot e, teacher_name e)) _ ((d, h), t)); [|done].
    intros e. by rewrite pair_equal_spec.
  - intros r. unfold room_bookings.
    apply (key_count_le_1 (λ e, (entry_slot e, entry_room_id e)) _ ((d, h), r)); [|done].
    intros e. by rewrite pair_equal_spec.
Qed.
End booking.

Section cap_run.
Import Overlap CAP.
Context (o : SetOrder) (idx : Index).

(** What a found slot satisfies. *)
Lemma scan_slots_found st course batch teacher rooms slots best s room c :
  scan_slots o idx st course batch teacher rooms slots best = Some (s, room, c) →
  best = Some (s, room, c) ∨
  (s ∈ slots ∧ (teacher ∉ get_set (teacher_schedule st) s) ∧ room ∈ rooms ∧
   get_bool (room_schedule st) (s, room) = false ∧
   c = count_slot_conflicts o idx (slot_courses st) s.1 s.2 course batch).
Proof.
  revert best. induction slots as [|s0 rest IH]; simpl; intros best Hscan; [by left|].
  assert (∀ best', scan_slots o idx st course batch teacher rooms rest best'
                     = Some (s, room, c) →
            best' = best ∨ (∃ r0, first_free_room st s0 rooms = Some r0 ∧
               (teacher ∉ get_set (teacher_schedule st) s0) ∧
               best' = Some (s0, r0, count_slot_conflicts o idx (slot_courses st)
                                       s0.1 s0.2 course batch)) →
            best = Some (s, room, c) ∨
            (s ∈ s0 :: rest ∧ (teacher ∉ get_set (teacher_schedule st) s) ∧ room ∈ rooms ∧
             get_bool (room_schedule st) (s, room) = false ∧
             c = count_slot_conflicts o idx (slot_courses st) s.1 s.2 course batch))
    as Hstep.
  { intros best' Hs Hb. apply IH in Hs as [Hs | (? & ? & ? & ? & ?)].
    - destruct Hb as [-> | (r0 & Hfree & Hteacher & ->)]; [by left|].
      injection Hs as -> -> ->. right.
      apply find_some in Hfree as [Hin Hfree]. apply negb_true_iff in Hfree.
      split_and!; [left|done|by apply list_elem_of_In|done|done].
    - right. split_and!; [by right|done..]. }
  case_bool_decide as Hbusy; [apply (Hstep best Hscan); by left|].
  destruct (first_free_room st s0 rooms) as [r0|] eqn:Hfree;
    [|apply (Hstep best Hscan); by left].
  destruct (below_best _ best); [|apply (Hstep best Hscan); by left].
  case_bool_decide as Hz; [|apply (Hstep _ Hscan); right; by exists r0].
  injection Hscan as -> -> <-. right.
  apply find_some in Hfree as [Hin Hfree]. apply negb_true_iff in Hfree.
  split_and!; [left|done|by apply list_elem_of_In|done|done].
Qed.

Lemma find_best_slot_found st course batch teacher session_type rooms s room c :
  find_best_slot o idx st course batch teacher session_type rooms = Some (s, room, c) →
  s ∈ grid ∧ (teacher ∉ get_set (teacher_schedule st) s) ∧ room ∈ rooms ∧
  get_bool (room_schedule st) (s, room) = false ∧
  c = count_slot_conflicts o idx (slot_courses st) s.1 s.2 course batch.
Proof. intros [?|?]%scan_slots_found; [done|done]. Qed.

(** An invariant of the run is a property of the empty state that every
    commit of a found slot preserves. *)
Lemma place_sessions_invariant (I : State → Prop) (l : list Session) :
  (∀ st se s room c,
     I st → se ∈ l →
     find_best_slot o idx st (s_course se) (s_batch se) (s_teacher se) (s_type se)
       (if bool_decide (s_type se = "lab") then lab_rooms else regular_rooms)
     = Some (s, room, c) →
     I (commit st se s room c)) →
  ∀ st, I st → I (foldl (place_session o idx) st l).
Proof.
  induction l as [|se l IH]; simpl; intros Hstep st Hst; [done|].
  apply IH; [intros st' se' ????? Hf; eapply Hstep; eauto; by right|].
  unfold place_session.
  assert (se ∈ se :: l) as Hse by left.
  revert st Hst.
  induction (Z.to_nat (s_hours se)) as [|n IHn]; simpl; intros st Hst; [done|].
  destruct (find_best_slot _ _ st _ _ _ _ _) as [[[s room] c]|] eqn:Hfind; [|done].
  apply IHn. by apply Hstep.
Qed.

Lemma run_invariant (I : State → Prop) (cs : list (string * Course)) :
  I init_state →
  (∀ st se s room c,
     I st → se ∈ sort_sessions (build_sessions idx cs) →
     find_best_slot o idx st (s_course se) (s_batch se) (s_teacher se) (s_type se)
       (if bool_decide (s_type se = "lab") then lab_rooms else regular_rooms)
     = Some (s, room, c) →
     I (commit st se s room c)) →
  I (run o idx cs).
Proof. intros Hinit Hstep. unfold run. by apply place_sessions_invariant. Qed.

Lemma commit_booked st se (s : Slot) room c :
  cap_booked st →
  s_teacher se ∉ get_set (teacher_schedule st) s →
  get_bool (room_schedule st) (s, room) = false →
  cap_booked (commit st se s room c).
Proof.
  intros [Hndb Hrec] Ht Hr. destruct s as [d h]. split; simpl.
  - apply (NDB_snoc _ _ _ _ Hndb Hrec); unfold entry_slot, slot_key; simpl; [done|congruence].
  - intros e [He | ->%list_elem_of_singleton]%elem_of_app.
    + destruct (Hrec e He) as [H1 H2]. split.
      * apply elem_of_get_set_add. by left.
      * rewrite get_bool_insert. by case_decide.
    + unfold entry_slot, slot_key. simpl. split.
      * apply elem_of_get_set_add. by right.
      * rewrite get_bool_insert. by rewrite decide_True.
Qed.

Lemma run_booked cs : cap_booked (run o idx cs).
Proof.
  apply run_invariant.
  - split; [apply NDB_nil|]. intros e He. by apply elem_of_nil in He.
  - intros st se s room c Hst _ (_ & Ht & _ & Hr & _)%find_best_slot_found.
    by apply commit_booked.
Qed.

Lemma cap_no_double_booking now cs teachers config p st :
  generate_proposal o idx now cs teachers config = Some (p, st) →
  no_double_booking (entries p).
Proof.
  unfold generate_proposal. destruct (sort_sessions _); [done|].
  intros [= <- <-]. simpl. apply NDB_no_double_booking, run_booked.
Qed.
End cap_run.

(** ** Sorting *)

Lemma insert_sorted_perm {A} (leb : A → A → bool) (x : A) (l : list A) :
  insert_sorted leb x l ≡ₚ x :: l.
Proof.
  induction l as [|y l IH]; simpl; [done|].
  destruct (leb y x); [|done]. rewrite IH. apply Permutation_swap.
Qed.

Lemma sorted_by_perm {A} (leb : A → A → bool) (l : list A) : sorted_by leb l ≡ₚ l.
Proof.
  unfold sorted_by.
  assert (∀ acc, foldl (λ acc x, insert_sorted leb x acc) acc l ≡ₚ acc ++ l) as H.
  { induction l as [|x l IH]; simpl; intros acc; [by rewrite app_nil_r|].
    rewrite IH, insert_sorted_perm. simpl. apply Permutation_middle. }
  apply (H []).
Qed.

Lemma elem_of_sorted_by {A} (leb : A → A → bool) (l : list A) (x : A) :
  x ∈ sorted_by leb l ↔ x ∈ l.
Proof. by rewrite sorted_by_perm. Qed.

(** [sorted_by] is a stable sort for every total and transitive order test. *)

Section stable_sort.
Context {A : Type} (leb : A → A → bool).
Context (leb_total : ∀ x y, leb x y = true ∨ leb y x = true).
Context (leb_trans : ∀ x y z, leb x y = true → leb y z = true → leb x z = true).

Lemma insert_sorted_ordered x l : ordered leb l → ordered leb (insert_sorted leb x l).
Proof.
  unfold ordered. induction 1 as [|y l Hl IH Hy]; simpl.
  - repeat constructor.
  - destruct (leb y x) eqn:Hyx.
    + constructor; [done|]. rewrite insert_sorted_perm. by constructor.
    + destruct (leb_total x y) as [Hxy|Hxy]; [|congruence].
      constructor; [by constructor|]. constructor; [done|].
      eapply Forall_impl; [exact Hy|]. intros z Hz. by eapply leb_trans.
Qed.

Lemma insert_sorted_filter_other (P : A → Prop) `{∀ y, Decision (P y)} x l :
  ¬ P x → filter P (insert_sorted leb x l) = filter P l.
Proof.
  intros Hx. induction l as [|y l IH]; simpl.
  - by rewrite filter_cons_False.
  - destruct (leb y x); [by rewrite !filter_cons, IH|]. by rewrite filter_cons_False.
Qed.

Lemma insert_sorted_filter_same k x l :
  ordered leb l → same_key leb k x →
  filter (same_key leb k) (insert_sorted leb x l) = filter (same_key leb k) l ++ [x].
Proof.
  intros Hl [Hxk Hkx]. induction Hl as [|y l Hl IH Hy]; simpl.
  - by rewrite filter_cons_True.
  - destruct (leb y x) eqn:Hyx.
    + rewrite !filter_cons, IH. by case_decide.
    + assert (∀ z, z ∈ y :: l → ¬ same_key leb k z) as Hnone.
      { intros z Hz [Hzk Hkz]. assert (leb y z = true) as Hyz.
        { apply elem_of_cons in Hz as [-> | Hz].
          - match goal with |- leb ?a ?a = true => by destruct (leb_total a a) end.
          - rewrite Forall_forall in Hy. by apply Hy. }
        assert (leb y x = true); [|congruence]. eauto. }
      rewrite filter_cons_True by done.
      assert (filter (same_key leb k) (y :: l) = []) as ->; [|done].
      destruct (filter (same_key leb k) (y :: l)) as [|z l'] eqn:Hf; [done|].
      assert (z ∈ filter (same_key leb k) (y :: l)) as [Hz Hin]%list_elem_of_filter
        by (rewrite Hf; left).
      by destruct (Hnone z Hin).
Qed.

Lemma sorted_by_ordered l : ordered leb (sorted_by leb l).
Proof.
  unfold sorted_by. assert (ordered leb []) as H by constructor. revert H.
  generalize (@nil A). induction l as [|x l IH]; simpl; intros acc Hacc; [done|].
  by apply IH, insert_sorted_ordered.
Qed.

Lemma sorted_by_stable k l :
  filter (same_key leb k) (sorted_by leb l) = filter (same_key leb k) l.
Proof.
  unfold sorted_by.
  assert (∀ acc, ordered leb acc →
            filter (same_key leb k) (foldl (λ acc x, insert_sorted leb x acc) acc l)
            = filter (same_key leb k) acc ++ filter (same_key leb k) l) as H.
  { induction l as [|x l IH]; simpl; intros acc Hacc; [by rewrite app_nil_r|].
    rewrite IH by (by apply insert_sorted_ordered).
    rewrite filter_cons. case_decide as Hx.
    - rewrite insert_sorted_filter_same by done. by rewrite <- app_assoc.
    - by rewrite insert_sorted_filter_other. }
  apply (H []). constructor.
Qed.
End stable_sort.

(** ** The running conflict total and the recount *)

Section recount.
Import Overlap CAP Refine.

Lemma slot_cbs_snoc es e s :
  slot_cbs (es ++ [e]) s
  = slot_cbs es s ++ (if decide (entry_slot e = s) then [entry_cb e] else []).
Proof.
  unfold slot_cbs. rewrite filter_app, fmap_app. f_equal.
  rewrite filter_cons, filter_nil. by case_decide.
Qed.

Lemma group_by_slot_snoc es e :
  group_by_slot (es ++ [e])
  = <[entry_slot e := default [] (group_by_slot es !! entry_slot e) ++ [entry_cb e]]>
      (group_by_slot es).
Proof. unfold group_by_slot. by rewrite foldl_app. Qed.

Lemma group_by_slot_lookup es s :
  group_by_slot es !! s
  = if decide (slot_cbs es s = []) then None else Some (slot_cbs es s).
Proof.
  induction es as [|e es IH] using rev_ind; [done|].
  rewrite group_by_slot_snoc, slot_cbs_snoc.
  destruct (decide (entry_slot e = s)) as [<- | Hne].
  - rewrite lookup_insert_eq, IH.
    destruct (decide (slot_cbs es (entry_slot e) ++ [entry_cb e] = []))
      as [[? ?]%app_eq_nil | _]; [done|].
    by destruct (decide (slot_cbs es (entry_slot e) = [])) as [-> | ?].
  - rewrite lookup_insert_ne, app_nil_r by done. apply IH.
Qed.

Lemma pairs_total_snoc psc (l : list CB) (cb : CB) :
  pairs_total psc (l ++ [cb]) = pairs_total psc l + against psc cb l.
Proof.
  induction l as [|x l IH]; simpl; [done|].
  rewrite IH, foldl_app. simpl. lia.
Qed.

Lemma recount_snoc psc es e :
  recount psc (es ++ [e])
  = recount psc es + against psc (entry_cb e) (slot_cbs es (entry_slot e)).
Proof.
  unfold recount. rewrite group_by_slot_snoc.
  pose proof (group_by_slot_lookup es (entry_slot e)) as Hl.
  set (m := group_by_slot es) in *. set (s := entry_slot e) in *.
  set (f := λ (_ : Slot) (cbs : list CB) (total : Z), total + pairs_total psc cbs).
  assert (∀ (m' : gmap Slot (list CB)) j1 j2 z1 z2 y,
            j1 ≠ j2 → m' !! j1 = Some z1 → m' !! j2 = Some z2 →
            f j1 z1 (f j2 z2 y) = f j2 z2 (f j1 z1 y)) as Hcomm.
  { intros. unfold f. lia. }
  destruct (decide (slot_cbs es s = [])) as [Hnil | Hne].
  - rewrite Hl, Hnil. simpl.
    rewrite map_fold_insert_L; [unfold f; simpl; lia | apply Hcomm | done].
  - rewrite Hl. simpl.
    rewrite <- insert_delete_eq.
    rewrite map_fold_insert_L; [|apply Hcomm|apply lookup_delete_eq].
    rewrite (map_fold_delete_L f 0 s (slot_cbs es s) m); [|apply Hcomm|done].
    unfold f. rewrite pairs_total_snoc. lia.
Qed.

Lemma dict_get_NoDup {V} (d : list (string * V)) k v :
  NoDup (fst <$> d) → (k, v) ∈ d → dict_get k d = Some v.
Proof.
  unfold dict_get. induction d as [|[k' v'] d IH]; simpl.
  - intros _ Hin. by apply elem_of_nil in Hin.
  - rewrite NoDup_cons. intros [Hnin Hnd] [[= -> ->] | Hin]%elem_of_cons.
    + by rewrite bool_decide_eq_true_2.
    + rewrite bool_decide_eq_false_2; [by apply IH|].
      intros ->. apply Hnin. by apply (list_elem_of_fmap_2 fst) in Hin.
Qed.

Lemma build_sessions_teacher idx cs se :
  NoDup (fst <$> cs) → se ∈ build_sessions idx cs →
  s_teacher se = assigned_teacher cs (s_course se, s_batch se).
Proof.
  intros Hnd. unfold build_sessions.
  intros ([k c] & Hse & Hkc)%list_elem_of_bind. simpl in Hse.
  apply list_elem_of_join in Hse as (l & Hse & Hl).
  apply list_elem_of_lookup in Hl as [i Hl].
  apply list_lookup_imap_Some in Hl as (b & _ & ->).
  unfold assigned_teacher, batch_sessions in *.
  assert (s_course se = k ∧ s_batch se = b ∧ s_teacher se = teacher_of c b)
    as (-> & -> & ->).
  { apply elem_of_app in Hse as [Hse | Hse]; case_bool_decide;
      try (by apply elem_of_nil in Hse); by apply list_elem_of_singleton in Hse as ->. }
  simpl. by rewrite (dict_get_NoDup cs k c).
Qed.

Context (o o' : SetOrder) (rows : list (list CB)) (cs : list (string * Course)).
Context (Hdict : NoDup (fst <$> cs)).

Let idx := _load_student_conflicts o' rows.

(** On a built index the weight is the pair count, adjacency or not. *)
Lemma conflict_weight_count (a b : CB) :
  conflict_weight idx a b = get_int (pair_student_count idx) (pair_key b a).
Proof.
  destruct (load_ok o' rows) as [Hnn Hiff]. cbn [fst snd] in Hnn, Hiff.
  unfold conflict_weight. rewrite (pair_key_comm b a).
  case_bool_decide as Hin; [done|].
  specialize (Hnn (pair_key a b)).
  assert (¬ 0 < get_int (pair_student_count idx) (pair_key a b)) as Hz
    by (intros Hpos; by apply Hin, Hiff).
  unfold idx in *. lia.
Qed.

Lemma weights_sum_against cb l :
  weights_sum idx cb l = against (pair_student_count idx) cb l.
Proof.
  induction l as [|x l IH]; simpl; [done|]. by rewrite IH, conflict_weight_count.
Qed.

Lemma recount_inv_init : recount_inv idx cs init_state.
Proof.
  split_and!; simpl.
  - done.
  - intros s x. unfold get_set. rewrite lookup_empty. simpl.
    split; [by intros ?%elem_of_empty | by intros ?%elem_of_nil].
  - intros s. constructor.
  - intros e He. by apply elem_of_nil in He.
Qed.

Lemma recount_inv_commit st se (s : Slot) room c :
  recount_inv idx cs st →
  se ∈ sort_sessions (build_sessions idx cs) →
  find_best_slot o idx st (s_course se) (s_batch se) (s_teacher se) (s_type se)
    (if bool_decide (s_type se = "lab") then lab_rooms else regular_rooms)
  = Some (s, room, c) →
  recount_inv idx cs (commit st se s room c).
Proof.
  intros (Htot & Hset & Hnd & Hent) Hse (_ & Ht & _ & _ & ->)%find_best_slot_found.
  apply elem_of_sorted_by, build_sessions_teacher in Hse; [|done].
  destruct s as [d h]. unfold recount_inv, commit.
  cbn [st_entries teacher_schedule slot_courses total_conflicts fst snd] in *.
  set (e := mkEntry _ _ _ _ _ _ _).
  assert (entry_slot e = (d, h)) as Hslot by done.
  assert (entry_cb e = (s_course se, s_batch se)) as Hcb by done.
  assert ((s_course se, s_batch se) ∉ slot_cbs (st_entries st) (d, h)) as Hfresh.
  { intros (e' & Hcb' & [Hs' He']%list_elem_of_filter)%list_elem_of_fmap.
    destruct (Hent e' He') as [Hbusy Hteach].
    apply Ht. rewrite Hse, Hcb', <- Hteach, <- Hs'. done. }
  split_and!.
  - rewrite recount_snoc, Hslot, Hcb, <- Htot. f_equal.
    rewrite count_slot_conflicts_canonical, <- weights_sum_against.
    apply weights_sum_perm, NoDup_Permutation; [apply NoDup_elements|apply Hnd|].
    intros x. rewrite elem_of_elements. apply Hset.
  - intros s x. rewrite elem_of_get_set_add, slot_cbs_snoc, elem_of_app, Hset, Hslot, Hcb.
    case_decide as Hs; [subst s | ]; rewrite ?list_elem_of_singleton, ?elem_of_nil; intuition.
  - intros s. rewrite slot_cbs_snoc, Hslot, Hcb. case_decide as Hs; [subst s|].
    + apply NoDup_app. split_and!; [apply Hnd| |apply NoDup_singleton].
      intros x Hx ->%list_elem_of_singleton. done.
    + rewrite app_nil_r. apply Hnd.
  - intros e' [He' | ->%list_elem_of_singleton]%elem_of_app.
    + destruct (Hent e' He') as [Hbusy Hteach]. split; [|done].
      apply elem_of_get_set_add. by left.
    + split; [|by rewrite Hcb]. rewrite Hslot. apply elem_of_get_set_add. by right.
Qed.

Lemma run_recount : recount_inv idx cs (run o idx cs).
Proof. apply run_invariant; [apply recount_inv_init|]. intros. by eapply recount_inv_commit. Qed.
End recount.

(** C10.  For courses held in a dictionary (one course per code) and an
    index built from enrollment records, the running total of
    [generate_proposal] equals what [calculate_conflicts] recounts from
    the final entries with the same pair counts. *)
Theorem total_conflicts_matches_recount :
  ∀ (o o' : SetOrder) (rows : list (list CB)) (now : Z) (cs : list (string * Course))
    (teachers : list (string * Teacher)) (config : SchedulingConfig)
    (p : TimetableProposal) (st : CAP.State),
    NoDup (fst <$> cs) →
    CAP.generate_proposal o (Overlap._load_student_conflicts o' rows) now cs teachers config
      = Some (p, st) →
    CAP.total_conflicts st
    = Refine.calculate_conflicts p
        (Overlap.pair_student_count (Overlap._load_student_conflicts o' rows)).
Proof.
  intros o o' rows now cs teachers config p st Hnd.
  unfold CAP.generate_proposal. destruct (CAP.sort_sessions _); [done|].
  intros [= <- <-]. by destruct (run_recount o o' rows cs Hnd) as [-> _].
Qed.

(** ** Facts on the optimized planner: the schedule pass *)

Section pa_schedule.
Import PA.
Context (o : SetOrder) (conflicts : gmap CB (gset CB)).

Lemma next_hour_slot_spec slot1 later slot2 :
  next_hour_slot slot1 later = Some slot2 →
  slot2 ∈ later ∧ day slot2 = day slot1 ∧ hour slot2 = hour slot1 + 1.
Proof.
  intros [Hin [Hd Hh]%bool_decide_eq_true]%find_some.
  by apply list_elem_of_In in Hin.
Qed.

Lemma free_lab_room_spec st slot1 slot2 rooms lr :
  free_lab_room st slot1 slot2 rooms = Some lr →
  lr ∈ rooms ∧
  get_bool (lab_room_schedule st) (slot_key slot1, room_id lr) = false ∧
  get_bool (lab_room_schedule st) (slot_key slot2, room_id lr) = false.
Proof.
  intros [Hin [H1%negb_true_iff H2%negb_true_iff]%andb_true_iff]%find_some.
  by apply list_elem_of_In in Hin.
Qed.

Lemma free_regular_room_spec rs slot rooms r :
  free_regular_room rs slot rooms = Some r →
  r ∈ rooms ∧ get_bool rs (slot_key slot, room_id r) = false.
Proof.
  intros [Hin H1%negb_true_iff]%find_some. by apply list_elem_of_In in Hin.
Qed.

Lemma lab_loop_unfold c b teacher students rooms slot1 s2 rest2 lab_scheduled st :
  lab_loop o conflicts c b teacher students rooms (slot1 :: s2 :: rest2) lab_scheduled st
  = let later := s2 :: rest2 in
    if bool_decide (lab_scheduled < lab_hours c) then
      match next_hour_slot slot1 later with
      | None => lab_loop o conflicts c b teacher students rooms later lab_scheduled st
      | Some slot2 =>
          if bool_decide (teacher ∈ get_set (teacher_schedule st) (slot_key slot1)) ||
             bool_decide (teacher ∈ get_set (teacher_schedule st) (slot_key slot2))
          then lab_loop o conflicts c b teacher students rooms later lab_scheduled st
          else if negb (check_slot_available o conflicts (slot_schedule st) (code c) b
                          (day slot1) (hour slot1)) ||
                  negb (check_slot_available o conflicts (slot_schedule st) (code c) b
                          (day slot2) (hour slot2))
          then lab_loop o conflicts c b teacher students rooms later lab_scheduled st
          else
            match free_lab_room st slot1 slot2 rooms with
            | None => lab_loop o conflicts c b teacher students rooms later lab_scheduled st
            | Some lr =>
                lab_loop o conflicts c b teacher students rooms rest2 (lab_scheduled + 2)
                  (foldl (place_lab c b teacher students lr) st [slot1; slot2])
            end
      end
    else st.
Proof. reflexivity. Qed.

Section invariant.
Context (regular lab : list Room) (I : State → Prop).

(** A theory hour is placed where the teacher and a regular room are
    free. *)
Context (Htheory : ∀ st course b teacher students r slot,
  I st →
  teacher ∉ get_set (teacher_schedule st) (slot_key slot) →
  r ∈ regular →
  get_bool (regular_room_schedule st) (slot_key slot, room_id r) = false →
  I (place_theory course b teacher students r st slot)).

(** A lab block is placed on two consecutive hours of one day where the
    teacher and one lab room are free. *)
Context (Hlab : ∀ st c b teacher students lr slot1 slot2,
  I st →
  day slot2 = day slot1 → hour slot2 = hour slot1 + 1 →
  teacher ∉ get_set (teacher_schedule st) (slot_key slot1) →
  teacher ∉ get_set (teacher_schedule st) (slot_key slot2) →
  lr ∈ lab →
  get_bool (lab_room_schedule st) (slot_key slot1, room_id lr) = false →
  get_bool (lab_room_schedule st) (slot_key slot2, room_id lr) = false →
  I (foldl (place_lab c b teacher students lr) st [slot1; slot2])).

Lemma lab_loop_invariant c b teacher students rest n st :
  I st → I (lab_loop o conflicts c b teacher students lab rest n st).
Proof.
  remember (length rest) as k eqn:Hk.
  assert (length rest ≤ k)%nat as Hlen by lia. clear Hk.
  revert rest n st Hlen.
  induction k as [|k IH]; intros rest n st Hlen Hst.
  { destruct rest; [done | simpl in Hlen; lia]. }
  destruct rest as [|slot1 [|s2 rest2]]; [done..|].
  rewrite lab_loop_unfold. cbv zeta. simpl in Hlen.
  case_bool_decide; [|done].
  destruct (next_hour_slot slot1 (s2 :: rest2)) as [slot2|] eqn:Hnext;
    [|apply IH; [simpl; lia | done]].
  apply next_hour_slot_spec in Hnext as (_ & Hd & Hh).
  destruct (bool_decide (teacher ∈ _) || bool_decide (teacher ∈ _)) eqn:Hbusy;
    [apply IH; [simpl; lia | done]|].
  apply orb_false_iff in Hbusy as [Hb1%bool_decide_eq_false Hb2%bool_decide_eq_false].
  destruct (negb _ || negb _); [apply IH; [simpl; lia | done]|].
  destruct (free_lab_room st slot1 slot2 lab) as [lr|] eqn:Hroom;
    [|apply IH; [simpl; lia | done]].
  apply free_lab_room_spec in Hroom as (Hin & Hf1 & Hf2).
  apply IH; [lia|]. by apply Hlab.
Qed.

Lemma theory_loop_invariant c b teacher students slots n st :
  I st → I (theory_loop o conflicts c b teacher students regular slots n st).
Proof.
  revert n st. induction slots as [|slot rest IH]; simpl; intros n st Hst; [done|].
  case_bool_decide; [done|].
  case_bool_decide as Hbusy; [by apply IH|].
  destruct (negb _); [by apply IH|].
  destruct (free_regular_room _ slot regular) as [r|] eqn:Hroom; [|by apply IH].
  apply free_regular_room_spec in Hroom as [Hin Hfree].
  apply IH. by apply Htheory.
Qed.

Lemma schedule_invariant cs teachers config strategy st :
  I (mkState [] ∅ ∅ ∅ ∅) →
  _schedule_optimized o conflicts cs teachers config strategy regular lab = Some st →
  I st.
Proof.
  intros Hinit. unfold _schedule_optimized.
  destruct (generate_all_time_slots config) as [all_slots|]; [|done].
  simpl. intros [= <-]. revert Hinit. generalize (mkState [] ∅ ∅ ∅ ∅).
  induction (sort_courses cs) as [|c l IH]; simpl; intros st Hst; [done|].
  apply IH. unfold schedule_course. clear IH. revert st Hst.
  induction (imap pair (batches c)) as [|ib bs IHb]; simpl; intros st Hst; [done|].
  apply IHb. unfold schedule_batch.
  apply theory_loop_invariant. case_bool_decide; [|done].
  by apply lab_loop_invariant.
Qed.
End invariant.

Lemma place_theory_booked pre course b teacher students r st slot :
  pa_booked pre st →
  teacher ∉ get_set (teacher_schedule st) (slot_key slot) →
  String.prefix "LAB" (room_id r) = false →
  get_bool (regular_room_schedule st) (slot_key slot, room_id r) = false →
  pa_booked pre (place_theory course b teacher students r st slot).
Proof.
  intros [Hndb Hrec] Ht Hpre Hfree. unfold pa_booked. cbn [place_theory st_entries].
  rewrite app_assoc. split.
  - apply (NDB_snoc _ _ _ _ Hndb Hrec); unfold pa_teacher_busy, pa_room_busy, entry_slot;
      simpl; [done|]. rewrite Hpre. congruence.
  - intros e [He | ->%list_elem_of_singleton]%elem_of_app;
      unfold pa_teacher_busy, pa_room_busy, entry_slot; simpl.
    + destruct (Hrec e He) as [H1 H2]. split; [apply elem_of_get_set_add; by left|].
      unfold pa_room_busy in H2. destruct (String.prefix "LAB" (entry_room_id e)); [done|].
      rewrite get_bool_insert. by case_decide.
    + split; [apply elem_of_get_set_add; by right|].
      rewrite Hpre, get_bool_insert. by rewrite decide_True.
Qed.

Lemma place_lab_booked pre c b teacher students lr st slot :
  pa_booked pre st →
  teacher ∉ get_set (teacher_schedule st) (slot_key slot) →
  String.prefix "LAB" (room_id lr) = true →
  get_bool (lab_room_schedule st) (slot_key slot, room_id lr) = false →
  pa_booked pre (place_lab c b teacher students lr st slot).
Proof.
  intros [Hndb Hrec] Ht Hpre Hfree. unfold pa_booked. cbn [place_lab st_entries].
  rewrite app_assoc. split.
  - apply (NDB_snoc _ _ _ _ Hndb Hrec); unfold pa_teacher_busy, pa_room_busy, entry_slot;
      simpl; [done|]. rewrite Hpre. congruence.
  - intros e [He | ->%list_elem_of_singleton]%elem_of_app;
      unfold pa_teacher_busy, pa_room_busy, entry_slot; simpl.
    + destruct (Hrec e He) as [H1 H2]. split; [apply elem_of_get_set_add; by left|].
      unfold pa_room_busy in H2. destruct (String.prefix "LAB" (entry_room_id e)); [|done].
      rewrite get_bool_insert. by case_decide.
    + split; [apply elem_of_get_set_add; by right|].
      rewrite Hpre, get_bool_insert. by rewrite decide_True.
Qed.

Lemma schedule_booked regular lab cs teachers config strategy st :
  Forall (λ r, String.prefix "LAB" (room_id r) = false) regular →
  Forall (λ r, String.prefix "LAB" (room_id r) = true) lab →
  _schedule_optimized o conflicts cs teachers config strategy regular lab = Some st →
  NDB (st_entries st).
Proof.
  intros Hreg Hlab Hrun.
  cut (pa_booked [] st); [by intros [? _]|].
  rewrite Forall_forall in Hreg, Hlab.
  eapply (schedule_invariant regular lab (pa_booked [])); [| |split; [apply NDB_nil|]|done].
  - intros. apply place_theory_booked; auto.
  - intros st' c b teacher students lr slot1 slot2 Hst Hd Hh Ht1 Ht2 Hin Hf1 Hf2.
    assert (slot_key slot1 ≠ slot_key slot2) as Hne.
    { unfold slot_key. intros [= _ Heq]. lia. }
    cbn [foldl]. apply place_lab_booked; auto.
    + apply place_lab_booked; auto.
    + cbn [place_lab teacher_schedule]. rewrite elem_of_get_set_add. by intros [? | [? _]].
    + cbn [place_lab lab_room_schedule]. rewrite get_bool_insert.
      rewrite decide_False; [done|]. congruence.
  - intros e He. by apply elem_of_nil in He.
Qed.

Lemma lab_paired_alt es :
  lab_paired es ↔
  ∀ e, e ∈ es → session_type e = LAB → ∃ e', e' ∈ es ∧ (lab_block e e' ∨ lab_block e' e).
Proof.
  unfold lab_paired. rewrite Forall_forall.
  split; intros H e He Hlab; specialize (H e He Hlab); by apply Exists_exists.
Qed.

Lemma lab_paired_snoc_theory es e :
  lab_paired es → session_type e = THEORY → lab_paired (es ++ [e]).
Proof.
  rewrite !lab_paired_alt.
  intros Hp Hty e0 [He0 | ->%list_elem_of_singleton]%elem_of_app Hlab; [|congruence].
  destruct (Hp e0 He0 Hlab) as (e' & He' & Hpart). exists e'. split; [|done].
  apply elem_of_app. by left.
Qed.

Lemma lab_paired_snoc_block es e1 e2 :
  lab_paired es → lab_block e1 e2 → lab_paired (es ++ [e1; e2]).
Proof.
  rewrite !lab_paired_alt.
  intros Hp H12 e0 [He0 | [-> | ->%list_elem_of_singleton]%elem_of_cons]%elem_of_app Hlab.
  - destruct (Hp e0 He0 Hlab) as (e' & He' & Hpart). exists e'. split; [|done].
    apply elem_of_app. by left.
  - exists e2. split; [|by left]. apply elem_of_app. right. by right; left.
  - exists e1. split; [|by right]. apply elem_of_app. right. by left.
Qed.

Lemma schedule_lab_paired regular lab cs teachers config strategy st :
  _schedule_optimized o conflicts cs teachers config strategy regular lab = Some st →
  lab_paired (st_entries st).
Proof.
  intros Hrun.
  eapply (schedule_invariant regular lab (λ st, lab_paired (st_entries st))); [| | |done].
  - intros. cbn [place_theory st_entries]. by apply lab_paired_snoc_theory.
  - intros st' c b teacher students lr slot1 slot2 Hst Hd Hh _ _ _ _ _.
    cbn [foldl place_lab st_entries]. rewrite <- app_assoc.
    apply lab_paired_snoc_block; [done|]. unfold lab_block; simpl. by split_and!.
  - constructor.
Qed.
End pa_schedule.

(** ** Facts on the optimized planner: the repair pass *)

Lemma NoDup_range (a b : Z) : NoDup (range a b).
Proof.
  unfold range. apply NoDup_fmap_2_strong; [|apply NoDup_seq].
  intros i j _ _ Hij. lia.
Qed.

Lemma generate_all_time_slots_keys cfg slots :
  generate_all_time_slots cfg = Some slots →
  slot_key <$> slots
  = (d ← days cfg; (λ h, (d, h)) <$> range (start_hour cfg) (end_hour cfg)).
Proof.
  unfold generate_all_time_slots. intros H%mapM_Some_1.
  induction H as [|[d h] s l k Hs _ IH]; [done|].
  rewrite fmap_cons, IH. f_equal.
  unfold TimeSlot_new in Hs. simpl in Hs. case_bool_decide; [|done].
  by injection Hs as <-.
Qed.

Lemma generate_all_time_slots_NoDup cfg slots :
  NoDup (days cfg) → generate_all_time_slots cfg = Some slots → NoDup (slot_key <$> slots).
Proof.
  intros Hd ->%generate_all_time_slots_keys.
  apply NoDup_bind; [| |done].
  - intros d1 d2 [d h] _ _ (? & [= -> _] & _)%list_elem_of_fmap (? & [= -> _] & _)%list_elem_of_fmap.
    done.
  - intros d _. apply NoDup_fmap_2; [|apply NoDup_range]. by intros h1 h2 [= ->].
Qed.

Section pa_repair.
Import PA.
Context (o : SetOrder) (conflicts : gmap CB (gset CB)).

Lemma collect_slots_spec st course batch alt n rooms slots acc :
  ∃ found,
    collect_slots o conflicts st course batch alt n rooms slots acc = acc ++ found ∧
    Forall (slot_ok st alt rooms) found ∧
    ((λ p : TimeSlot * Room * SessionType, p.1.1) <$> found) `sublist_of` slots.
Proof.
  revert acc. induction slots as [|slot rest IH]; simpl; intros acc.
  { exists []. by rewrite app_nil_r. }
  case_bool_decide.
  { exists []. rewrite app_nil_r. split_and!; [done|done|apply sublist_nil_l]. }
  case_bool_decide as Hbusy.
  { destruct (IH acc) as (found & -> & ? & ?). exists found.
    split_and!; [done|done|by apply sublist_cons]. }
  destruct (free_regular_room _ slot rooms) as [room|] eqn:Hroom.
  2:{ destruct (IH acc) as (found & -> & ? & ?). exists found.
      split_and!; [done|done|by apply sublist_cons]. }
  apply free_regular_room_spec in Hroom as [Hin Hfree].
  destruct (check_slot_available _ _ _ _ _ _ _).
  - destruct (IH (acc ++ [(slot, room, THEORY)])) as (found & -> & ? & ?).
    exists ((slot, room, THEORY) :: found). rewrite <- app_assoc.
    split_and!; [done| |by apply sublist_skip].
    by constructor.
  - destruct (IH acc) as (found & -> & ? & ?). exists found.
    split_and!; [done|done|by apply sublist_cons].
Qed.

Section invariant.
Context (rooms : list Room) (all_slots : list TimeSlot) (I : State → Prop).

(** One teacher's slots, all found free in the state before the first
    of them is committed. *)
Context (Hbatch : ∀ st course batch alt students ps,
  I st →
  Forall (slot_ok st alt rooms) ps →
  ((λ p : TimeSlot * Room * SessionType, p.1.1) <$> ps) `sublist_of` all_slots →
  I (foldl (commit_slot course batch alt students) st ps)).

Lemma try_teachers_invariant item c candidates st :
  I st → I (try_teachers o conflicts item c all_slots rooms candidates st).
Proof.
  intros Hst. induction candidates as [|alt rest IH]; simpl; [done|].
  case_bool_decide; [done|]. case_bool_decide; [done|].
  destruct (collect_slots_spec st (u_course item) (u_batch item) alt (theory_hours c)
              rooms all_slots []) as (found & -> & Hok & Hsub).
  simpl. apply Hbatch; [done| |].
  - by apply Forall_take.
  - etrans; [|exact Hsub]. apply fmap_sublist, sublist_take.
Qed.

Lemma fix_items_invariant cs candidates items st st' :
  I st →
  fix_items o conflicts cs all_slots rooms candidates items st = Some st' →
  I st'.
Proof.
  revert st. induction items as [|item rest IH]; simpl; intros st Hst.
  - by intros [= <-].
  - destruct (dict_get (u_course item) cs) as [c|]; [|done]. simpl.
    apply IH. by apply try_teachers_invariant.
Qed.
End invariant.

Lemma commit_slot_theory course batch alt students st (p : TimeSlot * Room * SessionType) :
  p.2 = THEORY →
  commit_slot course batch alt students st p
  = place_theory course batch alt students p.1.2 st p.1.1.
Proof. destruct p as [[slot room] ty]. simpl. by intros ->. Qed.

Lemma commit_batch_booked pre course batch alt students rooms ps st :
  Forall (λ r, String.prefix "LAB" (room_id r) = false) rooms →
  pa_booked pre st →
  NoDup ((λ p : TimeSlot * Room * SessionType, slot_key p.1.1) <$> ps) →
  Forall (slot_ok st alt rooms) ps →
  pa_booked pre (foldl (commit_slot course batch alt students) st ps).
Proof.
  intros Hrooms. rewrite Forall_forall in Hrooms.
  revert st. induction ps as [|p ps IH]; simpl; intros st Hst Hnd Hok; [done|].
  apply NoDup_cons in Hnd as [Hnin Hnd].
  apply Forall_cons in Hok as [(Ht & Hin & Hfree & Hty) Hok].
  rewrite commit_slot_theory by done.
  apply IH; [by apply place_theory_booked; auto|done|].
  apply Forall_forall. intros q Hq.
  rewrite Forall_forall in Hok. destruct (Hok q Hq) as (Htq & Hinq & Hfreeq & Htyq).
  assert (slot_key p.1.1 ≠ slot_key q.1.1) as Hne.
  { intros Heq. apply Hnin. rewrite Heq.
    by apply (list_elem_of_fmap_2 (λ p : TimeSlot * Room * SessionType, slot_key p.1.1)). }
  split_and!; [|done| |done].
  - cbn [place_theory teacher_schedule]. rewrite elem_of_get_set_add. by intros [? | [? _]].
  - cbn [place_theory regular_room_schedule]. rewrite get_bool_insert.
    rewrite decide_False; [done|]. congruence.
Qed.

(** The entries that the commit loop appends. *)
Lemma commit_batch_entries course batch alt students ps st :
  st_entries (foldl (commit_slot course batch alt students) st ps)
  = st_entries st ++
    ((λ p : TimeSlot * Room * SessionType,
        mkEntry course batch alt (room_id p.1.2) p.1.1 p.2 students) <$> ps).
Proof.
  revert st. induction ps as [|p ps IH]; simpl; intros st; [by rewrite app_nil_r|].
  rewrite IH. cbn [commit_slot st_entries]. by rewrite <- app_assoc.
Qed.

(** What a commit of the repair pass consists of: a teacher other than the
    original one, and exactly [theory_hours] theory slots that were free
    for that teacher; no lab slot is looked for. *)
Lemma try_teachers_commits item c all_slots rooms candidates st :
  try_teachers o conflicts item c all_slots rooms candidates st = st ∨
  ∃ alt ps,
    alt ∈ candidates ∧ alt ≠ original_teacher item ∧
    length ps = Z.to_nat (theory_hours c) ∧
    Forall (slot_ok st alt rooms) ps ∧
    try_teachers o conflicts item c all_slots rooms candidates st
    = foldl (commit_slot (u_course item) (u_batch item) alt
               (default 60 (head (batch_sizes c)))) st ps.
Proof.
  induction candidates as [|alt rest IH]; simpl; [by left|].
  case_bool_decide as Horig.
  { destruct IH as [IH | (a & ps & ? & ? & ? & ? & ?)]; [by left|].
    right. exists a, ps. split_and!; [by right|done..]. }
  case_bool_decide as Hshort.
  { destruct IH as [IH | (a & ps & ? & ? & ? & ? & ?)]; [by left|].
    right. exists a, ps. split_and!; [by right|done..]. }
  destruct (collect_slots_spec st (u_course item) (u_batch item) alt (theory_hours c)
              rooms all_slots []) as (found & Hfound & Hok & _).
  rewrite Hfound in *. simpl in *.
  right. exists alt, (take (Z.to_nat (theory_hours c)) found).
  split_and!; [left|done| |by apply Forall_take|done].
  rewrite length_take. lia.
Qed.

Lemma occupy_entries l st : st_entries (foldl occupy st l) = st_entries st.
Proof. revert st. induction l as [|e l IH]; simpl; intros st; [done|]. by rewrite IH. Qed.

Lemma occupy_keeps_teacher st e s t :
  pa_teacher_busy st s t → pa_teacher_busy (occupy st e) s t.
Proof.
  unfold pa_teacher_busy, occupy. simpl. intros H. apply elem_of_get_set_add. by left.
Qed.

Lemma occupy_keeps_room st e s r :
  pa_room_busy st s r → pa_room_busy (occupy st e) s r.
Proof.
  unfold pa_room_busy, occupy. simpl.
  destruct (String.prefix "LAB" r) eqn:Hr, (String.prefix "LAB" (entry_room_id e)) eqn:He;
    try done; rewrite get_bool_insert; by case_decide.
Qed.

Lemma occupy_recorded l st :
  recorded (pa_teacher_busy (foldl occupy st l)) (pa_room_busy (foldl occupy st l)) l.
Proof.
  induction l as [|e l IH] using rev_ind.
  - intros e He. by apply elem_of_nil in He.
  - rewrite foldl_app. simpl.
    intros e' [He' | ->%list_elem_of_singleton]%elem_of_app.
    + destruct (IH e' He'). split; [by apply occupy_keeps_teacher|by apply occupy_keeps_room].
    + unfold pa_teacher_busy, pa_room_busy, occupy. simpl. split.
      * apply elem_of_get_set_add. by right.
      * destruct (String.prefix "LAB" _); rewrite get_bool_insert;
          by rewrite decide_True.
Qed.

Lemma repair_booked es ss unscheduled cs teachers config regular lab st :
  NoDup (days config) →
  Forall (λ r, String.prefix "LAB" (room_id r) = false) regular →
  NDB es →
  repair o conflicts es ss unscheduled cs teachers config regular lab = Some st →
  NDB (filtered_entries es unscheduled ++ st_entries st).
Proof.
  intros Hdays Hreg Hndb. unfold repair.
  destruct (generate_all_time_slots config) as [all_slots|] eqn:Hslots; [|done]. simpl.
  intros Hfix.
  cut (pa_booked (filtered_entries es unscheduled) st); [by intros [? _]|].
  eapply (fix_items_invariant regular all_slots
            (pa_booked (filtered_entries es unscheduled))); [| |exact Hfix].
  - intros st0 course batch alt students ps Hst Hok Hsub.
    eapply commit_batch_booked; eauto.
    eapply sublist_NoDup; [by eapply generate_all_time_slots_NoDup|].
    rewrite (list_fmap_compose (λ p : TimeSlot * Room * SessionType, p.1.1) slot_key).
    by apply fmap_sublist.
  - unfold pa_booked. rewrite occupy_entries. simpl. rewrite app_nil_r. split.
    + eapply NDB_sublist; [|done]. apply sublist_filter.
    + apply occupy_recorded.
Qed.

Lemma commit_batch_theory rooms course batch alt students ps st :
  Forall (λ p : TimeSlot * Room * SessionType, p.1.2 ∈ rooms ∧ p.2 = THEORY) ps →
  Forall (theory_in rooms) (st_entries st) →
  Forall (theory_in rooms) (st_entries (foldl (commit_slot course batch alt students) st ps)).
Proof.
  revert st. induction ps as [|p ps IH]; simpl; intros st Hok Hst; [done|].
  apply Forall_cons in Hok as [[Hin Hty] Hok]. apply IH; [done|].
  cbn [commit_slot st_entries]. apply Forall_app. split; [done|].
  apply Forall_singleton. split; [done|]. simpl. by apply list_elem_of_fmap_2.
Qed.

Lemma repair_theory_only es ss unscheduled cs teachers config regular lab st :
  repair o conflicts es ss unscheduled cs teachers config regular lab = Some st →
  Forall (theory_in regular) (st_entries st).
Proof.
  unfold repair.
  destruct (generate_all_time_slots config) as [all_slots|]; [|done]. simpl.
  intros Hfix.
  eapply (fix_items_invariant regular all_slots
            (λ st, Forall (theory_in regular) (st_entries st))); [| |exact Hfix].
  - intros st0 course batch alt students ps Hst Hok _.
    apply commit_batch_theory; [|done].
    eapply Forall_impl; [exact Hok|]. by intros q (_ & ? & _ & ?).
  - rewrite occupy_entries. constructor.
Qed.
End pa_repair.

(** ** The pipeline of the optimized planner *)

Section pa_pipeline.
Import PA.
Context (o : SetOrder) (conflicts : gmap CB (gset CB)).

Lemma prefix_empty (s : string) : String.prefix "" s = true.
Proof. by destruct s. Qed.

Lemma regular_rooms_not_lab config :
  Forall (λ r, String.prefix "LAB" (room_id r) = false) (regular_rooms config).
Proof. unfold regular_rooms. apply Forall_fmap, Forall_true. by intros i. Qed.

Lemma lab_rooms_lab config :
  Forall (λ r, String.prefix "LAB" (room_id r) = true) (lab_rooms config).
Proof.
  unfold lab_rooms. apply Forall_fmap, Forall_true. intros i. simpl. apply prefix_empty.
Qed.

(** What [generate_proposal] returns: the entries of the schedule pass,
    or the kept entries followed by the new entries of the repair pass. *)
Lemma generate_proposal_cases now cs teachers config strategy p :
  generate_proposal o conflicts now cs teachers config strategy = Some p →
  ∃ st,
    _schedule_optimized o conflicts cs teachers config strategy
      (regular_rooms config) (lab_rooms config) = Some st ∧
    (entries p = st_entries st ∨
     ∃ st',
       repair o conflicts (st_entries st) (slot_schedule st)
         (_find_unscheduled (st_entries st) cs) cs teachers config
         (regular_rooms config) (lab_rooms config) = Some st' ∧
       entries p = filtered_entries (st_entries st) (_find_unscheduled (st_entries st) cs)
                     ++ st_entries st').
Proof.
  unfold generate_proposal.
  destruct (_schedule_optimized _ _ _ _ _ _ _ _) as [st|] eqn:Hs; [|done]. simpl.
  intros Hp. exists st. split; [done|].
  case_bool_decide.
  - simpl in Hp. injection Hp as <-. by left.
  - unfold _fix_with_teacher_reassignment in Hp.
    destruct (repair _ _ _ _ _ _ _ _ _ _) as [st'|] eqn:Hr; [|done]. simpl in Hp.
    injection Hp as <-. right. by exists st'.
Qed.

Lemma pa_no_double_booking now cs teachers config strategy p :
  NoDup (days config) →
  generate_proposal o conflicts now cs teachers config strategy = Some p →
  no_double_booking (entries p).
Proof.
  intros Hdays (st & Hs & Hp)%generate_proposal_cases.
  apply NDB_no_double_booking.
  apply schedule_booked in Hs; [|apply regular_rooms_not_lab|apply lab_rooms_lab].
  destruct Hp as [-> | (st' & Hr & ->)]; [done|].
  eapply repair_booked; [done|apply regular_rooms_not_lab|done|exact Hr].
Qed.

Lemma lab_paired_repair rooms es unscheduled new :
  lab_paired es → Forall (theory_in rooms) new →
  lab_paired (filtered_entries es unscheduled ++ new).
Proof.
  rewrite !lab_paired_alt, Forall_forall. unfold filtered_entries.
  intros Hp Hnew e [[Hcb He]%list_elem_of_filter | He]%elem_of_app Hlab.
  - destruct (Hp e He Hlab) as (e' & He' & Hblock). exists e'. split; [|done].
    apply elem_of_app. left. apply list_elem_of_filter. split; [|done].
    assert (entry_cb e' = entry_cb e) as ->; [|done].
    by destruct Hblock as [(_ & _ & ? & _) | (_ & _ & ? & _)].
  - destruct (Hnew e He) as [Hty _]. congruence.
Qed.

Lemma pa_lab_paired now cs teachers config strategy p :
  generate_proposal o conflicts now cs teachers config strategy = Some p →
  lab_paired (entries p).
Proof.
  intros (st & Hs & Hp)%generate_proposal_cases.
  apply schedule_lab_paired in Hs.
  destruct Hp as [-> | (st' & Hr & ->)]; [done|].
  eapply lab_paired_repair; eauto. by eapply repair_theory_only.
Qed.
End pa_pipeline.

(** ** Facts on rounding *)

Section binary64_facts.
Import Binary64.

(** The constants of [verify] as floats: 0.1, 0.02 and 0.95 are not
    numbers of the format, and are held as their neighbours. *)
Lemma constants_rounded :
  of_Q (1 # 10) = 3602879701896397 # 36028797018963968 ∧
  of_Q (2 # 100) = 5764607523034235 # 288230376151711744 ∧
  of_Q (95 # 100) = 4278419646001971 # 4503599627370496 ∧
  of_Q 1 = 1%Q.
Proof. split_and!; vm_compute; reflexivity. Qed.

Lemma nearest_even_nonneg (a b : Z) : 0 ≤ a → 0 < b → 0 ≤ nearest_even a b.
Proof.
  intros Ha Hb. unfold nearest_even.
  pose proof (Z.div_pos a b Ha Hb). case_match; lia.
Qed.

Lemma nearest_even_le (a b k : Z) : 0 < b → a ≤ k * b → nearest_even a b ≤ k.
Proof.
  intros Hb Hk. unfold nearest_even.
  pose proof (Z.div_mod a b ltac:(lia)) as Hdm.
  pose proof (Z.mod_pos_bound a b Hb) as Hr.
  assert (a `div` b ≤ k) as Hq by (apply Z.div_le_upper_bound; lia).
  destruct (_ || _) eqn:Hup; [| done].
  assert (a `div` b ≠ k); [| lia].
  intros Heq. assert (a `mod` b = 0) as Hz by nia. rewrite Hz in Hup.
  apply orb_true_iff in Hup
    as [Hu%bool_decide_eq_true | [Hu%bool_decide_eq_true _]%andb_true_iff]; lia.
Qed.

Lemma floor_log2_le_0 (n d : Z) : 0 < n ≤ d → floor_log2 n d ≤ 0.
Proof.
  intros Hnd. unfold floor_log2.
  pose proof (Z.log2_le_mono n d ltac:(lia)). case_bool_decide; lia.
Qed.

Lemma round_pos_nonneg (n d : Z) : 0 < n → 0 < d → (0 <= round_pos n d)%Q.
Proof.
  intros Hn Hd. unfold round_pos. rewrite Qred_correct.
  unfold Qle. cbn [Qnum Qden]. rewrite Z.mul_1_r, Z.mul_0_l.
  apply Z.mul_nonneg_nonneg; [| apply Z.pow_nonneg; lia].
  apply nearest_even_nonneg.
  - apply Z.mul_nonneg_nonneg; [lia | apply Z.pow_nonneg; lia].
  - apply Z.mul_pos_pos; [lia | apply Z.pow_pos_nonneg; lia].
Qed.

Lemma round_pos_le_1 (n d : Z) : 0 < n ≤ d → (round_pos n d <= 1)%Q.
Proof.
  intros Hnd. unfold round_pos. rewrite Qred_correct.
  pose proof (floor_log2_le_0 n d Hnd) as Hlog.
  unfold ulp_exponent. set (e := Z.max (floor_log2 n d - 52) _).
  assert (e < 0) as He by lia. clearbody e.
  rewrite (Z.max_r e 0), (Z.max_l (- e) 0) by lia.
  rewrite Z.pow_0_r, !Z.mul_1_r.
  assert (0 < 2 ^ (- e)) as Hpow by (apply Z.pow_pos_nonneg; lia).
  unfold Qle. cbn [Qnum Qden]. rewrite Z2Pos.id by done. rewrite Z.mul_1_r, Z.mul_1_l.
  apply nearest_even_le; [lia |].
  rewrite (Z.mul_comm (2 ^ (- e))). apply Z.mul_le_mono_nonneg_r; lia.
Qed.

(** Rounding keeps a number on its side of 0 and of 1, both of which are
    floating-point numbers. *)
Lemma of_Q_nonneg (x : Q) : (0 <= x)%Q → (0 <= of_Q x)%Q.
Proof.
  destruct x as [[|n|n] d]; unfold of_Q; cbn [Qnum Qden]; intros Hx; [done | |].
  - by apply round_pos_nonneg.
  - unfold Qle in Hx. cbn in Hx. lia.
Qed.

Lemma of_Q_le_1 (x : Q) : (x <= 1)%Q → (of_Q x <= 1)%Q.
Proof.
  destruct x as [[|n|n] d]; unfold of_Q; cbn [Qnum Qden]; intros Hx; [done | |].
  - apply round_pos_le_1. unfold Qle in Hx. cbn in Hx. lia.
  - pose proof (round_pos_nonneg (Z.pos n) (Z.pos d) ltac:(done) ltac:(done)). lra.
Qed.

End binary64_facts.

Section binary64_comparison.
Import Binary64.

Lemma nearest_even_ge (a b k : Z) : 0 < b → k * b ≤ a → k ≤ nearest_even a b.
Proof.
  intros Hb Hk. unfold nearest_even.
  assert (k ≤ a `div` b) as Hq by (apply Z.div_le_lower_bound; lia).
  case_match; lia.
Qed.

(** [2 ^ floor_log2 n d ≤ n / d], where the exponent is not negative. *)
Lemma floor_log2_lower (n d : Z) :
  0 < n → 0 < d → 0 ≤ floor_log2 n d → d * 2 ^ floor_log2 n d ≤ n.
Proof.
  intros Hn Hd. unfold floor_log2.
  destruct (Z.log2_spec n Hn) as [Hn1 Hn2]. destruct (Z.log2_spec d Hd) as [Hd1 Hd2].
  pose proof (Z.log2_nonneg n). pose proof (Z.log2_nonneg d).
  set (ln := Z.log2 n) in *. set (ld := Z.log2 d) in *.
  case_bool_decide as Htest; intros He.
  - rewrite (Z.max_l (ln - ld) 0), (Z.max_r (- (ln - ld)) 0) in Htest by lia.
    rewrite Z.pow_0_r in Htest. lia.
  - replace ln with (ld + 1 + (ln - ld - 1)) in Hn1 by lia.
    rewrite Z.pow_add_r in Hn1 by lia.
    rewrite Z.pow_succ_r in Hd2 by lia.
    assert (0 < 2 ^ (ln - ld - 1)) by (apply Z.pow_pos_nonneg; lia).
    replace (Z.succ ld) with (ld + 1) in * by lia. rewrite Z.pow_add_r in Hn1 by lia.
    nia.
Qed.

Lemma floor_log2_half (n d : Z) : 0 < n → n < d → d ≤ 2 * n → floor_log2 n d = -1.
Proof.
  intros Hn Hnd Hdn. unfold floor_log2.
  pose proof (Z.log2_le_mono n d ltac:(lia)) as H1.
  pose proof (Z.log2_le_mono d (2 * n) ltac:(lia)) as H2.
  rewrite Z.log2_double in H2 by lia.
  destruct (decide (Z.log2 n = Z.log2 d)) as [->|Hne].
  - rewrite Z.sub_diag. change (Z.max 0 0) with 0. change (Z.max (- 0) 0) with 0.
    rewrite Z.pow_0_r, bool_decide_eq_false_2; [done | lia].
  - replace (Z.log2 n - Z.log2 d) with (-1) by lia.
    change (Z.max (-1) 0) with 0. change (Z.max (- -1) 0) with 1.
    rewrite bool_decide_eq_true_2; [done | lia].
Qed.

Lemma of_Q_ge_1 (x : Q) : (1 <= x)%Q → (1 <= of_Q x)%Q.
Proof.
  destruct x as [[|n|n] d]; unfold of_Q; cbn [Qnum Qden]; intros Hx;
    unfold Qle in Hx; cbn [Qnum Qden] in Hx; [lia | | lia].
  unfold round_pos. rewrite Qred_correct. unfold ulp_exponent.
  pose proof (floor_log2_lower (Z.pos n) (Z.pos d) ltac:(done) ltac:(done)) as Hlow.
  set (f := floor_log2 _ _) in *. set (e := Z.max (f - 52) _).
  destruct (decide (e ≤ 0)) as [He|He].
  - rewrite (Z.max_r e 0), (Z.max_l (- e) 0) by lia.
    rewrite Z.pow_0_r, !Z.mul_1_r.
    assert (0 < 2 ^ (- e)) as Hpow by (apply Z.pow_pos_nonneg; lia).
    unfold Qle. cbn [Qnum Qden]. rewrite Z2Pos.id by done. rewrite Z.mul_1_r, Z.mul_1_l.
    apply nearest_even_ge; [lia | nia].
  - rewrite (Z.max_l e 0), (Z.max_r (- e) 0) by lia.
    rewrite Z.pow_0_r, Z.mul_1_r.
    assert (0 < 2 ^ e) as Hpow by (apply Z.pow_pos_nonneg; lia).
    unfold Qle. cbn [Qnum Qden]. rewrite Z.mul_1_l, Z.mul_1_r.
    assert (1 ≤ nearest_even (Z.pos n) (Z.pos d * 2 ^ e)); [| nia].
    apply nearest_even_ge; [lia |].
    assert (e ≤ f) as Hef by lia.
    assert (2 ^ e ≤ 2 ^ f) by (apply Z.pow_le_mono_r; lia).
    specialize (Hlow ltac:(lia)). nia.
Qed.

Lemma round_pos_half (n d : Z) :
  0 < n → n < d → d ≤ 2 * n →
  round_pos n d = Qred (nearest_even (n * 2 ^ 53) d # Z.to_pos (2 ^ 53)).
Proof.
  intros Hn Hnd Hdn. unfold round_pos, ulp_exponent.
  rewrite floor_log2_half by done.
  change (Z.max (-1 - 52) (-1074)) with (-53).
  change (Z.max (-53) 0) with 0. change (Z.max (- -53) 0) with 53.
  by rewrite Z.pow_0_r, !Z.mul_1_r.
Qed.

Lemma of_Q_le_half (x : Q) : (x <= 1 # 2)%Q → (of_Q x <= 1 # 2)%Q.
Proof.
  destruct x as [[|n|n] d]; unfold of_Q; cbn [Qnum Qden]; intros Hx; [done | |].
  - unfold Qle in Hx. cbn [Qnum Qden] in Hx.
    unfold round_pos. rewrite Qred_correct. unfold ulp_exponent.
    assert (floor_log2 (Z.pos n) (Z.pos d) ≤ -1) as Hlog.
    { unfold floor_log2.
      pose proof (Z.log2_le_mono (2 * Z.pos n) (Z.pos d) ltac:(lia)) as H1.
      rewrite Z.log2_double in H1 by lia. case_bool_decide; lia. }
    set (e := Z.max (floor_log2 _ _ - 52) _).
    assert (e ≤ -53) as He by lia. clearbody e.
    rewrite (Z.max_r e 0), (Z.max_l (- e) 0) by lia.
    rewrite Z.pow_0_r, !Z.mul_1_r.
    replace (- e) with (Z.succ (- e - 1)) by lia. rewrite Z.pow_succ_r by lia.
    assert (0 < 2 ^ (- e - 1)) as Hpow by (apply Z.pow_pos_nonneg; lia).
    unfold Qle. cbn [Qnum Qden]. rewrite Z2Pos.id by lia.
    assert (nearest_even (Z.pos n * (2 * 2 ^ (- e - 1))) (Z.pos d) ≤ 2 ^ (- e - 1)); [| lia].
    apply nearest_even_le; [lia | nia].
  - pose proof (round_pos_nonneg (Z.pos n) (Z.pos d) ltac:(done) ltac:(done)). lra.
Qed.

(** The test [coverage >= 0.95] on floats and the test on the exact
    quotient agree for a divisor of at most 2^48. *)
Lemma float_test_exact (a b : Z) :
  0 ≤ a → 0 < b ≤ 2 ^ 48 →
  Qle_bool (of_Q (95 # 100)) (of_Q (a # Z.to_pos b)) = Qle_bool (95 # 100) (a # Z.to_pos b).
Proof.
  intros Ha Hb.
  assert (of_Q (95 # 100) = 4278419646001971 # 4503599627370496) as -> by (vm_compute; reflexivity).
  destruct (Qlt_le_dec (a # Z.to_pos b) (95 # 100)) as [Hlt|Hge].
  - assert (Qle_bool (95 # 100) (a # Z.to_pos b) = false) as ->
      by (apply not_true_iff_false; rewrite Qle_bool_iff; lra).
    apply not_true_iff_false. rewrite Qle_bool_iff. apply Qlt_not_le.
    destruct (Qlt_le_dec (1 # 2) (a # Z.to_pos b)) as [Hhalf|Hhalf].
    + unfold Qlt in Hlt, Hhalf. cbn [Qnum Qden] in Hlt, Hhalf. rewrite Z2Pos.id in * by lia.
      assert (0 < a) as Hpos by lia.
      destruct a as [|n|n]; [lia | | lia].
      unfold of_Q. cbn [Qnum Qden].
      replace (Z.pos (Z.to_pos b)) with b by (rewrite Z2Pos.id; lia).
      rewrite round_pos_half by lia. rewrite Qred_correct.
      assert (nearest_even (Z.pos n * 2 ^ 53) b ≤ 8556839292003941) as Hm
        by (apply nearest_even_le; lia).
      unfold Qlt. cbn [Qnum Qden]. change (Z.pos (Z.to_pos (2 ^ 53))) with 9007199254740992.
      lia.
    + pose proof (of_Q_le_half _ Hhalf). lra.
  - assert (Qle_bool (95 # 100) (a # Z.to_pos b) = true) as ->
      by by apply Qle_bool_iff.
    rewrite Qle_bool_iff.
    destruct (Qlt_le_dec (a # Z.to_pos b) 1) as [Hone|Hone].
    + unfold Qlt in Hone. unfold Qle in Hge. cbn [Qnum Qden] in Hge, Hone.
      rewrite Z2Pos.id in * by lia.
      destruct a as [|n|n]; [lia | | lia].
      unfold of_Q. cbn [Qnum Qden].
      replace (Z.pos (Z.to_pos b)) with b by (rewrite Z2Pos.id; lia).
      rewrite round_pos_half by lia. rewrite Qred_correct.
      assert (8556839292003942 ≤ nearest_even (Z.pos n * 2 ^ 53) b) as Hm
        by (apply nearest_even_ge; lia).
      unfold Qle. cbn [Qnum Qden]. change (Z.pos (Z.to_pos (2 ^ 53))) with 9007199254740992.
      lia.
    + pose proof (of_Q_ge_1 _ Hone). lra.
Qed.

End binary64_comparison.

(** ** Facts on the verifier: where the score does stay in range *)

Section verifier_facts.
Import Verifier.

Lemma round3_unit (x : Q) : (0 <= x)%Q → (x <= 1)%Q → (0 <= round3 x)%Q ∧ (round3 x <= 1)%Q.
Proof.
  intros H0 H1. unfold round3.
  set (n := Qnum (x * 1000)). set (d := Z.pos (Qden (x * 1000))).
  assert (0 ≤ n ≤ 1000 * d) as Hn.
  { subst n d. destruct x as [a b]. unfold Qle in *. simpl in *. lia. }
  assert (0 < d) as Hd by (subst d; lia).
  pose proof (nearest_even_nonneg n d ltac:(lia) Hd).
  pose proof (nearest_even_le n d 1000 Hd ltac:(lia)).
  split; [apply of_Q_nonneg | apply of_Q_le_1]; unfold Qle; cbn [Qnum Qden]; lia.
Qed.

Lemma raw_score_unit (hard soft : nat) (cov : Q) :
  (0 <= cov)%Q → (cov <= 1)%Q →
  (0 <= raw_score hard soft cov)%Q ∧ (raw_score hard soft cov <= 1)%Q.
Proof.
  intros H0 H1. unfold raw_score.
  set (y := Qmax 0 _).
  assert (0 <= y)%Q as Ha by apply Q.le_max_l.
  assert (y <= 1)%Q as Hb by (apply Q.max_lub; [discriminate | apply Q.le_min_l]).
  clearbody y.
  pose proof (of_Q_nonneg cov H0). pose proof (of_Q_le_1 cov H1).
  split; [apply of_Q_nonneg | apply of_Q_le_1]; nra.
Qed.

(** Seven of eight sessions and one hard conflict: the product of the
    floating-point numbers 0.9 and 0.875 lies below 0.7875, and is
    rounded to 0.787. *)
Lemma round3_below_the_tie :
  round3 (raw_score 1 0 (7 # 8)) = Binary64.of_Q (787 # 1000) ∧
  (raw_score 1 0 (7 # 8) < 7875 # 10000)%Q.
Proof. split; [vm_compute; reflexivity | by vm_compute]. Qed.

Lemma coverage_unit p cs :
  Z.of_nat (length (entries p)) ≤ total_required cs →
  (0 <= coverage p cs)%Q ∧ (coverage p cs <= 1)%Q.
Proof.
  intros Hle. unfold coverage. case_bool_decide as Hpos; [|done].
  unfold Qle. simpl. rewrite Z2Pos.id by lia. lia.
Qed.

(** The test [coverage >= 0.95] of [verify]: on the rounded quotient and
    the float 0.95 it has the outcome of the exact test. *)
Lemma coverage_test_exact (p : TimetableProposal) (cs : list (string * Course)) :
  total_required cs ≤ 2 ^ 48 →
  Qle_bool (Binary64.of_Q (95 # 100)) (Binary64.of_Q (coverage p cs))
  = Qle_bool (95 # 100) (coverage p cs).
Proof.
  intros Hb. unfold coverage. case_bool_decide; [| by vm_compute].
  apply float_test_exact; lia.
Qed.

Lemma computed_score_unit p cs config :
  Z.of_nat (length (entries p)) ≤ total_required cs →
  (0 <= computed_score p cs config)%Q ∧ (computed_score p cs config <= 1)%Q.
Proof.
  intros Hle. destruct (coverage_unit p cs Hle) as [Hc0 Hc1].
  unfold computed_score. apply round3_unit; by apply raw_score_unit.
Qed.

(** [verify] returns when the score it computed passes the range check
    of the result type. *)
Lemma verify_returns p cs teachers config :
  (0 <= computed_score p cs config)%Q → (computed_score p cs config <= 1)%Q →
  ∃ r, verify p cs teachers config = Some r ∧ (0 <= score r)%Q ∧ (score r <= 1)%Q.
Proof.
  intros H0 H1. unfold verify.
  rewrite (proj2 (Qle_bool_iff _ _) H0), (proj2 (Qle_bool_iff _ _) H1). cbn [andb].
  eexists. split; [reflexivity |]. cbn [score]. by split.
Qed.

(** With no more entries than the courses require, [verify] returns, and
    its score is in the unit interval. *)
Lemma verify_score_in_range_when_covered p cs teachers config :
  Z.of_nat (length (entries p)) ≤ total_required cs →
  ∃ r, verify p cs teachers config = Some r ∧ (0 <= score r)%Q ∧ (score r <= 1)%Q.
Proof.
  intros Hle. destruct (computed_score_unit p cs config Hle) as [H0 H1].
  by apply verify_returns.
Qed.
End verifier_facts.

(** ** The claims on the planners and the verifier *)

(** A run that is known to return cannot have raised. *)
Ltac returns_a_result E :=
  exfalso;
  match type of E with
  | ?x = None =>
      let Hs := fresh in
      assert (match x with Some _ => true | None => false end = true) as Hs
        by (vm_compute; reflexivity);
      rewrite E in Hs; discriminate Hs
  end.

(** C1.  Every proposal of the conflict-aware planner, and every proposal
    of the optimized planner's pipeline (schedule pass, then teacher
    reassignment), has at most one entry per teacher and at most one
    entry per room in every (day, hour) slot.  The optimized planner
    takes its grid from the configuration: the days of a grid are
    distinct, which is the hypothesis [NoDup (days config)]. *)
Theorem no_double_booking_of_proposals :
  (∀ (o : SetOrder) (idx : Overlap.Index) (now : Z) (cs : list (string * Course))
     (teachers : list (string * Teacher)) (config : SchedulingConfig)
     (p : TimetableProposal) (st : CAP.State),
     CAP.generate_proposal o idx now cs teachers config = Some (p, st) →
     no_double_booking (entries p)) ∧
  (∀ (o : SetOrder) (conflicts : gmap CB (gset CB)) (now : Z) (cs : list (string * Course))
     (teachers : list (string * Teacher)) (config : SchedulingConfig)
     (strategy : PA.Strategy) (p : TimetableProposal),
     NoDup (days config) →
     PA.generate_proposal o conflicts now cs teachers config strategy = Some p →
     no_double_booking (entries p)).
Proof.
  split.
  - intros. by eapply cap_no_double_booking.
  - intros. by eapply pa_no_double_booking.
Qed.

(** The invariant at two runs: the conflict-aware planner on a week, the
    optimized planner with its repair pass on a short Monday. *)
Lemma no_double_booking_of_proposals_witness :
  match CAP.generate_proposal canonical_order empty_index 0 two_courses [] week with
  | Some (p, _) => no_double_booking (entries p)
  | None => False
  end ∧
  NoDup (days short_monday) ∧
  match PA.generate_proposal canonical_order ∅ 0 lab_course (mk_teachers ["T1"; "T2"])
          short_monday PA.default_strategy with
  | Some p => no_double_booking (entries p)
  | None => False
  end.
Proof.
  destruct no_double_booking_of_proposals as [Hcap Hpa]. split_and!.
  - destruct (CAP.generate_proposal _ _ _ _ _ _) as [[p st]|] eqn:E.
    + by eapply Hcap.
    + returns_a_result E.
  - apply NoDup_singleton.
  - destruct (PA.generate_proposal _ _ _ _ _ _ _) as [p|] eqn:E.
    + eapply Hpa; [|exact E]. apply NoDup_singleton.
    + returns_a_result E.
Defined.

(** The hypothesis on the day list is used.  A list that names a day
    twice is no grid, and no caller of the planner builds one; on such a
    list the repair pass collects the same free slot once per listing and
    commits them all, here four entries for teacher T2 in room R1 on
    Monday 10. *)
Lemma repeated_day_double_books :
  match PA.generate_proposal canonical_order ∅ 0 one_course (mk_teachers ["T1"; "T2"])
          four_mondays PA.default_strategy with
  | Some p => teacher_bookings (entries p) (MONDAY, 10) "T2" = 4%nat ∧
              room_bookings (entries p) (MONDAY, 10) "R1" = 4%nat ∧
              ¬ no_double_booking (entries p)
  | None => False
  end.
Proof.
  assert (entries <$> PA.generate_proposal canonical_order ∅ 0 one_course
            (mk_teachers ["T1"; "T2"]) four_mondays PA.default_strategy
          = Some (replicate 4 (mkEntry "C1" "B1" "T2" "R1" (mkTimeSlot MONDAY 10) THEORY 60)))
    as E by (vm_compute; reflexivity).
  destruct (PA.generate_proposal _ _ _ _ _ _ _) as [p|]; [|discriminate E].
  injection E as ->. split_and!; [reflexivity..|].
  intros H. destruct (H MONDAY 10) as [Ht _]. specialize (Ht "T2").
  vm_compute in Ht. lia.
Qed.

(** C3 (amended).  In every proposal of the optimized planner's pipeline
    every lab entry is one half of a block: a lab entry of the same
    course-batch, on the same day and in the same room, lies on the next
    hour or on the previous hour. *)
Theorem optimized_labs_are_paired :
  ∀ (o : SetOrder) (conflicts : gmap CB (gset CB)) (now : Z) (cs : list (string * Course))
    (teachers : list (string * Teacher)) (config : SchedulingConfig)
    (strategy : PA.Strategy) (p : TimetableProposal),
    PA.generate_proposal o conflicts now cs teachers config strategy = Some p →
    lab_paired (entries p).
Proof. intros. by eapply pa_lab_paired. Qed.

(** The lab block of A-B1 in a week of the optimized planner. *)
Lemma optimized_labs_are_paired_witness :
  match PA.generate_proposal canonical_order ∅ 0 two_courses (mk_teachers ["T"])
          week PA.default_strategy with
  | Some p => lab_paired (entries p)
  | None => False
  end.
Proof.
  destruct (PA.generate_proposal _ _ _ _ _ _ _) as [p|] eqn:E.
  - by eapply optimized_labs_are_paired.
  - returns_a_result E.
Defined.

(** C3 (as stated) fails.  The conflict-aware planner places lab hours one
    at a time: with teacher T busy from Monday 10 to Monday 16, the two lab
    hours of A-B1 land on Monday 17 and Tuesday 10, neither with a partner.
    And in a proposal of the optimized planner the second hour of a block
    has no lab entry on the hour after it. *)
Lemma lab_adjacency_fails :
  match CAP.generate_proposal canonical_order empty_index 0 two_courses [] week with
  | Some (p, _) => ¬ lab_paired (entries p)
  | None => False
  end ∧
  match PA.generate_proposal canonical_order ∅ 0 two_courses (mk_teachers ["T"])
          week PA.default_strategy with
  | Some p => lab_paired (entries p) ∧ ¬ lab_adjacent (entries p)
  | None => False
  end.
Proof.
  split.
  - assert (match CAP.generate_proposal canonical_order empty_index 0 two_courses [] week with
            | Some (p, _) => bool_decide (lab_paired (entries p))
            | None => true
            end = false) as H by (vm_compute; reflexivity).
    destruct (CAP.generate_proposal _ _ _ _ _ _) as [[p st]|]; [|discriminate H].
    by apply bool_decide_eq_false in H.
  - assert (match PA.generate_proposal canonical_order ∅ 0 two_courses (mk_teachers ["T"])
                    week PA.default_strategy with
            | Some p => bool_decide (lab_paired (entries p)) &&
                        negb (bool_decide (lab_adjacent (entries p)))
            | None => false
            end = true) as H by (vm_compute; reflexivity).
    destruct (PA.generate_proposal _ _ _ _ _ _ _) as [p|]; [|discriminate H].
    apply andb_true_iff in H as [H1%bool_decide_eq_true H2%negb_true_iff].
    split; [done|]. by apply bool_decide_eq_false in H2.
Qed.

(** C9.  Every entry that the teacher-reassignment pass creates is a
    theory entry in a room of the regular pool, whatever shortfall (theory
    or lab hours) made the pass run. *)
Theorem repair_creates_theory_entries_only :
  ∀ (o : SetOrder) (conflicts : gmap CB (gset CB)) (es : list ScheduleEntry)
    (ss : gmap Slot (gset CB)) (unscheduled : list PA.Unscheduled)
    (cs : list (string * Course)) (teachers : list (string * Teacher))
    (config : SchedulingConfig) (regular lab : list Room) (st : PA.State),
    PA.repair o conflicts es ss unscheduled cs teachers config regular lab = Some st →
    Forall (theory_in regular) (PA.st_entries st).
Proof. intros. by eapply repair_theory_only. Qed.

(** The repair of A-B1, which is short of two theory hours. *)
Lemma repair_creates_theory_entries_only_witness :
  match PA.repair canonical_order ∅ short_monday_entries short_monday_marks
          (PA._find_unscheduled short_monday_entries lab_course) lab_course
          (mk_teachers ["T1"; "T2"]) short_monday
          (PA.regular_rooms short_monday) (PA.lab_rooms short_monday) with
  | Some st => Forall (theory_in (PA.regular_rooms short_monday)) (PA.st_entries st)
  | None => False
  end.
Proof.
  destruct (PA.repair _ _ _ _ _ _ _ _ _ _) as [st|] eqn:E.
  - by eapply repair_creates_theory_entries_only.
  - returns_a_result E.
Defined.

(** A run that cannot avoid conflicts: the last course of teacher T shares
    the four slots of D, and both counts are 4. *)
Lemma total_conflicts_matches_recount_witness :
  NoDup (fst <$> busy_teacher_courses) ∧
  match CAP.generate_proposal canonical_order
          (Overlap._load_student_conflicts canonical_order one_student_everywhere) 0
          busy_teacher_courses [] week with
  | Some (p, st) =>
      CAP.total_conflicts st
      = Refine.calculate_conflicts p
          (Overlap.pair_student_count
             (Overlap._load_student_conflicts canonical_order one_student_everywhere)) ∧
      CAP.total_conflicts st = 4
  | None => False
  end.
Proof.
  assert (NoDup (fst <$> busy_teacher_courses)) as Hnd.
  { apply (bool_decide_unpack _). vm_compute. reflexivity. }
  assert ((λ r, CAP.total_conflicts r.2) <$>
            CAP.generate_proposal canonical_order
              (Overlap._load_student_conflicts canonical_order one_student_everywhere) 0
              busy_teacher_courses [] week = Some 4) as H4 by (vm_compute; reflexivity).
  split; [done|].
  destruct (CAP.generate_proposal _ _ _ _ _ _) as [[p st]|] eqn:E; [|discriminate H4].
  split; [by eapply total_conflicts_matches_recount | by injection H4].
Defined.

(** C2 (the code departs from the claim).  On a Monday of three hours the
    schedule pass places the lab block and one of the three theory hours of
    A-B1.  The repair pass removes all three entries before it looks for
    another teacher; T1 is the only teacher, so nothing is put back: the
    course-batch goes from three placed sessions to none. *)
Theorem repair_drops_placed_sessions :
  (λ st, (PA.st_entries st, PA.slot_schedule st)) <$>
    PA._schedule_optimized canonical_order ∅ lab_course (mk_teachers ["T1"]) short_monday
      PA.default_strategy (PA.regular_rooms short_monday) (PA.lab_rooms short_monday)
  = Some (short_monday_entries, short_monday_marks) ∧
  placed short_monday_entries ("A", "B1") = 3%nat ∧
  PA._fix_with_teacher_reassignment canonical_order ∅ short_monday_entries
    short_monday_marks (PA._find_unscheduled short_monday_entries lab_course) lab_course
    (mk_teachers ["T1"]) short_monday (PA.regular_rooms short_monday)
    (PA.lab_rooms short_monday) = Some [] ∧
  entries <$> PA.generate_proposal canonical_order ∅ 0 lab_course (mk_teachers ["T1"])
                short_monday PA.default_strategy = Some [].
Proof. split_and!; vm_compute; reflexivity. Qed.

(** C6 (the code departs from the claim).  With a second teacher T2 the
    repair pass commits: three theory entries under T2, none under T1.
    The course needs two lab hours as well; the committed set holds no lab
    entry, and the lab block of the schedule pass is gone. *)
Theorem repair_commits_without_lab_hours :
  PA.st_entries <$>
    PA.repair canonical_order ∅ short_monday_entries short_monday_marks
      (PA._find_unscheduled short_monday_entries lab_course) lab_course
      (mk_teachers ["T1"; "T2"]) short_monday
      (PA.regular_rooms short_monday) (PA.lab_rooms short_monday)
  = Some [mkEntry "A" "B1" "T2" "R1" (mkTimeSlot MONDAY 10) THEORY 60;
          mkEntry "A" "B1" "T2" "R1" (mkTimeSlot MONDAY 11) THEORY 60;
          mkEntry "A" "B1" "T2" "R1" (mkTimeSlot MONDAY 12) THEORY 60] ∧
  lab_hours <$> dict_get "A" lab_course = Some 2 ∧
  entries <$> PA.generate_proposal canonical_order ∅ 0 lab_course
                (mk_teachers ["T1"; "T2"]) short_monday PA.default_strategy
  = Some [mkEntry "A" "B1" "T2" "R1" (mkTimeSlot MONDAY 10) THEORY 60;
          mkEntry "A" "B1" "T2" "R1" (mkTimeSlot MONDAY 11) THEORY 60;
          mkEntry "A" "B1" "T2" "R1" (mkTimeSlot MONDAY 12) THEORY 60].
Proof. split_and!; vm_compute; reflexivity. Qed.

(** C4 (the code departs from the claim).  The clamp comes before the
    coverage factor, and the factor exceeds 1 when a proposal holds more
    entries than the courses require: no violation is found, the score is
    1.0 * 8/4 = 2, and [verify] fails the range check of its own result
    type instead of returning a score in [0, 1]. *)
Theorem verify_score_exceeds_one :
  Verifier.hard_conflict_count over_covered four_hour_course week = 0%nat ∧
  Verifier._check_soft_constraints over_covered four_hour_course week = [] ∧
  (Verifier.computed_score over_covered four_hour_course week == 2)%Q ∧
  Verifier.verify over_covered four_hour_course [] week = None.
Proof. by vm_compute. Qed.

(** * Further properties of the code *)

(** ** Facts on grouped dictionaries *)

Section group_facts.
Context {K V : Type} `{EqDecision K}.
Implicit Types (g : list (K * list V)) (l : list V) (k : K).

Lemma group_insert_keys k (v : V) g :
  fst <$> Verifier.group_insert k v g
  = if decide (k ∈ fst <$> g) then fst <$> g else (fst <$> g) ++ [k].
Proof.
  induction g as [|[k0 vs] g IH]; cbn [Verifier.group_insert fst snd].
  - rewrite decide_False; [reflexivity | cbn; apply not_elem_of_nil].
  - rewrite !fmap_cons. cbn [fst].
    destruct (decide (k0 = k)) as [->|Hne].
    + rewrite decide_True; [done | left].
    + rewrite fmap_cons, IH. cbn [fst]. destruct (decide (k ∈ fst <$> g)).
      * rewrite decide_True; [done | by right].
      * rewrite decide_False; [done |].
        intros [?|?]%elem_of_cons; congruence.
Qed.

Lemma group_insert_lookup k k' (v : V) g :
  group_lookup k' (Verifier.group_insert k v g)
  = if decide (k' = k) then group_lookup k g ++ [v] else group_lookup k' g.
Proof.
  unfold group_lookup.
  induction g as [|[k0 vs] g IH]; cbn [Verifier.group_insert List.find fst snd].
  - destruct (decide (k' = k)) as [->|Hne]; cbn.
    + by rewrite bool_decide_eq_true_2.
    + rewrite bool_decide_eq_false_2; [done | congruence].
  - destruct (decide (k0 = k)) as [->|Hne]; cbn [List.find fst snd].
    + destruct (decide (k' = k)) as [->|Hne'].
      * by rewrite !bool_decide_eq_true_2.
      * rewrite !bool_decide_eq_false_2 by congruence. done.
    + destruct (decide (k0 = k')) as [->|Hne'].
      * rewrite bool_decide_eq_true_2 by done.
        rewrite decide_False by congruence. done.
      * rewrite bool_decide_eq_false_2 by done.
        rewrite (bool_decide_eq_false_2 (k0 = k)) by done. apply IH.
Qed.

Lemma group_insert_nonempty k (v : V) g :
  Forall (λ kv, kv.2 ≠ []) g → Forall (λ kv, kv.2 ≠ []) (Verifier.group_insert k v g).
Proof.
  induction 1 as [|[k0 vs] g Hkv Hg IH]; cbn [Verifier.group_insert fst snd].
  - repeat constructor. done.
  - destruct (decide (k0 = k)); constructor; try done.
    cbn. by destruct vs.
Qed.

Lemma group_by_snoc (key : V → K) l x :
  Verifier.group_by key (l ++ [x])
  = Verifier.group_insert (key x) x (Verifier.group_by key l).
Proof. unfold Verifier.group_by. by rewrite foldl_app. Qed.

Lemma group_by_keys (key : V → K) l :
  NoDup (fst <$> Verifier.group_by key l) ∧
  ∀ k, k ∈ fst <$> Verifier.group_by key l ↔ k ∈ key <$> l.
Proof.
  induction l as [|x l [IH1 IH2]] using rev_ind.
  - split; [constructor | done].
  - rewrite group_by_snoc, group_insert_keys. rewrite fmap_app. cbn [fmap list_fmap].
    destruct (decide (key x ∈ fst <$> Verifier.group_by key l)) as [Hin|Hout].
    + split; [done |]. intros k. rewrite elem_of_app, IH2, list_elem_of_singleton.
      split; [tauto |]. intros [?| ->]; [done |]. by apply IH2.
    + split.
      * apply NoDup_app. split_and!; [done | | apply NoDup_singleton].
        intros k Hk ->%list_elem_of_singleton. done.
      * intros k. rewrite !elem_of_app, IH2. done.
Qed.

Lemma group_by_lookup (key : V → K) l k :
  group_lookup k (Verifier.group_by key l) = filter (λ x, key x = k) l.
Proof.
  induction l as [|x l IH] using rev_ind; [done |].
  rewrite group_by_snoc, group_insert_lookup, filter_app.
  destruct (decide (k = key x)) as [->|Hne].
  - rewrite IH. f_equal. rewrite filter_cons_True; done.
  - rewrite IH. rewrite filter_cons_False by congruence. by rewrite app_nil_r.
Qed.

Lemma group_by_nonempty (key : V → K) l :
  Forall (λ kv, kv.2 ≠ []) (Verifier.group_by key l).
Proof.
  induction l as [|x l IH] using rev_ind; [constructor |].
  rewrite group_by_snoc. by apply group_insert_nonempty.
Qed.

Lemma group_lookup_NoDup g k vs :
  NoDup (fst <$> g) → (k, vs) ∈ g → group_lookup k g = vs.
Proof.
  unfold group_lookup. induction g as [|[k0 vs0] g IH]; intros Hnd Hin.
  - by apply elem_of_nil in Hin.
  - cbn [List.find fst]. rewrite fmap_cons in Hnd. apply NoDup_cons in Hnd as [Hout Hnd].
    apply elem_of_cons in Hin as [[= <- <-]|Hin].
    + by rewrite bool_decide_eq_true_2.
    + rewrite bool_decide_eq_false_2; [by apply IH |].
      intros ->. apply Hout. apply (list_elem_of_fmap_2 fst _ _ Hin).
Qed.

(** The groups of [group_by]: one for each key that occurs, holding the
    elements of that key in their order. *)
Lemma group_by_spec (key : V → K) l k vs :
  (k, vs) ∈ Verifier.group_by key l ↔ vs = filter (λ x, key x = k) l ∧ vs ≠ [].
Proof.
  destruct (group_by_keys key l) as [Hnd Hkeys]. split.
  - intros Hin. split.
    + rewrite <- (group_by_lookup key l k). symmetry. by apply group_lookup_NoDup.
    + by apply (proj1 (Forall_forall _ _) (group_by_nonempty key l) _ Hin).
  - intros [-> Hne].
    assert (k ∈ fst <$> Verifier.group_by key l) as Hk.
    { apply Hkeys. destruct (filter _ l) as [|x ?] eqn:E; [done |].
      assert (x ∈ filter (λ x, key x = k) l) as [<- ?]%list_elem_of_filter
        by (rewrite E; left).
      by apply list_elem_of_fmap_2. }
    apply list_elem_of_fmap in Hk as ([k' vs'] & -> & Hin). cbn.
    rewrite <- (group_by_lookup key l k'), (group_lookup_NoDup _ _ _ Hnd Hin). done.
Qed.

End group_facts.

(** ** The hard checks of the verifier *)

Section verifier_checks.
Import Verifier.

Lemma bind_nil_iff {A B} (f : A → list B) (l : list A) :
  (x ← l; f x) = [] ↔ Forall (λ x, f x = []) l.
Proof.
  induction l as [|x l IH]; cbn.
  - split; [constructor | done].
  - rewrite Forall_cons, <- IH. split.
    + by intros [? ?]%app_eq_nil.
    + by intros [-> ->].
Qed.

Lemma length_le_1_flag {A} (vs : list A) (c : Conflict) :
  (if bool_decide (1 < length vs)%nat then [c] else []) = [] ↔ (length vs ≤ 1)%nat.
Proof. case_bool_decide; split; intros; (done || lia). Qed.

Lemma check_room_empty p :
  _check_room_conflicts p = [] ↔ ∀ s r, (room_bookings (entries p) s r ≤ 1)%nat.
Proof.
  unfold _check_room_conflicts, room_bookings. rewrite bind_nil_iff, Forall_forall. split.
  - intros Hg s r.
    rewrite (list_filter_iff _ (λ e, (entry_slot e, entry_room_id e) = (s, r)))
      by (intros e; rewrite pair_equal_spec; done).
    destruct (decide (filter (λ e, (entry_slot e, entry_room_id e) = (s, r)) (entries p) = []))
      as [->|Hne]; [cbn; lia |].
    eapply length_le_1_flag, (Hg ((s, r), _)). by apply group_by_spec.
  - intros Hb [[s r] vs] [-> _]%group_by_spec. apply length_le_1_flag. cbn [snd].
    rewrite (list_filter_iff _ (λ e, entry_slot e = s ∧ entry_room_id e = r))
      by (intros e; rewrite pair_equal_spec; done).
    apply Hb.
Qed.

Lemma check_teacher_empty p :
  _check_teacher_conflicts p = [] ↔ ∀ s t, (teacher_bookings (entries p) s t ≤ 1)%nat.
Proof.
  unfold _check_teacher_conflicts, teacher_bookings.
  rewrite bind_nil_iff, Forall_forall. split.
  - intros Hg s t.
    rewrite (list_filter_iff _ (λ e, teacher_name e = t ∧ entry_slot e = s))
      by (intros e; tauto).
    rewrite <- list_filter_filter.
    set (vs := filter (λ e, entry_slot e = s) (entries p)).
    destruct (decide (vs = [])) as [->|Hvs]; [cbn; lia |].
    assert ((s, vs) ∈ group_by entry_slot (entries p)) as Hin by by apply group_by_spec.
    specialize (Hg _ Hin). rewrite bind_nil_iff, Forall_forall in Hg. cbn [snd] in Hg.
    destruct (decide (filter (λ e, teacher_name e = t) vs = [])) as [->|Hne]; [cbn; lia |].
    eapply length_le_1_flag, (Hg (t, _)). by apply group_by_spec.
  - intros Hb [s vs] [-> _]%group_by_spec. cbn [snd].
    rewrite bind_nil_iff, Forall_forall.
    intros [t ws] [-> _]%group_by_spec. apply length_le_1_flag. cbn [snd].
    rewrite list_filter_filter.
    rewrite (list_filter_iff _ (λ e, entry_slot e = s ∧ teacher_name e = t))
      by (intros e; tauto).
    apply Hb.
Qed.

Lemma check_coverage_empty p cs :
  _check_coverage p cs = [] ↔ PA._find_unscheduled (entries p) cs = [].
Proof.
  unfold _check_coverage, PA._find_unscheduled.
  rewrite !bind_nil_iff. apply Forall_iff. intros kc.
  rewrite !bind_nil_iff. apply Forall_iff. intros b.
  change (PA.scheduled_count (entries p)) with (scheduled_count (entries p)).
  repeat case_bool_decide; cbn; split; intros; (done || lia).
Qed.

#[local] Instance Day_value_inj : Inj (=) (=) Day_value.
Proof. intros [] []; cbn; congruence. Qed.

Lemma check_time_bounds_empty p config :
  _check_time_bounds p config = [] ↔ Forall (within config) (entries p).
Proof.
  unfold _check_time_bounds, within. rewrite bind_nil_iff. apply Forall_iff. intros e.
  pose proof (list_elem_of_fmap_inj Day_value (days config) (day (time_slot e))) as Hinj.
  destruct (decide (day (time_slot e) ∈ days config));
    repeat case_bool_decide; cbn; split; intros; try done; try lia; try tauto.
  split; [done | lia].
Qed.

Lemma hard_conflicts_hard p cs config :
  Forall (λ c, severity c = "hard") (hard_conflicts p cs config).
Proof.
  unfold hard_conflicts, _check_teacher_conflicts, _check_room_conflicts, _check_coverage,
    _check_time_bounds.
  rewrite !Forall_app. split_and!; apply Forall_forall; intros c Hc;
    repeat (apply list_elem_of_bind in Hc as (? & Hc & _));
    repeat (apply elem_of_app in Hc as [Hc|Hc]);
    case_bool_decide; by (apply list_elem_of_singleton in Hc as -> || apply elem_of_nil in Hc).
Qed.

Lemma hard_conflict_count_zero p cs config :
  hard_conflict_count p cs config = 0%nat ↔
  no_double_booking (entries p) ∧ PA._find_unscheduled (entries p) cs = [] ∧
  Forall (within config) (entries p).
Proof.
  unfold hard_conflict_count.
  assert (filter (λ c, severity c = "hard") (hard_conflicts p cs config)
          = hard_conflicts p cs config) as ->.
  { generalize (hard_conflicts_hard p cs config).
    induction 1 as [|c l Hc Hl IH]; [done |]. by rewrite filter_cons_True, IH. }
  rewrite length_zero_iff_nil. unfold hard_conflicts.
  rewrite !app_nil, check_teacher_empty, check_room_empty, check_coverage_empty,
    check_time_bounds_empty.
  unfold no_double_booking. split.
  - intros (Ht & Hr & Hc & Hb). split_and!; [| done | done].
    intros d h. split; [apply Ht | apply Hr].
  - intros (Hndb & Hc & Hb). split_and!; [| | done | done].
    + intros [d h] t. apply Hndb.
    + intros [d h] r. apply Hndb.
Qed.

End verifier_checks.

(** ** What the verifier's verdict means *)

Section verdict.
Import Verifier.

Lemma bind_length_between {A B C} (f : A → list B) (g : A → list C) (l : list A) :
  (∀ x, length (f x) ≤ length (g x) ≤ 2 * length (f x))%nat →
  (length (x ← l; f x) ≤ length (x ← l; g x) ≤ 2 * length (x ← l; f x))%nat.
Proof.
  intros Hfg. induction l as [|x l IH]; cbn; [lia |].
  rewrite !length_app. specialize (Hfg x). lia.
Qed.

(** The teacher check and the room check of the verifier report nothing
    exactly when no teacher and no room is booked twice in a slot. *)
Theorem verifier_flags_double_bookings (p : TimetableProposal) :
  _check_teacher_conflicts p = [] ∧ _check_room_conflicts p = [] ↔
  no_double_booking (entries p).
Proof.
  rewrite check_teacher_empty, check_room_empty. unfold no_double_booking. split.
  - intros [Ht Hr] d h. split; [apply Ht | apply Hr].
  - intros Hndb. split; intros [d h] x; apply Hndb.
Qed.

(** The coverage check of the verifier reports one or two conflicts for
    each course-batch that [_find_unscheduled] of the planner lists, and
    none for the others. *)
Theorem coverage_check_counts (p : TimetableProposal) (cs : list (string * Course)) :
  (length (PA._find_unscheduled (entries p) cs) ≤ length (_check_coverage p cs)
   ≤ 2 * length (PA._find_unscheduled (entries p) cs))%nat.
Proof.
  unfold _check_coverage, PA._find_unscheduled.
  apply bind_length_between. intros kc. apply bind_length_between. intros b.
  change (PA.scheduled_count (entries p)) with (scheduled_count (entries p)).
  repeat case_bool_decide; cbn; lia.
Qed.

(** When [verify] returns, its verdict [is_valid] holds exactly when the
    proposal books no teacher and no room twice, leaves no course-batch
    short of its hours, keeps every entry within the configured days and
    hours, and covers at least 95% of the required hours. *)
Theorem verify_valid_iff (p : TimetableProposal) (cs : list (string * Course))
    (teachers : list (string * Teacher)) (config : SchedulingConfig)
    (r : VerificationResult) :
  verify p cs teachers config = Some r →
  (is_valid r = true ↔
   no_double_booking (entries p) ∧ PA._find_unscheduled (entries p) cs = [] ∧
   Forall (within config) (entries p) ∧ (95 # 100 <= coverage p cs)%Q).
Proof.
  unfold verify. destruct (_ && _); [|done]. intros [= <-]. cbn [is_valid].
  rewrite andb_true_iff, bool_decide_eq_true, Qle_bool_iff, hard_conflict_count_zero.
  tauto.
Qed.

Lemma verify_valid_iff_witness :
  match verify exactly_covered four_hour_course [] week with
  | Some r =>
      is_valid r = true ∧
      (is_valid r = true ↔
       no_double_booking (entries exactly_covered) ∧
       PA._find_unscheduled (entries exactly_covered) four_hour_course = [] ∧
       Forall (within week) (entries exactly_covered) ∧
       (95 # 100 <= coverage exactly_covered four_hour_course)%Q)
  | None => False
  end.
Proof.
  destruct (verify exactly_covered four_hour_course [] week) as [r|] eqn:E.
  - split; [| exact (verify_valid_iff _ _ _ _ _ E)].
    assert (is_valid <$> verify exactly_covered four_hour_course [] week = Some true) as Hv
      by (vm_compute; reflexivity).
    rewrite E in Hv. by injection Hv.
  - assert (match verify exactly_covered four_hour_course [] week with
            | Some _ => true | None => false end = true) as Hv by (vm_compute; reflexivity).
    rewrite E in Hv. discriminate.
Defined.

Lemma verify_score_in_range_when_covered_witness :
  Z.of_nat (length (entries exactly_covered)) ≤ total_required four_hour_course ∧
  ∃ r, verify exactly_covered four_hour_course [] week = Some r ∧
       (0 <= score r)%Q ∧ (score r <= 1)%Q.
Proof.
  assert (Z.of_nat (length (entries exactly_covered)) ≤ total_required four_hour_course) as H
    by (vm_compute; discriminate).
  split; [exact H |].
  exact (verify_score_in_range_when_covered exactly_covered four_hour_course [] week H).
Defined.

End verdict.

(** ** The conflict-aware planner: what it places and when it gives up *)

Lemma elem_of_range (a b x : Z) : x ∈ range a b ↔ a ≤ x < b.
Proof.
  unfold range. rewrite list_elem_of_fmap. split.
  - intros (i & -> & Hi%elem_of_seq). lia.
  - intros Hx. exists (Z.to_nat (x - a)). split; [lia |]. apply elem_of_seq. lia.
Qed.

Lemma find_None_iff {A} (f : A → bool) (l : list A) :
  List.find f l = None ↔ Forall (λ x, f x = false) l.
Proof.
  induction l as [|x l IH]; cbn; [split; [constructor | done] |].
  rewrite Forall_cons, <- IH. destruct (f x); split; try done; by intros [? ?].
Qed.

Lemma total_required_sum (cs : list (string * Course)) (a : Z) :
  foldl (λ acc kc, acc + total_hours kc.2 * Z.of_nat (length (batches kc.2))) a cs
  = a + Verifier.total_required cs.
Proof.
  unfold Verifier.total_required. revert a.
  induction cs as [|kc cs IH] using rev_ind; intros a; cbn; [lia |].
  rewrite !foldl_app. cbn. rewrite IH. lia.
Qed.

Lemma total_required_cons (kc : string * Course) (cs : list (string * Course)) :
  Verifier.total_required (kc :: cs)
  = total_hours kc.2 * Z.of_nat (length (batches kc.2)) + Verifier.total_required cs.
Proof.
  unfold Verifier.total_required at 1. cbn [foldl]. rewrite total_required_sum. lia.
Qed.

Section cap_extent.
Import Overlap CAP.
Context (o : SetOrder) (idx : Index).

Lemma hours_asked_app l1 l2 : hours_asked (l1 ++ l2) = (hours_asked l1 + hours_asked l2)%nat.
Proof. unfold hours_asked. induction l1 as [|se l1 IH]; cbn; [done | rewrite IH; lia]. Qed.

Lemma hours_asked_perm l1 l2 : l1 ≡ₚ l2 → hours_asked l1 = hours_asked l2.
Proof. unfold hours_asked. induction 1; cbn; lia. Qed.

Lemma hours_asked_batch code c i b :
  Z.of_nat (hours_asked (batch_sessions idx code c i b)) = total_hours c.
Proof.
  unfold batch_sessions, total_hours, hours_asked.
  repeat case_bool_decide; cbn; unfold theory_hours, lab_hours in *; case_decide; lia.
Qed.

Lemma hours_asked_batches code c (f : nat → nat) bs :
  Z.of_nat (hours_asked (mjoin (imap (λ i, batch_sessions idx code c (f i)) bs)))
  = total_hours c * Z.of_nat (length bs).
Proof.
  revert f. induction bs as [|b bs IH]; intros f; [cbn; lia |].
  cbn [imap mjoin list_join length]. rewrite hours_asked_app, Nat2Z.inj_add.
  rewrite hours_asked_batch. specialize (IH (f ∘ S)). unfold compose in IH.
  setoid_rewrite IH. lia.
Qed.

Lemma hours_asked_build cs :
  Z.of_nat (hours_asked (build_sessions idx cs)) = Verifier.total_required cs.
Proof.
  unfold build_sessions. induction cs as [|kc cs IH]; [done |].
  cbn [mbind list_bind]. rewrite hours_asked_app, Nat2Z.inj_add.
  fold (mbind (M:=list) (λ kc : string * Course,
          mjoin (imap (batch_sessions idx kc.1 kc.2) (batches kc.2))) cs).
  rewrite IH. rewrite (hours_asked_batches kc.1 kc.2 id).
  rewrite total_required_cons. lia.
Qed.

Lemma place_hours_length n se rooms st :
  (length (st_entries (place_hours o idx n se rooms st)) ≤ length (st_entries st) + n)%nat.
Proof.
  revert st. induction n as [|n IH]; intros st; cbn [place_hours]; [lia |].
  destruct (find_best_slot _ _ _ _ _ _ _ _) as [[[s room] c]|]; [| lia].
  etransitivity; [apply IH |]. cbn. rewrite length_app. cbn. lia.
Qed.

Lemma place_sessions_length l st :
  (length (st_entries (foldl (place_session o idx) st l))
   ≤ length (st_entries st) + hours_asked l)%nat.
Proof.
  revert st. induction l as [|se l IH]; intros st; cbn [foldl]; [cbn; lia |].
  change (hours_asked (se :: l)) with (Z.to_nat (s_hours se) + hours_asked l)%nat.
  etransitivity; [apply IH |]. unfold place_session.
  pose proof (place_hours_length (Z.to_nat (s_hours se)) se
    (if bool_decide (s_type se = "lab") then lab_rooms else regular_rooms) st).
  lia.
Qed.

Lemma run_length cs :
  Z.of_nat (length (st_entries (run o idx cs))) ≤ Verifier.total_required cs.
Proof.
  rewrite <- hours_asked_build.
  assert (hours_asked (sort_sessions (build_sessions idx cs))
          = hours_asked (build_sessions idx cs)) as <-
    by apply hours_asked_perm, sorted_by_perm.
  unfold run.
  pose proof (place_sessions_length (sort_sessions (build_sessions idx cs)) init_state) as H.
  cbn [init_state st_entries length] in H. lia.
Qed.

Lemma run_counted cs :
  scheduled_count (run o idx cs) = Z.of_nat (length (st_entries (run o idx cs))).
Proof.
  apply (run_invariant o idx (λ st, scheduled_count st = Z.of_nat (length (st_entries st)))).
  - done.
  - intros st se s room c Hst _ _. cbn. rewrite length_app. cbn. lia.
Qed.

Lemma grid_hours (s : Slot) : s ∈ grid → 10 ≤ s.2 ≤ 17.
Proof.
  unfold grid, hours. intros (d & Hs & _)%list_elem_of_bind.
  apply list_elem_of_fmap in Hs as (h & -> & Hh%elem_of_range). cbn. lia.
Qed.

Lemma run_entries_ok cs : Forall cap_entry_ok (st_entries (run o idx cs)).
Proof.
  apply (run_invariant o idx (λ st, Forall cap_entry_ok (st_entries st))).
  - constructor.
  - intros st se s room c Hst _ (Hs%grid_hours & _ & Hroom & _)%find_best_slot_found.
    cbn. apply Forall_app. split; [done |]. repeat constructor; cbn; try lia.
    unfold session_type_of. case_bool_decide; by case_decide.
Qed.

Lemma scan_slots_none st course batch teacher rooms slots best :
  scan_slots o idx st course batch teacher rooms slots best = None ↔
  best = None ∧
  ∀ s, s ∈ slots →
    teacher ∈ get_set (teacher_schedule st) s ∨
    Forall (λ room, get_bool (room_schedule st) (s, room) = true) rooms.
Proof.
  revert best. induction slots as [|s0 rest IH]; intros best; cbn [scan_slots].
  - split; [intros ->; split; [done | by intros s ?%elem_of_nil] | by intros [-> _]].
  - assert (first_free_room st s0 rooms = None ↔
            Forall (λ room, get_bool (room_schedule st) (s0, room) = true) rooms) as Hfree.
    { unfold first_free_room. rewrite find_None_iff. apply Forall_iff. intros room.
      by destruct (get_bool _ _). }
    assert (∀ P : Slot → Prop, (∀ s, s ∈ s0 :: rest → P s) ↔ P s0 ∧ ∀ s, s ∈ rest → P s) as Hall.
    { intros P. split; [intros H; split; [apply H; left | intros s ?; apply H; by right] |].
      intros [H0 H] s [->|?]%elem_of_cons; [done | by apply H]. }
    rewrite Hall. case_bool_decide as Hbusy; [rewrite IH; tauto |].
    destruct (first_free_room st s0 rooms) as [room|] eqn:E.
    + assert (¬ Forall (λ room, get_bool (room_schedule st) (s0, room) = true) rooms) as Hn
        by (intros H%Hfree; done).
      destruct (below_best _ best) eqn:Hb.
      * case_bool_decide; [| rewrite IH]; (split; [by intros; destruct_and? |]);
          intros [? [[?|?] ?]]; done.
      * rewrite IH. split; intros [? ?]; [| tauto]. split; [done |].
        destruct best; [done | discriminate].
    + rewrite IH. pose proof (proj1 Hfree eq_refl). tauto.
Qed.

End cap_extent.

Section cap_proposals.
Import Overlap CAP.

(** The conflict-aware planner never places more sessions than the courses
    require, and the counter it prints is the number of entries of the
    proposal. *)
Theorem cap_never_over_schedules (o : SetOrder) (idx : Index) (now : Z)
    (cs : list (string * Course)) (teachers : list (string * Teacher))
    (config : SchedulingConfig) (p : TimetableProposal) (st : State) :
  generate_proposal o idx now cs teachers config = Some (p, st) →
  Z.of_nat (length (entries p)) ≤ Verifier.total_required cs ∧
  scheduled_count st = Z.of_nat (length (entries p)).
Proof.
  unfold generate_proposal. destruct (sort_sessions _); [done |].
  intros [= <- <-]. cbn [entries]. split; [apply run_length | apply run_counted].
Qed.

Lemma cap_never_over_schedules_witness :
  match generate_proposal canonical_order empty_index 0 two_courses [] week with
  | Some (p, st) =>
      Z.of_nat (length (entries p)) ≤ Verifier.total_required two_courses ∧
      scheduled_count st = Z.of_nat (length (entries p))
  | None => False
  end.
Proof.
  destruct (generate_proposal _ _ _ _ _ _) as [[p st]|] eqn:E.
  - exact (cap_never_over_schedules _ _ _ _ _ _ _ _ E).
  - returns_a_result E.
Defined.

(** Every entry of the conflict-aware planner is on an hour from 10 to 17,
    a lab entry in one of the rooms LAB1..LAB7 and a theory entry in one of
    the rooms R1..R28, whatever the configuration says. *)
Theorem cap_entries_well_formed (o : SetOrder) (idx : Index) (now : Z)
    (cs : list (string * Course)) (teachers : list (string * Teacher))
    (config : SchedulingConfig) (p : TimetableProposal) (st : State) :
  generate_proposal o idx now cs teachers config = Some (p, st) →
  Forall cap_entry_ok (entries p).
Proof.
  unfold generate_proposal. destruct (sort_sessions _); [done |].
  intros [= <- <-]. apply run_entries_ok.
Qed.

Lemma cap_entries_well_formed_witness :
  match generate_proposal canonical_order empty_index 0 two_courses [] short_monday with
  | Some (p, st) => Forall cap_entry_ok (entries p)
  | None => False
  end.
Proof.
  destruct (generate_proposal _ _ _ _ _ _) as [[p st]|] eqn:E.
  - exact (cap_entries_well_formed _ _ _ _ _ _ _ _ E).
  - returns_a_result E.
Defined.

(** [find_best_slot] returns no slot exactly when, in every slot of the
    grid, the teacher is busy or every room of the pool is taken. *)
Theorem find_best_slot_gives_up_iff (o : SetOrder) (idx : Index) (st : State)
    (course batch teacher session_type : string) (rooms : list string) :
  find_best_slot o idx st course batch teacher session_type rooms = None ↔
  ∀ s, s ∈ grid →
    teacher ∈ get_set (teacher_schedule st) s ∨
    Forall (λ room, get_bool (room_schedule st) (s, room) = true) rooms.
Proof. unfold find_best_slot. rewrite scan_slots_none. tauto. Qed.

(** The verifier accepts every proposal of the conflict-aware planner as an
    input: [verify] returns a result, the score is in the unit interval,
    and neither the teacher check nor the room check reports a conflict. *)
Theorem cap_proposal_passes_verifier (o : SetOrder) (idx : Index) (now : Z)
    (cs : list (string * Course)) (teachers : list (string * Teacher))
    (config : SchedulingConfig) (p : TimetableProposal) (st : State) :
  generate_proposal o idx now cs teachers config = Some (p, st) →
  Verifier._check_teacher_conflicts p = [] ∧ Verifier._check_room_conflicts p = [] ∧
  ∃ r, Verifier.verify p cs teachers config = Some r ∧
       (0 <= Verifier.score r)%Q ∧ (Verifier.score r <= 1)%Q.
Proof.
  intros Hgen.
  pose proof (cap_no_double_booking _ _ _ _ _ _ _ _ Hgen) as Hndb.
  split_and!.
  - apply check_teacher_empty. intros [d h] t. apply Hndb.
  - apply check_room_empty. intros [d h] r. apply Hndb.
  - revert Hgen. unfold generate_proposal. destruct (sort_sessions _); [done |].
    intros [= <- <-].
    set (p := mkProposal _ _ _).
    assert (Z.of_nat (length (entries p)) ≤ Verifier.total_required cs) as Hle
      by apply run_length.
    destruct (computed_score_unit p cs config Hle) as [H0 H1].
    by apply verify_returns.
Qed.

Lemma cap_proposal_passes_verifier_witness :
  match generate_proposal canonical_order empty_index 0 two_courses [] week with
  | Some (p, st) =>
      Verifier._check_teacher_conflicts p = [] ∧ Verifier._check_room_conflicts p = [] ∧
      ∃ r, Verifier.verify p two_courses [] week = Some r ∧
           (0 <= Verifier.score r)%Q ∧ (Verifier.score r <= 1)%Q
  | None => False
  end.
Proof.
  destruct (generate_proposal _ _ _ _ _ _) as [[p st]|] eqn:E.
  - exact (cap_proposal_passes_verifier _ _ _ _ _ _ _ _ E).
  - returns_a_result E.
Defined.

End cap_proposals.

(** ** The optimized planner: student clashes and time bounds *)

Lemma generate_all_time_slots_elem cfg slots s :
  generate_all_time_slots cfg = Some slots → s ∈ slots →
  day s ∈ days cfg ∧ start_hour cfg ≤ hour s < end_hour cfg ∧ 10 ≤ hour s ≤ 17.
Proof.
  intros Hgen Hs.
  assert (10 ≤ hour s ≤ 17) as Hb.
  { unfold generate_all_time_slots in Hgen. apply mapM_Some_1 in Hgen.
    induction Hgen as [|[d' h'] s' l k Hs' _ IH]; [by apply elem_of_nil in Hs |].
    apply elem_of_cons in Hs as [->|Hs]; [| by apply IH].
    unfold TimeSlot_new in Hs'. case_bool_decide; [| done].
    injection Hs' as <-. cbn in *. lia. }
  assert (slot_key s ∈ slot_key <$> slots) as Hk by by apply list_elem_of_fmap_2.
  rewrite (generate_all_time_slots_keys _ _ Hgen) in Hk.
  apply list_elem_of_bind in Hk as (d & Hk & Hd).
  apply list_elem_of_fmap in Hk as (h & Heq & Hh%elem_of_range).
  unfold slot_key in Heq. injection Heq as Hday Hhour.
  rewrite Hhour in Hb. rewrite Hday, Hhour. done.
Qed.

Section pa_checked.
Import PA.
Context (o : SetOrder) (conflicts : gmap CB (gset CB)).

(** [check_slot_available] does not depend on the order in which the set
    of the slot is visited. *)
Lemma check_slot_available_true ss course batch d h :
  check_slot_available o conflicts ss course batch d h = true ↔
  ∀ x, x ∈ get_set ss (d, h) → x ∉ get_set conflicts (course, batch).
Proof.
  unfold check_slot_available. rewrite forallb_forall. split.
  - intros H x Hx. specialize (H x). rewrite negb_true_iff, bool_decide_eq_false in H.
    apply H. apply list_elem_of_In. rewrite (iter_perm o). by apply elem_of_elements.
  - intros H x Hx%list_elem_of_In. rewrite (iter_perm o) in Hx.
    apply elem_of_elements in Hx. rewrite negb_true_iff, bool_decide_eq_false. by apply H.
Qed.

Section invariant.
Context (regular lab : list Room) (all_slots : list TimeSlot) (I : State → Prop).

(** A theory hour is placed on a slot of the configuration where the
    teacher and a regular room are free and no conflicting course-batch
    is marked. *)
Context (Htheory : ∀ st course b teacher students r slot,
  I st →
  slot ∈ all_slots →
  teacher ∉ get_set (teacher_schedule st) (slot_key slot) →
  check_slot_available o conflicts (slot_schedule st) course b (day slot) (hour slot) = true →
  r ∈ regular →
  get_bool (regular_room_schedule st) (slot_key slot, room_id r) = false →
  I (place_theory course b teacher students r st slot)).

(** A lab block is placed on two consecutive hours of one day, both slots
    of the configuration and both free of conflicting course-batches. *)
Context (Hlab : ∀ st c b teacher students lr slot1 slot2,
  I st →
  slot1 ∈ all_slots → slot2 ∈ all_slots →
  day slot2 = day slot1 → hour slot2 = hour slot1 + 1 →
  teacher ∉ get_set (teacher_schedule st) (slot_key slot1) →
  teacher ∉ get_set (teacher_schedule st) (slot_key slot2) →
  check_slot_available o conflicts (slot_schedule st) (code c) b (day slot1) (hour slot1)
    = true →
  check_slot_available o conflicts (slot_schedule st) (code c) b (day slot2) (hour slot2)
    = true →
  lr ∈ lab →
  get_bool (lab_room_schedule st) (slot_key slot1, room_id lr) = false →
  get_bool (lab_room_schedule st) (slot_key slot2, room_id lr) = false →
  I (foldl (place_lab c b teacher students lr) st [slot1; slot2])).

Lemma lab_loop_checked c b teacher students rest n st :
  (∀ s, s ∈ rest → s ∈ all_slots) →
  I st → I (lab_loop o conflicts c b teacher students lab rest n st).
Proof.
  remember (length rest) as k eqn:Hk.
  assert (length rest ≤ k)%nat as Hlen by lia. clear Hk.
  revert rest n st Hlen.
  induction k as [|k IH]; intros rest n st Hlen Hsub Hst.
  { destruct rest; [done | simpl in Hlen; lia]. }
  destruct rest as [|slot1 [|s2 rest2]]; [done..|].
  rewrite lab_loop_unfold. cbv zeta. simpl in Hlen.
  assert (∀ s, s ∈ s2 :: rest2 → s ∈ all_slots) as Hsub1
    by (intros s Hs; apply Hsub; by right).
  assert (∀ s, s ∈ rest2 → s ∈ all_slots) as Hsub2
    by (intros s Hs; apply Hsub1; by right).
  case_bool_decide; [|done].
  destruct (next_hour_slot slot1 (s2 :: rest2)) as [slot2|] eqn:Hnext;
    [|apply IH; [simpl; lia | done | done]].
  apply next_hour_slot_spec in Hnext as (Hin2 & Hd & Hh).
  destruct (bool_decide (teacher ∈ _) || bool_decide (teacher ∈ _)) eqn:Hbusy;
    [apply IH; [simpl; lia | done | done]|].
  apply orb_false_iff in Hbusy as [Hb1%bool_decide_eq_false Hb2%bool_decide_eq_false].
  destruct (negb _ || negb _) eqn:Hchk; [apply IH; [simpl; lia | done | done]|].
  apply orb_false_iff in Hchk as [Hc1%negb_false_iff Hc2%negb_false_iff].
  destruct (free_lab_room st slot1 slot2 lab) as [lr|] eqn:Hroom;
    [|apply IH; [simpl; lia | done | done]].
  apply free_lab_room_spec in Hroom as (Hin & Hf1 & Hf2).
  apply IH; [lia | done |]. apply Hlab; auto. apply Hsub. left.
Qed.

Lemma theory_loop_checked c b teacher students slots n st :
  (∀ s, s ∈ slots → s ∈ all_slots) →
  I st → I (theory_loop o conflicts c b teacher students regular slots n st).
Proof.
  revert n st. induction slots as [|slot rest IH]; simpl; intros n st Hsub Hst; [done|].
  assert (∀ s, s ∈ rest → s ∈ all_slots) as Hsub1 by (intros s Hs; apply Hsub; by right).
  case_bool_decide; [done|].
  case_bool_decide as Hbusy; [by apply IH|].
  destruct (negb _) eqn:Hchk; [by apply IH|]. apply negb_false_iff in Hchk.
  destruct (free_regular_room _ slot regular) as [r|] eqn:Hroom; [|by apply IH].
  apply free_regular_room_spec in Hroom as [Hin Hfree].
  apply IH; [done |]. apply Htheory; auto. apply Hsub. left.
Qed.

Lemma schedule_checked cs teachers config strategy st :
  generate_all_time_slots config = Some all_slots →
  I (mkState [] ∅ ∅ ∅ ∅) →
  _schedule_optimized o conflicts cs teachers config strategy regular lab = Some st →
  I st.
Proof.
  intros Hslots Hinit. unfold _schedule_optimized. rewrite Hslots.
  simpl. intros [= <-]. revert Hinit. generalize (mkState [] ∅ ∅ ∅ ∅).
  induction (sort_courses cs) as [|c l IH]; simpl; intros st Hst; [done|].
  apply IH. unfold schedule_course. clear IH. revert st Hst.
  induction (imap pair (batches c)) as [|ib bs IHb]; simpl; intros st Hst; [done|].
  apply IHb. unfold schedule_batch.
  apply theory_loop_checked; [by intros s ?%elem_of_sorted_by |].
  case_bool_decide; [|done].
  apply lab_loop_checked; [by intros s ?%elem_of_sorted_by | done].
Qed.
End invariant.

(** One more entry, placed where no conflicting course-batch is marked. *)
Lemma marked_snoc (es : list ScheduleEntry) (ss : gmap Slot (gset CB)) (e : ScheduleEntry) :
  clash_free conflicts es →
  (∀ e', e' ∈ es → entry_cb e' ∈ get_set ss (entry_slot e')) →
  check_slot_available o conflicts ss (course_code e) (batch_id e)
    (day (time_slot e)) (hour (time_slot e)) = true →
  clash_free conflicts (es ++ [e]) ∧
  ∀ e', e' ∈ es ++ [e] →
        entry_cb e' ∈ get_set (mark_scheduled ss (course_code e) (batch_id e)
                                 (day (time_slot e)) (hour (time_slot e))) (entry_slot e').
Proof.
  intros Hfree Hmarks Hchk. rewrite check_slot_available_true in Hchk. split.
  - apply StronglySorted_app_2; [| done | repeat constructor].
    intros e1 e2 He1 ->%list_elem_of_singleton Hslot.
    apply Hchk. change (entry_cb e1 ∈ get_set ss (entry_slot e)).
    rewrite <- Hslot. by apply Hmarks.
  - intros e' [He' | ->%list_elem_of_singleton]%elem_of_app; unfold mark_scheduled;
      apply elem_of_get_set_add; [left; by apply Hmarks | by right].
Qed.

Lemma place_theory_marked pre course b teacher students r st slot :
  pa_marked conflicts pre st →
  check_slot_available o conflicts (slot_schedule st) course b (day slot) (hour slot) = true →
  pa_marked conflicts pre (place_theory course b teacher students r st slot).
Proof.
  intros [Hfree Hmarks] Hchk. unfold pa_marked. cbn [place_theory st_entries slot_schedule].
  rewrite app_assoc.
  apply (marked_snoc _ _ (mkEntry course b teacher (room_id r) slot THEORY students)); done.
Qed.

Lemma place_lab_marked pre c b teacher students lr st slot :
  pa_marked conflicts pre st →
  check_slot_available o conflicts (slot_schedule st) (code c) b (day slot) (hour slot) = true →
  pa_marked conflicts pre (place_lab c b teacher students lr st slot).
Proof.
  intros [Hfree Hmarks] Hchk. unfold pa_marked. cbn [place_lab st_entries slot_schedule].
  rewrite app_assoc.
  apply (marked_snoc _ _ (mkEntry (code c) b teacher (room_id lr) slot LAB students)); done.
Qed.

(** A mark in another slot does not change the answer for this one. *)
Lemma check_slot_available_other ss course batch d h course' batch' d' h' :
  (d', h') ≠ (d, h) →
  check_slot_available o conflicts (mark_scheduled ss course' batch' d' h') course batch d h
  = check_slot_available o conflicts ss course batch d h.
Proof.
  intros Hne. apply eq_true_iff_eq. rewrite !check_slot_available_true.
  unfold mark_scheduled. setoid_rewrite elem_of_get_set_add. split.
  - intros H x Hx. apply H. by left.
  - intros H x [Hx | [? _]]; [by apply H | done].
Qed.

Lemma schedule_marked regular lab cs teachers config strategy st :
  _schedule_optimized o conflicts cs teachers config strategy regular lab = Some st →
  pa_marked conflicts [] st.
Proof.
  intros Hrun.
  destruct (generate_all_time_slots config) as [all_slots|] eqn:Hslots;
    [| by unfold _schedule_optimized in Hrun; rewrite Hslots in Hrun].
  eapply (schedule_checked regular lab all_slots (pa_marked conflicts []));
    [| | exact Hslots | | exact Hrun].
  - intros. by apply place_theory_marked.
  - intros st' c b teacher students lr slot1 slot2 Hst _ _ Hd Hh _ _ Hc1 Hc2 _ _ _.
    cbn [foldl]. apply place_lab_marked; [by apply place_lab_marked |].
    cbn [place_lab slot_schedule]. rewrite check_slot_available_other; [done |].
    intros [= _ Heq]. lia.
  - split; [constructor | by intros e ?%elem_of_nil].
Qed.

Lemma entry_ok_of_slot config all_slots (e : ScheduleEntry) :
  generate_all_time_slots config = Some all_slots →
  time_slot e ∈ all_slots →
  entry_room_id e ∈ room_id <$> (if decide (session_type e = LAB) then lab_rooms config
                                 else regular_rooms config) →
  pa_entry_ok config e.
Proof.
  intros Hslots Hslot Hroom.
  destruct (generate_all_time_slots_elem _ _ _ Hslots Hslot) as (? & ? & ?).
  unfold pa_entry_ok, within. split_and!; (done || lia).
Qed.

Lemma schedule_entries_ok cs teachers config strategy st :
  _schedule_optimized o conflicts cs teachers config strategy
    (regular_rooms config) (lab_rooms config) = Some st →
  Forall (pa_entry_ok config) (st_entries st).
Proof.
  intros Hrun.
  destruct (generate_all_time_slots config) as [all_slots|] eqn:Hslots;
    [| by unfold _schedule_optimized in Hrun; rewrite Hslots in Hrun].
  eapply (schedule_checked (regular_rooms config) (lab_rooms config) all_slots
            (λ st, Forall (pa_entry_ok config) (st_entries st)));
    [| | exact Hslots | | exact Hrun].
  - intros st' course b teacher students r slot Hst Hslot _ _ Hr _.
    cbn [place_theory st_entries]. apply Forall_app. split; [done |].
    apply Forall_singleton. eapply entry_ok_of_slot; [done | done |].
    cbn [entry_room_id session_type]. rewrite decide_False by done.
    by apply list_elem_of_fmap_2.
  - intros st' c b teacher students lr slot1 slot2 Hst Hs1 Hs2 _ _ _ _ _ _ Hr _ _.
    cbn [foldl place_lab st_entries]. rewrite !Forall_app. split_and!; [done | |].
    + apply Forall_singleton. eapply entry_ok_of_slot; [done | done |].
      cbn [entry_room_id session_type]. rewrite decide_True by done.
      by apply list_elem_of_fmap_2.
    + apply Forall_singleton. eapply entry_ok_of_slot; [done | done |].
      cbn [entry_room_id session_type]. rewrite decide_True by done.
      by apply list_elem_of_fmap_2.
  - constructor.
Qed.

End pa_checked.

Section pa_repair_checked.
Import PA.
Context (o : SetOrder) (conflicts : gmap CB (gset CB)).

Lemma collect_slots_checked st course batch alt n rooms slots acc :
  ∃ found,
    collect_slots o conflicts st course batch alt n rooms slots acc = acc ++ found ∧
    Forall (λ p, slot_ok st alt rooms p ∧ slot_clear o conflicts st course batch p) found ∧
    ((λ p : TimeSlot * Room * SessionType, p.1.1) <$> found) `sublist_of` slots.
Proof.
  revert acc. induction slots as [|slot rest IH]; simpl; intros acc.
  { exists []. by rewrite app_nil_r. }
  case_bool_decide.
  { exists []. rewrite app_nil_r. split_and!; [done|done|apply sublist_nil_l]. }
  case_bool_decide as Hbusy.
  { destruct (IH acc) as (found & -> & ? & ?). exists found.
    split_and!; [done|done|by apply sublist_cons]. }
  destruct (free_regular_room _ slot rooms) as [room|] eqn:Hroom.
  2:{ destruct (IH acc) as (found & -> & ? & ?). exists found.
      split_and!; [done|done|by apply sublist_cons]. }
  apply free_regular_room_spec in Hroom as [Hin Hfree].
  destruct (check_slot_available _ _ _ _ _ _ _) eqn:Hchk.
  - destruct (IH (acc ++ [(slot, room, THEORY)])) as (found & -> & ? & ?).
    exists ((slot, room, THEORY) :: found). rewrite <- app_assoc.
    split_and!; [done| |by apply sublist_skip].
    by constructor.
  - destruct (IH acc) as (found & -> & ? & ?). exists found.
    split_and!; [done|done|by apply sublist_cons].
Qed.

Section invariant.
Context (rooms : list Room) (all_slots : list TimeSlot) (I : State → Prop).

(** One teacher's slots, all found free and clear in the state before
    the first of them is committed. *)
Context (Hbatch : ∀ st course batch alt students ps,
  I st →
  Forall (λ p, slot_ok st alt rooms p ∧ slot_clear o conflicts st course batch p) ps →
  ((λ p : TimeSlot * Room * SessionType, p.1.1) <$> ps) `sublist_of` all_slots →
  I (foldl (commit_slot course batch alt students) st ps)).

Lemma try_teachers_checked item c candidates st :
  I st → I (try_teachers o conflicts item c all_slots rooms candidates st).
Proof.
  intros Hst. induction candidates as [|alt rest IH]; simpl; [done|].
  case_bool_decide; [done|]. case_bool_decide; [done|].
  destruct (collect_slots_checked st (u_course item) (u_batch item) alt (theory_hours c)
              rooms all_slots []) as (found & -> & Hok & Hsub).
  simpl. apply Hbatch; [done| |].
  - by apply Forall_take.
  - etrans; [|exact Hsub]. apply fmap_sublist, sublist_take.
Qed.

Lemma fix_items_checked cs candidates items st st' :
  I st →
  fix_items o conflicts cs all_slots rooms candidates items st = Some st' →
  I st'.
Proof.
  revert st. induction items as [|item rest IH]; simpl; intros st Hst.
  - by intros [= <-].
  - destruct (dict_get (u_course item) cs) as [c|]; [|done]. simpl.
    apply IH. by apply try_teachers_checked.
Qed.
End invariant.

Lemma commit_batch_marked pre course batch alt students ps st :
  pa_marked conflicts pre st →
  NoDup ((λ p : TimeSlot * Room * SessionType, slot_key p.1.1) <$> ps) →
  Forall (λ p, p.2 = THEORY ∧ slot_clear o conflicts st course batch p) ps →
  pa_marked conflicts pre (foldl (commit_slot course batch alt students) st ps).
Proof.
  revert st. induction ps as [|p ps IH]; simpl; intros st Hst Hnd Hok; [done|].
  apply NoDup_cons in Hnd as [Hnin Hnd].
  apply Forall_cons in Hok as [[Hty Hclear] Hok].
  rewrite commit_slot_theory by done.
  apply IH; [by apply (place_theory_marked o) | done |].
  apply Forall_forall. intros q Hq.
  rewrite Forall_forall in Hok. destruct (Hok q Hq) as (Htyq & Hclearq).
  split; [done |]. unfold slot_clear in *. cbn [place_theory slot_schedule].
  rewrite check_slot_available_other; [done |].
  intros Heq. apply Hnin.
  change (slot_key p.1.1 = slot_key q.1.1) in Heq. rewrite Heq.
  by apply (list_elem_of_fmap_2 (λ p : TimeSlot * Room * SessionType, slot_key p.1.1)).
Qed.

Lemma occupy_slot_schedule l st : slot_schedule (foldl occupy st l) = slot_schedule st.
Proof. revert st. induction l as [|e l IH]; intros st; [done | cbn [foldl]; by rewrite IH]. Qed.

Lemma clash_free_sublist es1 es2 :
  es1 `sublist_of` es2 → clash_free conflicts es2 → clash_free conflicts es1.
Proof.
  unfold clash_free. induction 1 as [|e l1 l2 Hsub IH|e l1 l2 Hsub IH].
  - done.
  - rewrite !StronglySorted_cons. intros [Hall Hs]. split; [| by apply IH].
    rewrite Forall_forall in *. intros x Hx. apply Hall. by eapply elem_of_sublist.
  - rewrite StronglySorted_cons. intros [_ Hs]. by apply IH.
Qed.

Lemma repair_marked es ss unscheduled cs teachers config regular lab st :
  NoDup (days config) →
  clash_free conflicts es →
  (∀ e, e ∈ es → entry_cb e ∈ get_set ss (entry_slot e)) →
  repair o conflicts es ss unscheduled cs teachers config regular lab = Some st →
  clash_free conflicts (filtered_entries es unscheduled ++ st_entries st).
Proof.
  intros Hdays Hfree Hmarks. unfold repair.
  destruct (generate_all_time_slots config) as [all_slots|] eqn:Hslots; [|done]. simpl.
  intros Hfix.
  cut (pa_marked conflicts (filtered_entries es unscheduled) st); [by intros [? _]|].
  eapply (fix_items_checked regular all_slots
            (pa_marked conflicts (filtered_entries es unscheduled))); [| |exact Hfix].
  - intros st0 course batch alt students ps Hst Hok Hsub.
    apply commit_batch_marked; [done | |].
    + eapply sublist_NoDup; [by eapply generate_all_time_slots_NoDup|].
      rewrite (list_fmap_compose (λ p : TimeSlot * Room * SessionType, p.1.1) slot_key).
      by apply fmap_sublist.
    + eapply Forall_impl; [exact Hok |]. intros q [(_ & _ & _ & ?) ?]. done.
  - unfold pa_marked. rewrite occupy_entries, occupy_slot_schedule. simpl.
    rewrite app_nil_r. split.
    + eapply clash_free_sublist; [| done]. apply sublist_filter.
    + intros e [_ He]%list_elem_of_filter. by apply Hmarks.
Qed.

Lemma repair_entries_ok es ss unscheduled cs teachers config lab st :
  repair o conflicts es ss unscheduled cs teachers config (regular_rooms config) lab
    = Some st →
  Forall (pa_entry_ok config) (st_entries st).
Proof.
  unfold repair.
  destruct (generate_all_time_slots config) as [all_slots|] eqn:Hslots; [|done]. simpl.
  intros Hfix.
  eapply (fix_items_checked (regular_rooms config) all_slots
            (λ st, Forall (pa_entry_ok config) (st_entries st))); [| |exact Hfix].
  - intros st0 course batch alt students ps Hst Hok Hsub.
    rewrite commit_batch_entries, Forall_app. split; [done |].
    apply Forall_fmap, Forall_forall. intros q Hq. cbn.
    rewrite Forall_forall in Hok. destruct (Hok q Hq) as [(_ & Hroom & _ & Hty) _].
    eapply entry_ok_of_slot; [done | |].
    + cbn. eapply elem_of_sublist; [| exact Hsub].
      by apply (list_elem_of_fmap_2 (λ p : TimeSlot * Room * SessionType, p.1.1)).
    + cbn [entry_room_id session_type]. rewrite Hty, decide_False by done.
      by apply list_elem_of_fmap_2.
  - by rewrite occupy_entries.
Qed.

End pa_repair_checked.

Lemma Forall_filtered_entries (P : ScheduleEntry → Prop) es unscheduled :
  Forall P es → Forall P (PA.filtered_entries es unscheduled).
Proof.
  rewrite !Forall_forall. intros H e [_ He]%list_elem_of_filter. by apply H.
Qed.

Lemma pa_clash_free o conflicts now cs teachers config strategy p :
  NoDup (days config) →
  PA.generate_proposal o conflicts now cs teachers config strategy = Some p →
  clash_free conflicts (entries p).
Proof.
  intros Hdays (st & Hs & Hp)%generate_proposal_cases.
  apply schedule_marked in Hs as [Hfree Hmarks]. cbn [app] in Hfree, Hmarks.
  destruct Hp as [-> | (st' & Hr & ->)]; [done |].
  eapply repair_marked; [done | done | done | exact Hr].
Qed.

Lemma StronglySorted_lookup {A} (R : relation A) (l : list A) (i j : nat) (x y : A) :
  StronglySorted R l → (i < j)%nat → l !! i = Some x → l !! j = Some y → R x y.
Proof.
  intros Hs. revert i j. induction Hs as [|a l Hs IH Hall]; intros i j Hij Hi Hj; [done |].
  destruct j as [|j]; [lia |]. cbn in Hj. destruct i as [|i].
  - injection Hi as <-. rewrite Forall_forall in Hall. apply Hall.
    by eapply list_elem_of_lookup_2.
  - cbn in Hi. apply (IH i j); [lia | done | done].
Qed.

Section pa_proposals.
Import PA.

(** In a proposal of the optimized planner, under a configuration that
    lists no day twice, no entry shares its slot with an earlier entry of a
    course-batch that the conflict matrix lists for its own course-batch:
    the schedule pass and the repair pass both place a session only where
    [check_slot_available] answers yes, and the repair pass sees the marks
    of the schedule pass. *)
Theorem optimized_proposal_clash_free (o : SetOrder) (conflicts : gmap CB (gset CB))
    (now : Z) (cs : list (string * Course)) (teachers : list (string * Teacher))
    (config : SchedulingConfig) (strategy : Strategy) (p : TimetableProposal) :
  NoDup (days config) →
  generate_proposal o conflicts now cs teachers config strategy = Some p →
  clash_free conflicts (entries p).
Proof. apply pa_clash_free. Qed.

Lemma optimized_proposal_clash_free_witness :
  NoDup (days week) ∧
  match generate_proposal canonical_order x_a_conflict 0 two_courses (mk_teachers ["T"; "U"])
          week default_strategy with
  | Some p => clash_free x_a_conflict (entries p)
  | None => False
  end.
Proof.
  assert (NoDup (days week)) as Hd by (apply (bool_decide_unpack _); vm_compute; exact I).
  split; [exact Hd |].
  destruct (generate_proposal _ _ _ _ _ _ _) as [p|] eqn:E.
  - exact (optimized_proposal_clash_free _ _ _ _ _ _ _ _ Hd E).
  - returns_a_result E.
Defined.

(** Every entry of a proposal of the optimized planner is on a day and an
    hour of the configuration, on an hour from 10 to 17, a lab entry in a
    lab room and a theory entry in a regular room of the planner. *)
Theorem optimized_entries_well_formed (o : SetOrder) (conflicts : gmap CB (gset CB))
    (now : Z) (cs : list (string * Course)) (teachers : list (string * Teacher))
    (config : SchedulingConfig) (strategy : Strategy) (p : TimetableProposal) :
  generate_proposal o conflicts now cs teachers config strategy = Some p →
  Forall (pa_entry_ok config) (entries p).
Proof.
  intros (st & Hs & Hp)%generate_proposal_cases.
  apply schedule_entries_ok in Hs.
  destruct Hp as [-> | (st' & Hr & ->)]; [done |].
  apply Forall_app. split.
  - by apply Forall_filtered_entries.
  - by eapply repair_entries_ok.
Qed.

Lemma optimized_entries_well_formed_witness :
  match generate_proposal canonical_order ∅ 0 lab_course (mk_teachers ["T1"; "T2"])
          short_monday default_strategy with
  | Some p => Forall (pa_entry_ok short_monday) (entries p)
  | None => False
  end.
Proof.
  destruct (generate_proposal _ _ _ _ _ _ _) as [p|] eqn:E.
  - exact (optimized_entries_well_formed _ _ _ _ _ _ _ _ E).
  - returns_a_result E.
Defined.

(** The verifier finds no teacher conflict, no room conflict and no entry
    out of the time bounds in a proposal of the optimized planner, under a
    configuration that lists no day twice. *)
Theorem optimized_proposal_passes_checks (o : SetOrder) (conflicts : gmap CB (gset CB))
    (now : Z) (cs : list (string * Course)) (teachers : list (string * Teacher))
    (config : SchedulingConfig) (strategy : Strategy) (p : TimetableProposal) :
  NoDup (days config) →
  generate_proposal o conflicts now cs teachers config strategy = Some p →
  Verifier._check_teacher_conflicts p = [] ∧ Verifier._check_room_conflicts p = [] ∧
  Verifier._check_time_bounds p config = [].
Proof.
  intros Hdays Hgen.
  pose proof (pa_no_double_booking _ _ _ _ _ _ _ _ Hdays Hgen) as Hndb.
  split_and!.
  - apply check_teacher_empty. intros [d h] t. apply Hndb.
  - apply check_room_empty. intros [d h] r. apply Hndb.
  - apply check_time_bounds_empty.
    apply generate_proposal_cases in Hgen as (st & Hs & Hp).
    apply schedule_entries_ok in Hs.
    assert (Forall (pa_entry_ok config) (entries p)) as Hok.
    { destruct Hp as [-> | (st' & Hr & ->)]; [done |].
      apply Forall_app. split; [by apply Forall_filtered_entries | by eapply repair_entries_ok]. }
    eapply Forall_impl; [exact Hok |]. by intros e [? _].
Qed.

Lemma optimized_proposal_passes_checks_witness :
  NoDup (days week) ∧
  match generate_proposal canonical_order x_a_conflict 0 two_courses (mk_teachers ["T"; "U"])
          week default_strategy with
  | Some p =>
      Verifier._check_teacher_conflicts p = [] ∧ Verifier._check_room_conflicts p = [] ∧
      Verifier._check_time_bounds p week = []
  | None => False
  end.
Proof.
  assert (NoDup (days week)) as Hd by (apply (bool_decide_unpack _); vm_compute; exact I).
  split; [exact Hd |].
  destruct (generate_proposal _ _ _ _ _ _ _) as [p|] eqn:E.
  - exact (optimized_proposal_passes_checks _ _ _ _ _ _ _ _ Hd E).
  - returns_a_result E.
Defined.

End pa_proposals.

(** ** The student conflict matrix *)

Section scm_facts.
Import SCM.

Lemma elem_of_add_conflict (m : gmap CB (gset CB)) (cb1 cb2 a b : CB) :
  b ∈ get_set (add_conflict m cb1 cb2) a ↔
  b ∈ get_set m a ∨ (a = cb1 ∧ b = cb2) ∨ (a = cb2 ∧ b = cb1).
Proof.
  unfold add_conflict. rewrite !elem_of_get_set_add. intuition congruence.
Qed.

Lemma add_conflicts_spec (cb1 : CB) (rest : list CB) (m : gmap CB (gset CB)) (a b : CB) :
  b ∈ get_set (foldl (λ m cb2, add_conflict m cb1 cb2) m rest) a ↔
  b ∈ get_set m a ∨ (a = cb1 ∧ b ∈ rest) ∨ (b = cb1 ∧ a ∈ rest).
Proof.
  revert m. induction rest as [|x rest IH]; intros m; cbn [foldl].
  - rewrite !elem_of_nil. tauto.
  - rewrite IH, elem_of_add_conflict, !elem_of_cons. intuition congruence.
Qed.

Lemma listed_together_cons (a b cb1 : CB) (rest : list CB) :
  listed_together a b (cb1 :: rest) ↔
  (a = cb1 ∧ b ∈ rest) ∨ (b = cb1 ∧ a ∈ rest) ∨ listed_together a b rest.
Proof.
  unfold listed_together. split.
  - intros (i & j & Hij & Hi & Hj). destruct i as [|i], j as [|j]; cbn in Hi, Hj.
    + done.
    + left. injection Hi as <-. split; [done |]. by eapply list_elem_of_lookup_2.
    + right. left. injection Hj as <-. split; [done |]. by eapply list_elem_of_lookup_2.
    + right. right. exists i, j. split; [congruence | done].
  - intros [[-> Hb] | [[-> Ha] | (i & j & Hij & Hi & Hj)]].
    + apply list_elem_of_lookup_1 in Hb as [j Hj]. by exists 0%nat, (S j).
    + apply list_elem_of_lookup_1 in Ha as [i Hi]. by exists (S i), 0%nat.
    + exists (S i), (S j). split; [congruence | done].
Qed.

Lemma add_row_spec (cbs : list CB) (m : gmap CB (gset CB)) (a b : CB) :
  b ∈ get_set (add_row cbs m) a ↔ b ∈ get_set m a ∨ listed_together a b cbs.
Proof.
  revert m. induction cbs as [|cb1 rest IH]; intros m; cbn [add_row].
  - split; [by left |]. intros [? | (i & j & _ & Hi & _)]; done.
  - rewrite IH, add_conflicts_spec, listed_together_cons. tauto.
Qed.

Lemma add_rows_spec (rows : list (list CB)) (m : gmap CB (gset CB)) (a b : CB) :
  b ∈ get_set (foldl (λ m cbs, add_row cbs m) m rows) a ↔
  b ∈ get_set m a ∨ ∃ row, row ∈ rows ∧ listed_together a b row.
Proof.
  revert m. induction rows as [|row rows IH]; intros m; cbn [foldl].
  - split; [by left |]. intros [? | (row & ?%elem_of_nil & _)]; done.
  - rewrite IH, add_row_spec. split.
    + intros [[? | ?] | (row' & ? & ?)]; [by left | right; exists row | right; exists row'];
        (split; [| done]); [left | by right].
    + intros [? | (row' & [->|?]%elem_of_cons & ?)];
        [by left; left | by left; right | right; by exists row'].
Qed.

Lemma load_conflicts_spec (file : option (list (list CB))) (a b : CB) :
  b ∈ get_set (_load_conflicts file) a ↔
  ∃ rows row, file = Some rows ∧ row ∈ rows ∧ listed_together a b row.
Proof.
  destruct file as [rows|]; cbn [_load_conflicts].
  - rewrite add_rows_spec. split.
    + intros [[]%elem_of_empty | (row & ? & ?)]. by exists rows, row.
    + intros (? & row & [= <-] & ? & ?). right. by exists row.
  - split; [intros []%elem_of_empty | by intros (? & ? & [=] & _)].
Qed.

Lemma listed_together_sym (a b : CB) (row : list CB) :
  listed_together a b row → listed_together b a row.
Proof. intros (i & j & ? & ? & ?). exists j, i. by split_and!. Qed.

Lemma load_conflicts_sym (file : option (list (list CB))) (a b : CB) :
  b ∈ get_set (_load_conflicts file) a → a ∈ get_set (_load_conflicts file) b.
Proof.
  rewrite !load_conflicts_spec. intros (rows & row & ? & ? & ?%listed_together_sym).
  by exists rows, row.
Qed.

Lemma overlap_add_pairs_fst (cb1 : CB) (rest : list CB) st :
  (foldl (λ st cb2, Overlap.add_pair st cb1 cb2) st rest).1
  = foldl (λ m cb2, add_conflict m cb1 cb2) st.1 rest.
Proof. revert st. induction rest as [|x rest IH]; intros st; [done | cbn; by rewrite IH]. Qed.

Lemma overlap_add_row_fst (cbs : list CB) st :
  (Overlap.add_row cbs st).1 = add_row cbs st.1.
Proof.
  revert st. induction cbs as [|cb1 rest IH]; intros st; [done |].
  cbn [Overlap.add_row add_row]. by rewrite IH, overlap_add_pairs_fst.
Qed.

Lemma overlap_add_rows_fst (rows : list (list CB)) st :
  (foldl (λ st cbs, Overlap.add_row cbs st) st rows).1
  = foldl (λ m cbs, add_row cbs m) st.1 rows.
Proof.
  revert st. induction rows as [|row rows IH]; intros st; [done |].
  cbn [foldl]. by rewrite IH, overlap_add_row_fst.
Qed.

End scm_facts.

Lemma sum_list_at_least {A} (f : A → Z) (l : list A) :
  (∀ x, x ∈ l → 1 ≤ f x) → Z.of_nat (length l) ≤ sum_list_with_Z f l.
Proof.
  unfold sum_list_with_Z. intros Hf.
  cut (∀ a, a + Z.of_nat (length l) ≤ foldl (λ acc x, acc + f x) a l).
  { intros H. specialize (H 0). lia. }
  induction l as [|x l IH]; intros a; cbn [foldl length]; [lia |].
  etransitivity; [| apply IH; intros y Hy; apply Hf; by right].
  specialize (Hf x ltac:(left)). lia.
Qed.

Section scm_loaders.
Import SCM.

(** The conflict matrix of the optimized planner and the overlap index of
    the conflict-aware planner, loaded from the same allocation records,
    hold the same set of conflicting course-batches for every
    course-batch. *)
Theorem loaders_build_the_same_adjacency (o : SetOrder) (rows : list (list CB)) :
  _load_conflicts (Some rows)
  = Overlap.student_conflicts (Overlap._load_student_conflicts o rows).
Proof.
  unfold Overlap._load_student_conflicts. cbn [Overlap.student_conflicts _load_conflicts].
  by rewrite overlap_add_rows_fst.
Qed.

(** The loaded matrix lists [b] for [a] exactly when some student record
    holds both at two different places; the relation is symmetric, and a
    missing allocation file leaves the matrix empty. *)
Theorem load_conflicts_lists_shared_records (file : option (list (list CB))) (a b : CB) :
  (b ∈ get_set (_load_conflicts file) a ↔
   ∃ rows row, file = Some rows ∧ row ∈ rows ∧ listed_together a b row) ∧
  (b ∈ get_set (_load_conflicts file) a → a ∈ get_set (_load_conflicts file) b) ∧
  get_set (_load_conflicts None) a = ∅.
Proof. split_and!; [apply load_conflicts_spec | apply load_conflicts_sym | done]. Qed.

(** The weighted conflict score that the conflict-aware planner sorts by
    is at least the number of conflicting course-batches that
    [get_conflicts_count] reports on the matrix of the same records. *)
Theorem conflict_count_at_least_conflicts_count (o : SetOrder) (rows : list (list CB))
    (course batch : string) :
  get_conflicts_count (_load_conflicts (Some rows)) course batch
  ≤ get_int (Overlap.conflict_count (Overlap._load_student_conflicts o rows)) (course, batch).
Proof.
  unfold get_conflicts_count. cbn [_load_conflicts].
  change (∅ : gmap CB (gset CB)) with (((∅, ∅) : gmap CB (gset CB) * gmap (CB * CB) Z).1).
  rewrite <- overlap_add_rows_fst.
  pose proof (load_ok o rows) as [_ Hpos]. cbn [fst snd] in Hpos.
  unfold Overlap._load_student_conflicts in *.
  cbn [Overlap.student_conflicts Overlap.pair_student_count Overlap.conflict_count] in *.
  set (st := foldl _ _ rows) in *.
  unfold get_int at 1. rewrite map_lookup_imap. unfold get_set at 1.
  destruct (st.1 !! (course, batch)) as [s|] eqn:E; cbn; [| by rewrite size_empty].
  unfold Overlap.weighted_count.
  assert (size s = length (iter o s)) as -> by (by rewrite (iter_perm o)).
  apply sum_list_at_least. intros x Hx. rewrite (iter_perm o) in Hx.
  apply elem_of_elements in Hx.
  assert (x ∈ get_set st.1 (course, batch)) as Hin by (unfold get_set; by rewrite E).
  apply Hpos in Hin. lia.
Qed.

End scm_loaders.

Section availability.
Import PA SCM.

(** [check_slot_available] does not depend on the order in which the set
    of the slot is visited, answers yes for every slot after
    [reset_schedule], and after [mark_scheduled] answers as before unless
    the mark is in the slot asked about and its course-batch is among the
    conflicts of the one asked about. *)
Theorem check_slot_available_laws (o o' : SetOrder) (conflicts : gmap CB (gset CB))
    (ss : gmap Slot (gset CB)) (course batch : string) (d : Day) (h : Z)
    (course' batch' : string) (d' : Day) (h' : Z) :
  check_slot_available o conflicts ss course batch d h
  = check_slot_available o' conflicts ss course batch d h ∧
  check_slot_available o conflicts (reset_schedule ss) course batch d h = true ∧
  check_slot_available o conflicts (mark_scheduled ss course' batch' d' h') course batch d h
  = check_slot_available o conflicts ss course batch d h &&
    negb (bool_decide ((d', h') = (d, h) ∧
                       (course', batch') ∈ get_set conflicts (course, batch))).
Proof.
  split_and!.
  - apply eq_true_iff_eq. by rewrite !check_slot_available_true.
  - apply check_slot_available_true. intros x Hx. by apply elem_of_empty in Hx.
  - apply eq_true_iff_eq.
    rewrite andb_true_iff, negb_true_iff, bool_decide_eq_false, !check_slot_available_true.
    unfold mark_scheduled. setoid_rewrite elem_of_get_set_add. split.
    + intros H. split; [intros x Hx; apply H; by left |].
      intros [Heq Hin]. by apply (H (course', batch')); [right |].
    + intros [H Hn] x [Hx | [Heq ->]]; [by apply H |]. intros Hin. by apply Hn.
Qed.

(** [unmark_scheduled] after [mark_scheduled] of the same course-batch in
    the same slot leaves every other slot as it was and the slot itself
    without the course-batch, whether or not it had been marked there
    before. *)
Theorem unmark_after_mark (ss : gmap Slot (gset CB)) (course batch : string)
    (d : Day) (h : Z) (s : Slot) :
  get_set (unmark_scheduled (mark_scheduled ss course batch d h) course batch d h) s
  = if decide (s = (d, h)) then get_set ss s ∖ {[(course, batch)]} else get_set ss s.
Proof.
  unfold unmark_scheduled, mark_scheduled, set_add.
  destruct (decide (s = (d, h))) as [->|Hne].
  - unfold get_set at 1. rewrite lookup_insert_eq. cbn.
    unfold get_set at 1. rewrite lookup_insert_eq. cbn.
    apply set_eq. intros x. rewrite !elem_of_difference, elem_of_union. tauto.
  - unfold get_set. by rewrite !lookup_insert_ne by done.
Qed.

(** With the matrix loaded from the allocation records, no student record
    holds the course-batches of two entries that a proposal of the
    optimized planner puts in the same slot (under a configuration that
    lists no day twice). *)
Theorem optimized_proposal_shares_no_student (o : SetOrder)
    (file : option (list (list CB))) (now : Z) (cs : list (string * Course))
    (teachers : list (string * Teacher)) (config : SchedulingConfig) (strategy : Strategy)
    (p : TimetableProposal) :
  NoDup (days config) →
  generate_proposal o (_load_conflicts file) now cs teachers config strategy = Some p →
  ∀ (i j : nat) (e1 e2 : ScheduleEntry),
    i ≠ j → entries p !! i = Some e1 → entries p !! j = Some e2 →
    entry_slot e1 = entry_slot e2 →
    ∀ rows row, file = Some rows → row ∈ rows →
                ¬ listed_together (entry_cb e1) (entry_cb e2) row.
Proof.
  intros Hdays Hgen i j e1 e2 Hij Hi Hj Hslot rows row Hfile Hrow Hl.
  pose proof (pa_clash_free _ _ _ _ _ _ _ _ Hdays Hgen) as Hfree.
  assert (entry_cb e2 ∈ get_set (_load_conflicts file) (entry_cb e1)) as H12
    by (apply load_conflicts_spec; by exists rows, row).
  pose proof (load_conflicts_sym _ _ _ H12) as H21.
  destruct (decide (i < j)%nat).
  - by apply (StronglySorted_lookup _ _ i j e1 e2 Hfree).
  - apply (StronglySorted_lookup _ _ j i e2 e1 Hfree); [lia | done | done | done | done].
Qed.

Lemma optimized_proposal_shares_no_student_witness :
  NoDup (days week) ∧
  match generate_proposal canonical_order (_load_conflicts (Some x_a_students)) 0 two_courses
          (mk_teachers ["T"; "U"]) week default_strategy with
  | Some p =>
      ∀ (i j : nat) (e1 e2 : ScheduleEntry),
        i ≠ j → entries p !! i = Some e1 → entries p !! j = Some e2 →
        entry_slot e1 = entry_slot e2 →
        ∀ rows row, Some x_a_students = Some rows → row ∈ rows →
                    ¬ listed_together (entry_cb e1) (entry_cb e2) row
  | None => False
  end.
Proof.
  assert (NoDup (days week)) as Hd by (apply (bool_decide_unpack _); vm_compute; exact I).
  split; [exact Hd |].
  destruct (generate_proposal _ _ _ _ _ _ _) as [p|] eqn:E.
  - exact (optimized_proposal_shares_no_student _ _ _ _ _ _ _ _ Hd E).
  - returns_a_result E.
Defined.

End availability.

(** ** The refinement agent: the conflict analysis *)

Section analysis.
Import Refine Refinement.

Lemma pairs_total_nonneg psc (cbs : list CB) :
  (∀ k, 0 ≤ get_int psc k) → 0 ≤ pairs_total psc cbs.
Proof.
  intros Hpos. induction cbs as [|cb1 rest IH]; cbn [pairs_total]; [done |].
  assert (∀ a, 0 ≤ a → 0 ≤ foldl (λ acc cb2, acc + get_int psc (pair_key cb1 cb2)) a rest)
    as Hf.
  { clear IH. induction rest as [|x rest IH]; intros a Ha; cbn [foldl]; [done |].
    apply IH. specialize (Hpos (pair_key cb1 x)). lia. }
  specialize (Hf 0 ltac:(done)). lia.
Qed.

Lemma sum_list_with_Z_foldr {A} (f : A → Z) (l : list A) :
  sum_list_with_Z f l = foldr (λ x r, f x + r) 0 l.
Proof.
  unfold sum_list_with_Z.
  cut (∀ a, foldl (λ acc x, acc + f x) a l = a + foldr (λ x r, f x + r) 0 l).
  { intros H. by rewrite H. }
  induction l as [|x l IH]; intros a; cbn; [lia | rewrite IH; lia].
Qed.

Lemma sum_list_with_Z_perm {A} (f : A → Z) (l1 l2 : list A) :
  l1 ≡ₚ l2 → sum_list_with_Z f l1 = sum_list_with_Z f l2.
Proof. rewrite !sum_list_with_Z_foldr. induction 1; cbn; lia. Qed.

(** The dictionary of [calculate_conflicts] holds the groups of
    [analyze_conflicts]. *)
Lemma group_by_slot_as_list (es : list ScheduleEntry) :
  group_by_slot es
  = list_to_map ((λ kv : Slot * list ScheduleEntry, (kv.1, entry_cb <$> kv.2))
                   <$> Verifier.group_by entry_slot es).
Proof.
  destruct (group_by_keys entry_slot es) as [Hnd _].
  assert (NoDup (((λ kv : Slot * list ScheduleEntry, (kv.1, entry_cb <$> kv.2))
                    <$> Verifier.group_by entry_slot es).*1)) as Hnd'.
  { by rewrite <- list_fmap_compose. }
  apply map_eq. intros s. rewrite group_by_slot_lookup. unfold slot_cbs.
  case_decide as Hnil.
  - symmetry. apply not_elem_of_list_to_map_1. rewrite <- list_fmap_compose.
    intros ([s' vs] & Heq & [-> Hne]%group_by_spec)%list_elem_of_fmap. cbn in Heq. subst s'.
    apply fmap_nil_inv in Hnil. done.
  - symmetry. apply elem_of_list_to_map_1; [done |].
    apply list_elem_of_fmap.
    exists (s, filter (λ e, entry_slot e = s) es). split; [done |].
    apply group_by_spec. split; [done |]. intros Heq. by rewrite Heq in Hnil.
Qed.

Lemma calculate_conflicts_as_sum (p : TimetableProposal) psc :
  calculate_conflicts p psc
  = sum_list_with_Z (λ kv : Slot * list ScheduleEntry, pairs_total psc (entry_cb <$> kv.2))
      (Verifier.group_by entry_slot (entries p)).
Proof.
  unfold calculate_conflicts. rewrite group_by_slot_as_list, map_fold_foldr.
  destruct (group_by_keys entry_slot (entries p)) as [Hnd _].
  set (l := (λ kv : Slot * list ScheduleEntry, (kv.1, entry_cb <$> kv.2))
              <$> Verifier.group_by entry_slot (entries p)).
  assert (NoDup l.*1) as Hnd' by (subst l; by rewrite <- list_fmap_compose).
  pose proof (map_to_list_to_map l Hnd') as Hperm.
  rewrite sum_list_with_Z_foldr.
  transitivity (foldr (λ (kv : Slot * list CB) r, pairs_total psc kv.2 + r) 0 l).
  - rewrite <- !sum_list_with_Z_foldr.
    rewrite <- (sum_list_with_Z_perm _ _ _ Hperm), sum_list_with_Z_foldr.
    generalize (map_to_list (list_to_map l : gmap Slot (list CB))).
    intros l'. induction l' as [|[k v] l' IH]; cbn; [done | rewrite IH; lia].
  - subst l. generalize (Verifier.group_by entry_slot (entries p)).
    intros g. induction g as [|kv g IH]; cbn; [done | by rewrite IH].
Qed.

(** The conflicts that [analyze_conflicts] reports per slot add up to the
    total of [calculate_conflicts], when no pair count is negative; every
    reported slot has a positive count. *)
Theorem analyze_conflicts_total (p : TimetableProposal) (psc : gmap (CB * CB) Z) :
  (∀ k, 0 ≤ get_int psc k) →
  sum_list_with_Z sc_conflicts (analyze_conflicts p psc) = calculate_conflicts p psc ∧
  Forall (λ sc, 0 < sc_conflicts sc) (analyze_conflicts p psc).
Proof.
  intros Hpos. unfold analyze_conflicts. split.
  - rewrite (sum_list_with_Z_perm _ _ _ (sorted_by_perm _ _)), calculate_conflicts_as_sum.
    rewrite !sum_list_with_Z_foldr.
    induction (Verifier.group_by entry_slot (entries p)) as [|kv g IH]; [done |].
    cbn [mbind list_bind foldr]. rewrite foldr_app, <- IH.
    pose proof (pairs_total_nonneg psc (entry_cb <$> kv.2) Hpos).
    case_bool_decide; cbn; [done | lia].
  - apply Forall_forall. intros sc Hsc%elem_of_sorted_by.
    apply list_elem_of_bind in Hsc as (kv & Hsc & _).
    case_bool_decide; [| by apply elem_of_nil in Hsc].
    apply list_elem_of_singleton in Hsc as ->. cbn. lia.
Qed.

Lemma analyze_conflicts_total_witness :
  (∀ k, 0 ≤ get_int (Overlap.pair_student_count
                       (Overlap._load_student_conflicts canonical_order two_students)) k) ∧
  sum_list_with_Z sc_conflicts
    (analyze_conflicts shared_slot
       (Overlap.pair_student_count
          (Overlap._load_student_conflicts canonical_order two_students)))
  = calculate_conflicts shared_slot
      (Overlap.pair_student_count
         (Overlap._load_student_conflicts canonical_order two_students)).
Proof.
  pose proof (load_ok canonical_order two_students) as [Hpos _]. cbn [snd] in Hpos.
  split; [exact Hpos |].
  exact (proj1 (analyze_conflicts_total shared_slot _ Hpos)).
Defined.

End analysis.

(** ** The refinement agent: applying the moves *)

Lemma NoDup_insert_fresh {A} (l : list A) (i : nat) (x : A) :
  NoDup l → x ∉ l → NoDup (<[i:=x]> l).
Proof.
  intros Hnd Hx. destruct (decide (i < length l)%nat) as [Hi|Hi].
  - rewrite insert_take_drop by done. rewrite <- (take_drop i l) in Hnd, Hx.
    apply NoDup_app in Hnd as (Ht & Hdisj & Hd).
    apply not_elem_of_app in Hx as [Hx1 Hx2].
    assert (drop (S i) l `sublist_of` drop i l) as Hsub.
    { replace (S i) with (i + 1)%nat by lia.
      rewrite <- (drop_drop l 1 i). apply sublist_drop. }
    apply NoDup_app. split_and!; [done | |].
    + intros y Hy [->|Hy']%elem_of_cons; [done |].
      apply (Hdisj y Hy). by eapply elem_of_sublist.
    + apply NoDup_cons. split.
      * intros Hin. apply Hx2. by eapply elem_of_sublist.
      * by eapply sublist_NoDup.
  - by rewrite list_insert_ge by lia.
Qed.

Lemma no_double_booking_NDB (es : list ScheduleEntry) : no_double_booking es → NDB es.
Proof.
  intros Hndb.
  assert (∀ {K} (f : ScheduleEntry → K) (l : list ScheduleEntry),
            (∀ e1 l1 l2 l3 e2, l = l1 ++ e1 :: l2 ++ e2 :: l3 → f e1 ≠ f e2) →
            NoDup (f <$> l)) as Hgen.
  { intros K f l. induction l as [|a l IH]; intros Hl; [constructor |].
    rewrite fmap_cons. apply NoDup_cons. split.
    - intros (e & Heq & (l2 & l3 & ->)%list_elem_of_split)%list_elem_of_fmap.
      by apply (Hl a [] l2 l3 e).
    - apply IH. intros e1 l1 l2 l3 e2 ->. by apply (Hl e1 (a :: l1) l2 l3 e2). }
  assert (∀ (P : ScheduleEntry → Prop) `{∀ e, Decision (P e)} l1 e1 l2 e2 l3,
            P e1 → P e2 → (2 ≤ length (filter P (l1 ++ e1 :: l2 ++ e2 :: l3)))%nat) as Hcount.
  { intros P ? l1 e1 l2 e2 l3 H1 H2.
    rewrite filter_app, filter_cons_True, filter_app, filter_cons_True by done.
    rewrite length_app. cbn. rewrite length_app. cbn. lia. }
  split; apply Hgen; intros e1 l1 l2 l3 e2 -> [Hs Hx]%pair_equal_spec.
  - destruct (entry_slot e1) as [d h] eqn:E1.
    destruct (Hndb d h) as [Ht _].
    specialize (Ht (teacher_name e1)). unfold teacher_bookings in Ht.
    pose proof (Hcount (λ e, entry_slot e = (d, h) ∧ teacher_name e = teacher_name e1)
                  _ l1 e1 l2 e2 l3 ltac:(done) ltac:(done)). lia.
  - destruct (entry_slot e1) as [d h] eqn:E1.
    destruct (Hndb d h) as [_ Hr].
    specialize (Hr (entry_room_id e1)). unfold room_bookings in Hr.
    pose proof (Hcount (λ e, entry_slot e = (d, h) ∧ entry_room_id e = entry_room_id e1)
                  _ l1 e1 l2 e2 l3 ltac:(done) ltac:(done)). lia.
Qed.

Section refinement.
Import Refinement.

Lemma elem_of_get_set_discard (m : gmap Slot (gset string)) (k k' : Slot) (v x : string) :
  x ∈ get_set (set_discard m k v) k' ↔ x ∈ get_set m k' ∧ ¬ (k = k' ∧ x = v).
Proof.
  unfold set_discard, get_set. destruct (decide (k = k')) as [->|Hne].
  - rewrite lookup_insert_eq. cbn. rewrite elem_of_difference, elem_of_singleton. tauto.
  - rewrite lookup_insert_ne by done. tauto.
Qed.

Lemma init_state_spec (es : list ScheduleEntry) :
  st_entries (init_state es) = es ∧ applied (init_state es) = 0 ∧
  recorded (λ s t, t ∈ get_set (teacher_schedule (init_state es)) s)
           (λ s r, r ∈ get_set (room_schedule (init_state es)) s) es.
Proof.
  unfold init_state.
  assert (∀ l st,
    let st' := foldl (λ st e, mkState (st_entries st)
                   (set_add (teacher_schedule st) (entry_slot e) (teacher_name e))
                   (set_add (room_schedule st) (entry_slot e) (entry_room_id e))
                   (applied st)) st l in
    st_entries st' = st_entries st ∧ applied st' = applied st ∧
    (∀ s t, t ∈ get_set (teacher_schedule st) s → t ∈ get_set (teacher_schedule st') s) ∧
    (∀ s r, r ∈ get_set (room_schedule st) s → r ∈ get_set (room_schedule st') s) ∧
    recorded (λ s t, t ∈ get_set (teacher_schedule st') s)
             (λ s r, r ∈ get_set (room_schedule st') s) l) as Hgen.
  { induction l as [|e l IH]; intros st; cbn zeta; cbn [foldl].
    - split_and!; try done. by intros e ?%elem_of_nil.
    - destruct (IH (mkState (st_entries st)
                   (set_add (teacher_schedule st) (entry_slot e) (teacher_name e))
                   (set_add (room_schedule st) (entry_slot e) (entry_room_id e))
                   (applied st))) as (He & Ha & Ht & Hr & Hrec).
      cbn [st_entries applied teacher_schedule room_schedule] in *.
      split_and!; [done | done | | |].
      + intros s t Hin. apply Ht, elem_of_get_set_add. by left.
      + intros s r Hin. apply Hr, elem_of_get_set_add. by left.
      + intros e' [->|He']%elem_of_cons; [| by apply Hrec]. split.
        * apply Ht, elem_of_get_set_add. by right.
        * apply Hr, elem_of_get_set_add. by right. }
  specialize (Hgen es (mkState es ∅ ∅ 0)). cbn zeta in Hgen.
  destruct Hgen as (He & Ha & _ & _ & Hrec). by split_and!.
Qed.

Lemma room_to_use_spec st new_slot entry room :
  room_to_use st new_slot entry = Some room →
  (room ∉ get_set (room_schedule st) new_slot) ∧
  String.prefix "LAB" room = String.prefix "LAB" (entry_room_id entry).
Proof.
  unfold room_to_use. case_bool_decide as Hbusy; [| by intros [= <-]].
  intros [Hin Hfree%bool_decide_eq_true]%find_some. split; [done |].
  apply list_elem_of_In in Hin.
  destruct (String.prefix "LAB" (entry_room_id entry));
    apply list_elem_of_fmap in Hin as (r & -> & _); [apply prefix_empty | done].
Qed.

(** What [move_entry] does: nothing, or the relocation of one entry of
    the list whose teacher is free in the new slot, into a room that is
    free there. *)
Lemma move_entry_cases mv rest i st st' :
  rest = drop i (st_entries st) →
  move_entry mv rest i st = Some st' →
  st' = st ∨
  ∃ j entry room,
    st_entries st !! j = Some entry ∧
    (teacher_name entry ∉ get_set (teacher_schedule st) (to_day mv, to_hour mv)) ∧
    (room ∉ get_set (room_schedule st) (to_day mv, to_hour mv)) ∧
    String.prefix "LAB" room = String.prefix "LAB" (entry_room_id entry) ∧
    relocate mv j entry room st = Some st'.
Proof.
  revert i. induction rest as [|entry rest' IH]; intros i Hrest; cbn [move_entry].
  { intros [= <-]. by left. }
  assert (st_entries st !! i = Some entry) as Hi.
  { rewrite <- (Nat.add_0_r i), <- lookup_drop, <- Hrest. done. }
  assert (rest' = drop (S i) (st_entries st)) as Hrest'.
  { replace (S i) with (i + 1)%nat by lia. rewrite <- drop_drop, <- Hrest. done. }
  case_bool_decide; [| by apply IH].
  case_bool_decide as Hbusy; [by apply IH |].
  destruct (room_to_use st _ entry) as [room|] eqn:Hroom; [| by apply IH].
  apply room_to_use_spec in Hroom as [Hfree Hpre].
  intros Hrel. right. by exists i, entry, room.
Qed.

Lemma relocate_booked mv i entry room st st' :
  refine_booked st →
  st_entries st !! i = Some entry →
  teacher_name entry ∉ get_set (teacher_schedule st) (to_day mv, to_hour mv) →
  room ∉ get_set (room_schedule st) (to_day mv, to_hour mv) →
  relocate mv i entry room st = Some st' →
  refine_booked st'.
Proof.
  intros [[Hnt Hnr] Hrec] Hi Ht Hr. unfold relocate, TimeSlot_new.
  case_bool_decide; [| done]. cbn. intros [= <-].
  set (new := mkEntry _ _ _ _ _ _ _).
  assert (entry_slot new = (to_day mv, to_hour mv)) as Hslot by done.
  unfold refine_booked. cbn [st_entries teacher_schedule room_schedule]. split; [split |].
  - rewrite list_fmap_insert. apply NoDup_insert_fresh; [done |].
    intros (e & [Hs Hx]%pair_equal_spec & He)%list_elem_of_fmap. apply Ht.
    destruct (Hrec e He) as [Hte _]. rewrite Hslot in Hs. rewrite Hs. cbn in Hx.
    by rewrite Hx.
  - rewrite list_fmap_insert. apply NoDup_insert_fresh; [done |].
    intros (e & [Hs Hx]%pair_equal_spec & He)%list_elem_of_fmap. apply Hr.
    destruct (Hrec e He) as [_ Hre]. rewrite Hslot in Hs. rewrite Hs. cbn in Hx.
    by rewrite Hx.
  - intros e (j & Hj)%list_elem_of_lookup_1.
    apply list_lookup_insert_Some in Hj as [(-> & <- & _) | [Hne Hj]].
    + rewrite Hslot. cbn [teacher_name entry_room_id new].
      split; apply elem_of_get_set_add; by right.
    + assert (e ∈ st_entries st) as He by by eapply list_elem_of_lookup_2.
      destruct (Hrec e He) as [Hte Hre].
      split; apply elem_of_get_set_add; left; apply elem_of_get_set_discard;
        (split; [done |]); intros [Hs Hx]; apply Hne.
      * apply (NoDup_lookup _ i j (entry_slot e, teacher_name e) Hnt);
          rewrite list_lookup_fmap; [rewrite Hi | rewrite Hj]; cbn; [| done].
        change (entry_slot entry = entry_slot e) in Hs. by rewrite Hs, Hx.
      * apply (NoDup_lookup _ i j (entry_slot e, entry_room_id e) Hnr);
          rewrite list_lookup_fmap; [rewrite Hi | rewrite Hj]; cbn; [| done].
        change (entry_slot entry = entry_slot e) in Hs. by rewrite Hs, Hx.
Qed.

Lemma relocate_sessions mv i entry room st st' :
  st_entries st !! i = Some entry →
  String.prefix "LAB" room = String.prefix "LAB" (entry_room_id entry) →
  relocate mv i entry room st = Some st' →
  session_of <$> st_entries st' = session_of <$> st_entries st ∧
  applied st' = applied st + 1.
Proof.
  intros Hi Hpre. unfold relocate.
  destruct (TimeSlot_new _ _) as [slot|]; [| done]. cbn. intros [= <-].
  cbn [st_entries applied]. split; [| done].
  rewrite list_fmap_insert. apply list_insert_id.
  rewrite list_lookup_fmap, Hi. cbn. unfold session_of. cbn. by rewrite Hpre.
Qed.

(** The loop over the moves keeps what every step of it keeps. *)
Lemma moves_invariant (I : State → Prop) (moves : list Move) (st0 st : State) :
  (∀ mv st st', I st → move_entry mv (st_entries st) 0 st = Some st' → I st') →
  I st0 →
  foldl (λ (acc : option State) mv, st ← acc; move_entry mv (st_entries st) 0 st)
        (Some st0) moves = Some st →
  I st.
Proof.
  intros Hstep. revert st0. induction moves as [|mv moves IH]; intros st0 H0; cbn [foldl].
  - by intros [= <-].
  - cbn [mbind option_bind]. destruct (move_entry mv (st_entries st0) 0 st0) as [st1|] eqn:E.
    + apply IH. by eapply Hstep.
    + intros Hnone. exfalso. clear -Hnone.
      induction moves as [|mv' moves IH']; cbn in Hnone; [done | by apply IH'].
Qed.

Lemma moves_applied (moves : list Move) (st0 st : State) :
  foldl (λ (acc : option State) mv, st ← acc; move_entry mv (st_entries st) 0 st)
        (Some st0) moves = Some st →
  applied st0 ≤ applied st ≤ applied st0 + Z.of_nat (length moves).
Proof.
  revert st0. induction moves as [|mv moves IH]; intros st0; cbn [foldl length].
  - intros [= <-]. lia.
  - cbn [mbind option_bind]. destruct (move_entry mv (st_entries st0) 0 st0) as [st1|] eqn:E.
    + intros H%IH.
      apply move_entry_cases in E as [-> | (j & entry & room & Hj & _ & _ & Hpre & Hrel)];
        [lia | | done].
      apply relocate_sessions in Hrel as [_ Ha]; [lia | done | done].
    + intros Hnone. exfalso. clear -Hnone.
      induction moves as [|mv' moves IH']; cbn in Hnone; [done | by apply IH'].
Qed.

End refinement.

Section refinement_moves.
Import Refinement.

Lemma scheduled_count_sessions (es1 es2 : list ScheduleEntry) (key : CB) (theory : bool) :
  session_of <$> es1 = session_of <$> es2 →
  Verifier.scheduled_count es1 key theory = Verifier.scheduled_count es2 key theory.
Proof.
  unfold Verifier.scheduled_count. intros Heq. f_equal.
  revert es2 Heq. induction es1 as [|e1 es1 IH]; intros [|e2 es2] Heq; try done.
  rewrite !fmap_cons in Heq. apply (inj2 cons) in Heq as [Hhead Hrest].
  specialize (IH es2 Hrest). unfold session_of in Hhead.
  assert (entry_cb e1 = entry_cb e2 ∧ session_type e1 = session_type e2) as [Hcb Hty]
    by (split; congruence).
  rewrite !filter_cons, Hcb, Hty.
  case_decide; cbn; by rewrite IH.
Qed.

Lemma move_entry_returns mv rest i st :
  10 ≤ to_hour mv ≤ 17 → is_Some (move_entry mv rest i st).
Proof.
  intros Hh. revert i. induction rest as [|entry rest IH]; intros i; cbn [move_entry]; [done |].
  case_bool_decide; [| done]. case_bool_decide; [done |].
  destruct (room_to_use _ _ _); [| done].
  unfold relocate, TimeSlot_new. by rewrite bool_decide_eq_true_2.
Qed.

(** [apply_refinements] keeps a teacher and a room from being booked
    twice: a proposal that books none twice is refined into one that books
    none twice. *)
Theorem apply_refinements_keeps_single_booking (p : TimetableProposal)
    (moves : list Move) (p' : TimetableProposal) (n : Z) :
  no_double_booking (entries p) →
  apply_refinements p moves = Some (p', n) →
  no_double_booking (entries p').
Proof.
  intros Hndb%no_double_booking_NDB. unfold apply_refinements.
  destruct (foldl _ _ moves) as [st|] eqn:Hfold; [| done]. cbn. intros [= <- _].
  cbn [entries]. apply NDB_no_double_booking.
  cut (refine_booked st); [by intros [? _] |].
  eapply (moves_invariant refine_booked); [| | exact Hfold].
  - intros mv st1 st2 Hst
      [-> | (j & entry & room & Hj & Ht & Hr & _ & Hrel)]%move_entry_cases; [done | | done].
    by eapply relocate_booked.
  - destruct (init_state_spec (entries p)) as (He & _ & Hrec).
    unfold refine_booked. rewrite He. by split.
Qed.

Lemma apply_refinements_keeps_single_booking_witness :
  no_double_booking (entries shared_slot) ∧
  match apply_refinements shared_slot [to_tuesday] with
  | Some (p', n) => no_double_booking (entries p')
  | None => False
  end.
Proof.
  assert (no_double_booking (entries shared_slot)) as H.
  { apply NDB_no_double_booking.
    split; apply (bool_decide_unpack _); vm_compute; exact I. }
  split; [exact H |].
  destruct (apply_refinements shared_slot [to_tuesday]) as [[p' n]|] eqn:E.
  - exact (apply_refinements_keeps_single_booking _ _ _ _ H E).
  - returns_a_result E.
Defined.

(** [apply_refinements] changes slots and rooms only: place by place, the
    refined proposal has the course-batch, teacher, session type and
    student count of the original and a room of the same kind; the number
    of applied moves is at most the number of moves; and the coverage
    check of the verifier reports the same for both proposals. *)
Theorem apply_refinements_keeps_sessions (p : TimetableProposal)
    (moves : list Move) (p' : TimetableProposal) (n : Z) :
  apply_refinements p moves = Some (p', n) →
  session_of <$> entries p' = session_of <$> entries p ∧
  0 ≤ n ≤ Z.of_nat (length moves) ∧
  ∀ cs, Verifier._check_coverage p' cs = Verifier._check_coverage p cs.
Proof.
  unfold apply_refinements.
  destruct (foldl _ _ moves) as [st|] eqn:Hfold; [| done]. cbn. intros [= <- <-].
  cbn [entries].
  destruct (init_state_spec (entries p)) as (He & Ha & _).
  assert (session_of <$> st_entries st = session_of <$> entries p) as Hsame.
  { eapply (moves_invariant (λ st, session_of <$> st_entries st = session_of <$> entries p));
      [| | exact Hfold]; [| by rewrite He].
    intros mv st1 st2 Hst
      [-> | (j & entry & room & Hj & _ & _ & Hpre & Hrel)]%move_entry_cases; [done | | done].
    apply relocate_sessions in Hrel as [-> _]; done. }
  split_and!; [done | | | ].
  - apply moves_applied in Hfold. lia.
  - apply moves_applied in Hfold. lia.
  - intros cs. unfold Verifier._check_coverage. cbn [entries].
    apply list_bind_ext; [| done]. intros kc. apply list_bind_ext; [| done]. intros b.
    by rewrite !(scheduled_count_sessions _ _ _ _ Hsame).
Qed.

Lemma apply_refinements_keeps_sessions_witness :
  match apply_refinements shared_slot [to_tuesday] with
  | Some (p', n) =>
      n = 1 ∧
      session_of <$> entries p' = session_of <$> entries shared_slot ∧
      0 ≤ n ≤ Z.of_nat (length [to_tuesday]) ∧
      ∀ cs, Verifier._check_coverage p' cs = Verifier._check_coverage shared_slot cs
  | None => False
  end.
Proof.
  destruct (apply_refinements shared_slot [to_tuesday]) as [[p' n]|] eqn:E.
  - split; [| exact (apply_refinements_keeps_sessions _ _ _ _ E)].
    assert (snd <$> apply_refinements shared_slot [to_tuesday] = Some 1) as Hn
      by (vm_compute; reflexivity).
    rewrite E in Hn. by injection Hn.
  - returns_a_result E.
Defined.

(** [apply_refinements] returns when every destination hour is one that a
    [TimeSlot] admits. *)
Theorem apply_refinements_returns (p : TimetableProposal) (moves : list Move) :
  Forall (λ mv, 10 ≤ to_hour mv ≤ 17) moves →
  is_Some (apply_refinements p moves).
Proof.
  intros Hall. unfold apply_refinements.
  cut (is_Some (foldl (λ (acc : option State) mv,
                         st ← acc; move_entry mv (st_entries st) 0 st)
                      (Some (init_state (entries p))) moves)).
  { intros [st ->]. done. }
  generalize (init_state (entries p)).
  induction Hall as [|mv moves Hh _ IH]; intros st; cbn [foldl]; [done |].
  cbn [mbind option_bind].
  destruct (move_entry_returns mv (st_entries st) 0 st Hh) as [st' ->]. apply IH.
Qed.

(** The move to Tuesday 11 is applied; the same move to Tuesday 19 finds
    its entry, a free teacher and a room, and raises the validation error. *)
Lemma apply_refinements_returns_witness :
  Forall (λ mv, 10 ≤ to_hour mv ≤ 17) [to_tuesday] ∧
  is_Some (apply_refinements shared_slot [to_tuesday]) ∧
  apply_refinements shared_slot [to_evening] = None.
Proof.
  assert (Forall (λ mv, 10 ≤ to_hour mv ≤ 17) [to_tuesday]) as H
    by (repeat constructor; cbn; lia).
  split_and!; [exact H | exact (apply_refinements_returns shared_slot _ H) |].
  vm_compute. reflexivity.
Defined.

End refinement_moves.

(** ** The planners driven by a language model *)

Lemma Day_of_value_spec (s : string) (d : Day) : Day_of_value s = Some d ↔ Day_value d = s.
Proof.
  unfold Day_of_value. split.
  - intros [_ H%bool_decide_eq_true]%find_some. done.
  - intros <-. by destruct d.
Qed.

Section llm_planner.
Import LLMPlanner.

Lemma create_entry_ok item config e :
  _create_entry_from_llm item config = Some e → llm_entry_ok e.
Proof.
  unfold _create_entry_from_llm, TimeSlot_new.
  destruct (Day_of_value _) as [d|]; [| done]. cbn.
  case_bool_decide; [done |].
  rewrite (bool_decide_eq_true_2 (10 ≤ i_hour item ≤ 17)) by lia. cbn. intros [= <-].
  unfold llm_entry_ok. cbn. split; [lia | done].
Qed.

Lemma add_entry_booked st entry : llm_booked st → llm_booked (add_entry st entry).
Proof.
  intros [Hndb Hrec]. unfold add_entry, _is_valid_entry.
  case_bool_decide as Ht; [done |].
  destruct (get_bool _ _) eqn:Hr; [done |]. split; cbn.
  - apply (NDB_snoc _ _ _ _ Hndb Hrec); [done | congruence].
  - intros e [He | ->%list_elem_of_singleton]%elem_of_app.
    + destruct (Hrec e He) as [H1 H2]. split.
      * apply elem_of_get_set_add. by left.
      * rewrite get_bool_insert. by case_decide.
    + split.
      * apply elem_of_get_set_add. by right.
      * rewrite get_bool_insert. by rewrite decide_True.
Qed.

Lemma add_entry_ok st entry :
  llm_entry_ok entry → Forall llm_entry_ok (scheduled_entries st) →
  Forall llm_entry_ok (scheduled_entries (add_entry st entry)).
Proof.
  intros He Hst. unfold add_entry. destruct (_is_valid_entry _ _); [| done].
  cbn. apply Forall_app. split; [done | by apply Forall_singleton].
Qed.

(** Whatever the language model answers, the proposal books no teacher
    and no room twice, every entry is on an hour from 10 to 17 and counts
    60 students: an item with another day name or hour makes no entry,
    and an entry whose teacher or room is taken in its slot is dropped. *)
Theorem llm_proposal_books_once (llm : Z → State → list Item) (now : Z)
    (cs : list (string * Course)) (teachers : list (string * Teacher))
    (config : SchedulingConfig) :
  no_double_booking (entries (generate_proposal llm now cs teachers config)) ∧
  Forall llm_entry_ok (entries (generate_proposal llm now cs teachers config)).
Proof.
  unfold generate_proposal. cbn [entries].
  cut (∀ st l, llm_booked st ∧ Forall llm_entry_ok (scheduled_entries st) →
         let st' := foldl (λ st batch_idx,
                             foldl add_entry st (new_entries (llm batch_idx st) config))
                          st l in
         llm_booked st' ∧ Forall llm_entry_ok (scheduled_entries st')).
  { intros H. destruct (H (mkState [] ∅ ∅) (range 0 (total_batches cs))) as [[Hndb _] Hok].
    - split; [split; [apply NDB_nil | by intros e ?%elem_of_nil] | constructor].
    - split; [by apply NDB_no_double_booking | done]. }
  intros st l. revert st. induction l as [|i l IH]; intros st Hst; cbn zeta; cbn [foldl];
    [done |].
  apply IH. clear IH.
  assert (Forall llm_entry_ok (new_entries (llm i st) config)) as Hnew.
  { apply Forall_forall. intros e (item & _ & He)%list_elem_of_omap.
    by eapply create_entry_ok. }
  revert Hnew Hst. generalize (new_entries (llm i st) config) as es. intros es. revert st.
  induction es as [|e es IHes]; intros st Hnew [Hb Hok]; cbn [foldl]; [done |].
  apply Forall_cons in Hnew as [He Hnew].
  apply IHes; [done |]. split; [by apply add_entry_booked | by apply add_entry_ok].
Qed.

End llm_planner.

Section tool_planner.
Import ToolPlanner.

(** When [_assign_slot] succeeds and what it then does. *)
Lemma assign_slot_cases st a :
  _assign_slot st a = Some (st, false) ∨
  ∃ d,
    10 ≤ a_hour a ≤ 17 ∧ Day_value d = a_day a ∧
    teacher_schedule st !! (a_day a, a_hour a) ≠ Some (a_teacher a) ∧
    get_bool (room_schedule st) (a_day a, a_hour a, a_room a) = false ∧
    ∃ progress,
      _assign_slot st a
      = Some (mkState
                (scheduled_entries st ++
                   [mkEntry (a_course a) (a_batch a) (a_teacher a) (a_room a)
                      (mkTimeSlot d (a_hour a))
                      (if bool_decide (a_session_type a = "lab") then LAB else THEORY) 60])
                (<[(a_day a, a_hour a) := a_teacher a]> (teacher_schedule st))
                (<[(a_day a, a_hour a, a_room a) := true]> (room_schedule st))
                progress, true).
Proof.
  unfold _assign_slot, _check_slot, TimeSlot_new.
  case_bool_decide as Hh; [by left |].
  case_bool_decide as Ht; [by left |].
  destruct (get_bool _ _) eqn:Hr; [by left |]. cbn [negb].
  destruct (Day_of_value (a_day a)) as [d|] eqn:Hd; [| by left].
  apply Day_of_value_spec in Hd.
  rewrite (bool_decide_eq_true_2 (10 ≤ a_hour a ≤ 17)) by lia. cbn.
  right. exists d. split_and!; [lia | lia | done | done | done |]. by eexists.
Qed.

Lemma assign_slot_rooms st a st' ok :
  tool_rooms_booked st → Forall llm_entry_ok (scheduled_entries st) →
  _assign_slot st a = Some (st', ok) →
  tool_rooms_booked st' ∧ Forall llm_entry_ok (scheduled_entries st').
Proof.
  intros [Hnd Hrec] Hok.
  destruct (assign_slot_cases st a) as [-> | (d & Hh & Hd & _ & Hr & progress & ->)];
    intros [= <- <-]; [done |].
  unfold tool_rooms_booked. cbn [scheduled_entries room_schedule]. split; [split |].
  - rewrite fmap_app. cbn [fmap list_fmap]. apply NoDup_app. split_and!; [done | |].
    + intros k (e & -> & He)%list_elem_of_fmap [Hs Hroom]%list_elem_of_singleton%pair_equal_spec.
      cbn in Hroom. unfold entry_slot, slot_key in Hs. cbn in Hs. injection Hs as Hday Hhour.
      pose proof (Hrec e He) as Hbusy. rewrite Hday, Hhour, Hroom, Hd in Hbusy. congruence.
    + apply NoDup_singleton.
  - intros e [He | ->%list_elem_of_singleton]%elem_of_app.
    + rewrite get_bool_insert. case_decide; [done | by apply Hrec].
    + cbn. rewrite Hd, get_bool_insert. by rewrite decide_True.
  - apply Forall_app. split; [done |]. apply Forall_singleton. split; [cbn; lia | done].
Qed.

(** A run of [assign_slot] calls from the reset state never raises and
    never puts two entries in one room in one slot; every entry is on an
    hour from 10 to 17. *)
Theorem tool_planner_books_rooms_once (calls : list Args) :
  ∃ st, assign_all reset_state calls = Some st ∧
        (∀ s r, (room_bookings (scheduled_entries st) s r ≤ 1)%nat) ∧
        Forall llm_entry_ok (scheduled_entries st).
Proof.
  cut (∀ st0, tool_rooms_booked st0 ∧ Forall llm_entry_ok (scheduled_entries st0) →
         ∃ st, assign_all st0 calls = Some st ∧
               tool_rooms_booked st ∧ Forall llm_entry_ok (scheduled_entries st)).
  { intros H. destruct (H reset_state) as (st & Hrun & [Hnd _] & Hok).
    - split; [split; [constructor | by intros e ?%elem_of_nil] | constructor].
    - exists st. split_and!; [done | | done]. intros s r. unfold room_bookings.
      apply (key_count_le_1 (λ e, (entry_slot e, entry_room_id e)) _ (s, r)); [| done].
      intros e. by rewrite pair_equal_spec. }
  unfold assign_all. induction calls as [|a calls IH]; intros st0 Hst0; cbn [foldl].
  - by exists st0.
  - cbn [mbind option_bind].
    destruct (assign_slot_cases st0 a) as [E | (d & _ & _ & _ & _ & progress & E)];
      rewrite E; cbn [fmap option_fmap option_map fst]; apply IH;
      destruct Hst0 as [Hb Hok]; by eapply assign_slot_rooms.
Qed.

(** The teacher dictionary of the tool planner keeps one teacher per slot,
    so a teacher is turned down only when the last assignment in the slot
    was theirs: after a session of another teacher in the same slot, a
    second session of the first teacher is accepted there. *)
Theorem tool_planner_rebooks_teacher (d : Day) (h : Z) (course batch ty t t' r1 r2 r3 : string) :
  10 ≤ h ≤ 17 → t ≠ t' → r1 ≠ r2 → r1 ≠ r3 → r2 ≠ r3 →
  ∃ st,
    assign_all reset_state
      [mkArgs course batch t r1 (Day_value d) h ty;
       mkArgs course batch t' r2 (Day_value d) h ty;
       mkArgs course batch t r3 (Day_value d) h ty] = Some st ∧
    teacher_bookings (scheduled_entries st) (d, h) t = 2%nat.
Proof.
  intros Hh Htt H12 H13 H23.
  assert (∀ st r t0,
            teacher_schedule st !! (Day_value d, h) ≠ Some t0 →
            get_bool (room_schedule st) (Day_value d, h, r) = false →
            ∃ st',
              fst <$> _assign_slot st (mkArgs course batch t0 r (Day_value d) h ty) = Some st' ∧
              scheduled_entries st'
              = scheduled_entries st ++
                  [mkEntry course batch t0 r (mkTimeSlot d h)
                     (if bool_decide (ty = "lab") then LAB else THEORY) 60] ∧
              teacher_schedule st' = <[(Day_value d, h) := t0]> (teacher_schedule st) ∧
              room_schedule st' = <[(Day_value d, h, r) := true]> (room_schedule st))
    as Hstep.
  { intros st r t0 Ht Hr. unfold _assign_slot, _check_slot, TimeSlot_new.
    cbn [a_course a_batch a_teacher a_room a_day a_hour a_session_type].
    rewrite bool_decide_eq_false_2 by lia.
    rewrite (bool_decide_eq_false_2 _ Ht), Hr. cbn [negb].
    rewrite (proj2 (Day_of_value_spec _ _) eq_refl).
    rewrite (bool_decide_eq_true_2 (10 ≤ h ≤ 17)) by lia. cbn. by eexists. }
  destruct (Hstep reset_state r1 t) as (st1 & E1 & He1 & Ht1 & Hr1); [done | done |].
  destruct (Hstep st1 r2 t') as (st2 & E2 & He2 & Ht2 & Hr2).
  { rewrite Ht1, lookup_insert_eq. congruence. }
  { rewrite Hr1, get_bool_insert, decide_False by congruence. done. }
  destruct (Hstep st2 r3 t) as (st3 & E3 & He3 & Ht3 & Hr3).
  { rewrite Ht2, lookup_insert_eq. congruence. }
  { rewrite Hr2, Hr1, !get_bool_insert, !decide_False by congruence. done. }
  exists st3. split.
  - unfold assign_all. cbn [foldl]. cbn [mbind option_bind]. rewrite E1.
    cbn [mbind option_bind]. rewrite E2. cbn [mbind option_bind]. by rewrite E3.
  - rewrite He3, He2, He1. cbn [scheduled_entries reset_state app].
    unfold teacher_bookings.
    rewrite filter_cons_True by done.
    rewrite filter_cons_False by (intros [_ ?]; done).
    rewrite filter_cons_True by done. done.
Qed.

Lemma tool_planner_rebooks_teacher_witness :
  ∃ st,
    assign_all reset_state
      [mkArgs "C" "B1" "T" "R1" (Day_value MONDAY) 10 "theory";
       mkArgs "C" "B1" "U" "R2" (Day_value MONDAY) 10 "theory";
       mkArgs "C" "B1" "T" "R3" (Day_value MONDAY) 10 "theory"] = Some st ∧
    teacher_bookings (scheduled_entries st) (MONDAY, 10) "T" = 2%nat.
Proof.
  apply (tool_planner_rebooks_teacher MONDAY 10 "C" "B1" "theory" "T" "U" "R1" "R2" "R3");
    (lia || done).
Defined.

End tool_planner.

(** ** The time slots of a configuration *)

Lemma length_range (a b : Z) : length (range a b) = Z.to_nat (b - a).
Proof. unfold range. by rewrite length_fmap, length_seq. Qed.

(** [generate_all_time_slots] returns exactly when it has no slot to make
    or every hour of the configuration is one that a [TimeSlot] admits:
    no day, no hour, or hours within 10 to 18. *)
Theorem generate_all_time_slots_returns_iff (cfg : SchedulingConfig) :
  is_Some (generate_all_time_slots cfg) ↔
  days cfg = [] ∨ end_hour cfg ≤ start_hour cfg ∨
  (10 ≤ start_hour cfg ∧ end_hour cfg ≤ 18).
Proof.
  unfold generate_all_time_slots. rewrite mapM_is_Some, Forall_forall. split.
  - intros H. destruct (days cfg) as [|d ds] eqn:Hd; [by left |]. right.
    destruct (decide (end_hour cfg ≤ start_hour cfg)); [by left |]. right.
    assert (∀ h, start_hour cfg ≤ h < end_hour cfg → 10 ≤ h ≤ 17) as Hh.
    { intros h Hr. specialize (H (d, h)). cbn in H. unfold TimeSlot_new in H.
      case_bool_decide; [done |]. destruct H as [? H]; [| done].
      apply (list_elem_of_bind (λ d, (λ h, (d, h)) <$> range (start_hour cfg) (end_hour cfg))
               (d, h) (d :: ds)).
      exists d. split; [| left].
      apply list_elem_of_fmap. exists h. split; [done |]. by apply elem_of_range. }
    pose proof (Hh (start_hour cfg) ltac:(lia)).
    pose proof (Hh (end_hour cfg - 1) ltac:(lia)). lia.
  - intros Hcase [d h] (d' & (h' & [= -> ->] & Hh%elem_of_range)%list_elem_of_fmap & Hd)%list_elem_of_bind.
    cbn. unfold TimeSlot_new. rewrite bool_decide_eq_true_2; [done |].
    destruct Hcase as [Hnil | [? | ?]]; [| lia | lia].
    rewrite Hnil in Hd. by apply elem_of_nil in Hd.
Qed.

(** When [generate_all_time_slots] returns, under a configuration whose
    hours do not run backwards, the number of slots is [total_slots]. *)
Theorem total_slots_counts_time_slots (cfg : SchedulingConfig) (slots : list TimeSlot) :
  start_hour cfg ≤ end_hour cfg →
  generate_all_time_slots cfg = Some slots →
  Z.of_nat (length slots) = total_slots cfg.
Proof.
  intros Hle Hgen.
  assert (length slots = length (slot_key <$> slots)) as -> by by rewrite length_fmap.
  rewrite (generate_all_time_slots_keys _ _ Hgen). unfold total_slots, slots_per_day.
  induction (days cfg) as [|d ds IH]; cbn [mbind list_bind length]; [lia |].
  rewrite length_app, length_fmap, length_range.
  change (ds ≫= _) with (d ← ds; (λ h, (d, h)) <$> range (start_hour cfg) (end_hour cfg)) in *.
  lia.
Qed.

Lemma total_slots_counts_time_slots_witness :
  start_hour week ≤ end_hour week ∧
  match generate_all_time_slots week with
  | Some slots => Z.of_nat (length slots) = total_slots week ∧ total_slots week = 40
  | None => False
  end.
Proof.
  assert (start_hour week ≤ end_hour week) as Hle by (cbn; lia).
  split; [exact Hle |].
  destruct (generate_all_time_slots week) as [slots|] eqn:E.
  - split; [exact (total_slots_counts_time_slots week slots Hle E) | reflexivity].
  - returns_a_result E.
Defined.

(** ** The sessions of the data loader *)

Lemma length_bind_const {A B} (f : A → list B) (l : list A) (n : nat) :
  (∀ x, length (f x) = n) → length (x ← l; f x) = (length l * n)%nat.
Proof.
  intros Hf. induction l as [|x l IH]; cbn; [done |]. by rewrite length_app, Hf, IH.
Qed.

Lemma length_bind_sum {A B} (f : A → list B) (w : A → Z) (l : list A) :
  (∀ x, Z.of_nat (length (f x)) = w x) →
  Z.of_nat (length (x ← l; f x)) = foldr (λ x r, w x + r) 0 l.
Proof.
  intros Hf. induction l as [|x l IH]; cbn; [done |].
  rewrite length_app, Nat2Z.inj_add, Hf. cbn in IH. by rewrite IH.
Qed.

Section data_loader.
Import DataLoader.

(** [get_course_batch_sessions] lists as many sessions as the verifier
    takes as the number of required hours. *)
Theorem sessions_count_is_total_required (cs : list (string * Course)) :
  Z.of_nat (length (get_course_batch_sessions cs)) = Verifier.total_required cs.
Proof.
  unfold get_course_batch_sessions.
  rewrite (length_bind_sum _ (λ kc, total_hours kc.2 * Z.of_nat (length (batches kc.2)))).
  - induction cs as [|kc cs IH]; [done |]. rewrite total_required_cons. cbn. by rewrite IH.
  - intros kc. rewrite (length_bind_const _ _ (Z.to_nat (total_hours kc.2))).
    + pose proof (Z2Nat.id (total_hours kc.2)) as Hid.
      unfold total_hours, theory_hours, lab_hours in *. case_decide; lia.
    + intros b. rewrite length_app, !length_fmap, !length_range.
      unfold total_hours, theory_hours, lab_hours. case_decide; lia.
Qed.

End data_loader.

(** ** The scheduling tools of the crew *)

Lemma NoDup_filter_le_1 {A K} `{EqDecision K} (f : A → K) (k : K) (l : list A) :
  NoDup (f <$> l) → (length (filter (λ x, f x = k) l) ≤ 1)%nat.
Proof.
  induction l as [|x l IH]; [cbn; lia |].
  rewrite fmap_cons, NoDup_cons. intros [Hx Hnd]. rewrite filter_cons.
  case_decide as Hk; [| by apply IH]. cbn.
  assert (filter (λ x, f x = k) l = []) as ->; [| cbn; lia].
  destruct (filter _ l) as [|y ?] eqn:E; [done |]. exfalso.
  assert (y ∈ filter (λ x, f x = k) l) as [Hy Hin]%list_elem_of_filter by (rewrite E; left).
  apply Hx. rewrite Hk, <- Hy. by apply list_elem_of_fmap_2.
Qed.

Lemma group_by_no_large_group {A K} `{EqDecision K} (f : A → K) (l : list A) :
  NoDup (f <$> l) →
  filter (λ kv : K * list A, (1 < length kv.2)%nat) (Verifier.group_by f l) = [].
Proof.
  intros Hnd. destruct (filter _ (Verifier.group_by f l)) as [|[k vs] ?] eqn:E; [done |].
  exfalso.
  assert ((k, vs) ∈ filter (λ kv : K * list A, (1 < length kv.2)%nat) (Verifier.group_by f l))
    as [Hlen [-> _]%group_by_spec]%list_elem_of_filter by (rewrite E; left).
  cbn in Hlen. pose proof (NoDup_filter_le_1 f k l Hnd). lia.
Qed.

Section crew.
Import Crew.

Lemma assign_slot_booked o st a :
  crew_booked st →
  crew_booked (assign_slot o st a).1 ∧
  student_conflicts (assign_slot o st a).1 = student_conflicts st ∧
  (Forall (λ e, 10 ≤ e_hour e ≤ 17 ∧ e_day e ∈ Day_value <$> list_Day) (scheduled_entries st) →
   Forall (λ e, 10 ≤ e_hour e ≤ 17 ∧ e_day e ∈ Day_value <$> list_Day)
     (scheduled_entries (assign_slot o st a).1)).
Proof.
  intros (Hnt & Hnr & Hrec & Hfree). unfold assign_slot.
  case_bool_decide as Hh; [done |].
  case_bool_decide as Hd; [done |].
  case_bool_decide as Ht; [done |].
  destruct (get_bool _ _) eqn:Hr; [done |].
  destruct (no_student_conflict o st a) eqn:Hc; [| done]. cbn [negb fst].
  split_and!; [| done |].
  - unfold crew_booked.
    cbn [scheduled_entries teacher_schedule room_schedule slot_schedule student_conflicts].
    split_and!.
    + rewrite fmap_app. apply NoDup_app. split_and!; [done | | apply NoDup_singleton].
      intros k (e & -> & He)%list_elem_of_fmap [= Hday Hhour Hteacher]%list_elem_of_singleton.
      apply Ht. destruct (Hrec e He) as (Hbusy & _). by rewrite <- Hday, <- Hhour, <- Hteacher.
    + rewrite fmap_app. apply NoDup_app. split_and!; [done | | apply NoDup_singleton].
      intros k (e & -> & He)%list_elem_of_fmap [= Hday Hhour Hroom]%list_elem_of_singleton.
      destruct (Hrec e He) as (_ & Hbusy & _).
      rewrite Hday, Hhour, Hroom in Hbusy. congruence.
    + intros e [He | ->%list_elem_of_singleton]%elem_of_app.
      * destruct (Hrec e He) as (H1 & H2 & H3). split_and!.
        -- apply elem_of_get_set_add. by left.
        -- rewrite get_bool_insert. by case_decide.
        -- apply elem_of_get_set_add. by left.
      * cbn. split_and!.
        -- apply elem_of_get_set_add. by right.
        -- rewrite get_bool_insert. by rewrite decide_True.
        -- apply elem_of_get_set_add. by right.
    + apply StronglySorted_app_2; [| done | repeat constructor].
      intros e1 e2 He1 ->%list_elem_of_singleton Hslot. cbn in Hslot |- *.
      unfold no_student_conflict in Hc. rewrite forallb_forall in Hc.
      specialize (Hc (e_course e1, e_batch e1)).
      rewrite negb_true_iff, bool_decide_eq_false in Hc. apply Hc.
      apply list_elem_of_In. rewrite (iter_perm o). apply elem_of_elements.
      rewrite <- Hslot. by apply Hrec.
  - intros Hok. cbn [scheduled_entries]. apply Forall_app. split; [done |].
    apply Forall_singleton. cbn. split; [lia |].
    destruct (decide (a_day a ∈ Day_value <$> list_Day)); done.
Qed.

(** Whatever calls of [assign_slot] are made after [load_data],
    [verify_schedule] reports no room conflict and no teacher conflict,
    every entry is on a weekday name and an hour from 10 to 17, and no
    entry shares its slot with an earlier entry of a course-batch that
    the conflict sets list for its own. *)
Theorem crew_schedule_verifies (o : SetOrder) (conflicts : gmap CB (gset CB))
    (calls : list Args) :
  verify_schedule (assign_all o (loaded conflicts) calls) = (0, 0) ∧
  Forall (λ e, 10 ≤ e_hour e ≤ 17 ∧ e_day e ∈ Day_value <$> list_Day)
    (scheduled_entries (assign_all o (loaded conflicts) calls)) ∧
  StronglySorted
    (λ e1 e2, (e_day e1, e_hour e1) = (e_day e2, e_hour e2) →
              (e_course e1, e_batch e1) ∉ get_set conflicts (e_course e2, e_batch e2))
    (scheduled_entries (assign_all o (loaded conflicts) calls)).
Proof.
  cut (∀ st, crew_booked st →
         Forall (λ e, 10 ≤ e_hour e ≤ 17 ∧ e_day e ∈ Day_value <$> list_Day)
           (scheduled_entries st) →
         crew_booked (assign_all o st calls) ∧
         student_conflicts (assign_all o st calls) = student_conflicts st ∧
         Forall (λ e, 10 ≤ e_hour e ≤ 17 ∧ e_day e ∈ Day_value <$> list_Day)
           (scheduled_entries (assign_all o st calls))).
  { intros H. destruct (H (loaded conflicts)) as ((Hnt & Hnr & _ & Hfree) & Hsc & Hok).
    - unfold crew_booked, loaded. cbn. split_and!; [constructor | constructor | | constructor].
      by intros x ?%elem_of_nil.
    - constructor.
    - split_and!; [| done | by rewrite Hsc in Hfree].
      unfold verify_schedule. by rewrite !group_by_no_large_group. }
  unfold assign_all. induction calls as [|a calls IH]; intros st Hst Hok; cbn [foldl]; [done |].
  destruct (assign_slot_booked o st a Hst) as (Hb & Hsc & Hok').
  destruct (IH _ Hb (Hok' Hok)) as (? & Hsc' & ?). split_and!; [done | | done].
  by rewrite Hsc', Hsc.
Qed.

End crew.

(** ** The optimized planner: how many sessions it places *)

Section pa_counts.
Import PA.
Context (o : SetOrder) (conflicts : gmap CB (gset CB)).

Lemma theory_loop_appends c b teacher students rooms slots n st :
  ∃ new,
    st_entries (theory_loop o conflicts c b teacher students rooms slots n st)
    = st_entries st ++ new ∧
    Forall (λ e, entry_cb e = (code c, b)) new ∧
    (n ≤ theory_hours c → n + Z.of_nat (length new) ≤ theory_hours c).
Proof.
  revert n st. induction slots as [|slot rest IH]; intros n st; cbn [theory_loop].
  { exists []. rewrite app_nil_r. split_and!; [done | constructor | cbn; lia]. }
  case_bool_decide as Hfull.
  { exists []. rewrite app_nil_r. split_and!; [done | constructor | cbn; lia]. }
  case_bool_decide; [apply IH |].
  destruct (negb _); [apply IH |].
  destruct (free_regular_room _ slot rooms) as [r|]; [| apply IH].
  destruct (IH (n + 1) (place_theory (code c) b teacher students r st slot))
    as (new & -> & Hcb & Hlen).
  cbn [place_theory st_entries]. rewrite <- app_assoc.
  eexists. split_and!; [done | |].
  - constructor; [done | exact Hcb].
  - intros _. cbn [app length]. lia.
Qed.

Lemma lab_loop_appends c b teacher students rooms rest n st :
  ∃ new (k : Z),
    st_entries (lab_loop o conflicts c b teacher students rooms rest n st)
    = st_entries st ++ new ∧
    Forall (λ e, entry_cb e = (code c, b)) new ∧
    Z.of_nat (length new) = 2 * k ∧ 0 ≤ k ∧ (k = 0 ∨ n + 2 * (k - 1) < lab_hours c).
Proof.
  remember (length rest) as m eqn:Hm.
  assert (length rest ≤ m)%nat as Hlen by lia. clear Hm.
  revert rest n st Hlen.
  induction m as [|m IH]; intros rest n st Hlen.
  { destruct rest; [| simpl in Hlen; lia].
    exists [], 0. rewrite app_nil_r. split_and!; [done | constructor | done | done | by left]. }
  destruct rest as [|slot1 [|s2 rest2]].
  1,2: exists [], 0; rewrite app_nil_r;
       split_and!; [done | constructor | done | done | by left].
  rewrite lab_loop_unfold. cbv zeta. simpl in Hlen.
  case_bool_decide as Hguard.
  2:{ exists [], 0. rewrite app_nil_r.
      split_and!; [done | constructor | done | done | by left]. }
  destruct (next_hour_slot slot1 (s2 :: rest2)) as [slot2|]; [| apply IH; simpl; lia].
  destruct (bool_decide (teacher ∈ _) || bool_decide (teacher ∈ _));
    [apply IH; simpl; lia |].
  destruct (negb _ || negb _); [apply IH; simpl; lia |].
  destruct (free_lab_room st slot1 slot2 rooms) as [lr|]; [| apply IH; simpl; lia].
  destruct (IH rest2 (n + 2) (foldl (place_lab c b teacher students lr) st [slot1; slot2]))
    as (new & k & -> & Hcb & Hk & Hk0 & Hbound); [lia |].
  cbn [foldl place_lab st_entries]. rewrite <- !app_assoc.
  eexists _, (k + 1). split_and!; [done | | | lia |].
  - constructor; [done |]. constructor; [done | exact Hcb].
  - cbn [app length]. lia.
  - right. destruct Hbound; lia.
Qed.

Lemma schedule_batch_appends strategy all_slots regular lab c st (ib : nat * string) :
  ∃ new,
    st_entries (schedule_batch o conflicts strategy all_slots regular lab c st ib)
    = st_entries st ++ new ∧
    Forall (λ e, entry_cb e = (code c, ib.2)) new ∧
    Z.of_nat (length new) ≤ total_hours c.
Proof.
  unfold schedule_batch.
  set (teacher := default "TBA" _). set (students := default 60 _).
  set (st1 := if bool_decide (lab_hours c > 0) then _ else st).
  assert (∃ new1, st_entries st1 = st_entries st ++ new1 ∧
                  Forall (λ e, entry_cb e = (code c, ib.2)) new1 ∧
                  Z.of_nat (length new1) ≤ lab_hours c) as (new1 & H1 & Hcb1 & Hlen1).
  { subst st1. case_bool_decide as Hlab.
    - destruct (lab_loop_appends c ib.2 teacher students lab
                  (sorted_by (slot_leb true) all_slots) 0 st)
        as (new1 & k & -> & Hcb & Hk & Hk0 & Hbound).
      exists new1. split_and!; [done | done |].
      unfold lab_hours in *. case_decide; destruct Hbound; lia.
    - exists []. rewrite app_nil_r. split_and!; [done | constructor |].
      unfold lab_hours. case_decide; cbn; lia. }
  destruct (theory_loop_appends c ib.2 teacher students regular
              (sorted_by (slot_leb (morning_theory strategy)) all_slots) 0 st1)
    as (new2 & -> & Hcb2 & Hlen2).
  rewrite H1, <- app_assoc. exists (new1 ++ new2). split_and!; [done | |].
  - by apply Forall_app.
  - rewrite length_app. unfold total_hours.
    assert (0 ≤ theory_hours c) by (unfold theory_hours; case_decide; lia). lia.
Qed.

Lemma placed_app (es1 es2 : list ScheduleEntry) (cb : CB) :
  placed (es1 ++ es2) cb = (placed es1 cb + placed es2 cb)%nat.
Proof. unfold placed. by rewrite filter_app, length_app. Qed.

Lemma placed_same (new : list ScheduleEntry) (cb cb0 : CB) :
  Forall (λ e, entry_cb e = cb) new →
  placed new cb0 = if decide (cb = cb0) then length new else 0%nat.
Proof.
  unfold placed. intros Hall. destruct (decide (cb = cb0)) as [->|Hne].
  - induction Hall as [|e new He Hnew IH]; [done |].
    rewrite filter_cons_True by done. cbn. by rewrite IH.
  - induction Hall as [|e new He Hnew IH]; [done |].
    rewrite filter_cons_False by congruence. done.
Qed.

Lemma schedule_batches_count strategy all_slots regular lab c
    (ibs : list (nat * string)) st (cb0 : CB) :
  Z.of_nat (placed (st_entries
              (foldl (schedule_batch o conflicts strategy all_slots regular lab c) st ibs)) cb0)
  ≤ Z.of_nat (placed (st_entries st) cb0) +
    foldr (λ (ib : nat * string) r,
             (if decide ((code c, ib.2) = cb0) then total_hours c else 0) + r) 0 ibs.
Proof.
  revert st. induction ibs as [|ib ibs IH]; intros st; cbn [foldl foldr]; [lia |].
  etransitivity; [apply IH |].
  destruct (schedule_batch_appends strategy all_slots regular lab c st ib)
    as (new & -> & Hcb & Hlen).
  rewrite placed_app, (placed_same _ _ cb0 Hcb). case_decide; lia.
Qed.

Lemma foldr_imap_pair (g : string → Z) (h : nat → string → nat * string)
    (bs : list string) :
  (∀ i b, (h i b).2 = b) →
  foldr (λ (ib : nat * string) r, g ib.2 + r) 0 (imap h bs)
  = foldr (λ b r, g b + r) 0 bs.
Proof.
  revert h. induction bs as [|b bs IH]; intros h Hh; [done |].
  rewrite imap_cons. cbn [foldr]. rewrite Hh, (IH (h ∘ S)); [done |].
  intros i b'. apply Hh.
Qed.

Lemma schedule_courses_count strategy all_slots regular lab (l : list Course) st (cb0 : CB) :
  Z.of_nat (placed (st_entries
              (foldl (schedule_course o conflicts strategy all_slots regular lab) st l)) cb0)
  ≤ Z.of_nat (placed (st_entries st) cb0) + allowance l cb0.
Proof.
  revert st. induction l as [|c l IH]; intros st; cbn [foldl allowance foldr]; [lia |].
  etransitivity; [apply IH |]. fold (allowance l cb0). unfold schedule_course.
  pose proof (schedule_batches_count strategy all_slots regular lab c
                (imap pair (batches c)) st cb0) as H.
  pose proof (foldr_imap_pair
                (λ b, if decide ((code c, b) = cb0) then total_hours c else 0) pair
                (batches c) ltac:(done)) as Hf.
  cbn beta in Hf. rewrite Hf in H. lia.
Qed.

End pa_counts.

Lemma allowance_perm (l1 l2 : list Course) (cb : CB) :
  l1 ≡ₚ l2 → allowance l1 cb = allowance l2 cb.
Proof. unfold allowance. induction 1; cbn; lia. Qed.

Lemma batch_sum_NoDup (k : string) (w : Z) (cb0 : CB) (bs : list string) :
  NoDup bs →
  foldr (λ b r', (if decide ((k, b) = cb0) then w else 0) + r') 0 bs
  = if decide (cb0.1 = k ∧ cb0.2 ∈ bs) then w else 0.
Proof.
  destruct cb0 as [k0 b0]. cbn [fst snd].
  induction 1 as [|b bs Hb Hnd IH]; cbn [foldr].
  - rewrite decide_False; [done |]. intros [_ ?%elem_of_nil]. done.
  - rewrite IH. destruct (decide ((k, b) = (k0, b0))) as [[= -> ->]|Hne].
    + rewrite decide_False by (intros [_ ?]; done).
      rewrite decide_True; [lia |]. split; [done | left].
    + destruct (decide (k0 = k ∧ b0 ∈ bs)) as [[-> Hin]|Hout].
      * rewrite decide_True; [lia |]. split; [done | by right].
      * rewrite decide_False; [lia |].
        intros [-> [->|?]%elem_of_cons]; [done | by apply Hout].
Qed.

Lemma dict_get_cons {V} (k k' : string) (v : V) (d : list (string * V)) :
  dict_get k ((k', v) :: d) = if decide (k' = k) then Some v else dict_get k d.
Proof.
  unfold dict_get. cbn [List.find fst].
  destruct (decide (k' = k)) as [->|Hne].
  - by rewrite bool_decide_eq_true_2.
  - by rewrite bool_decide_eq_false_2.
Qed.

Lemma elem_of_course_batches (cs : list (string * Course)) (cb : CB) :
  cb ∈ course_batches cs ↔ ∃ c, (cb.1, c) ∈ cs ∧ cb.2 ∈ batches c.
Proof.
  unfold course_batches. rewrite list_elem_of_bind. split.
  - intros ([k c] & (b & -> & Hb)%list_elem_of_fmap & Hkc). by exists c.
  - intros (c & Hc & Hb). exists (cb.1, c). split; [| done].
    apply list_elem_of_fmap. exists cb.2. split; [by destruct cb | done].
Qed.

Lemma well_keyed_cons (kc : string * Course) (cs : list (string * Course)) :
  well_keyed (kc :: cs) →
  well_keyed cs ∧ (kc.1 ∉ fst <$> cs) ∧ code kc.2 = kc.1 ∧ NoDup (batches kc.2).
Proof.
  intros [[Hk Hnd]%NoDup_cons [[Hcode Hb] Hall]%Forall_cons]. by split_and!.
Qed.

Lemma not_elem_of_course_batches (cs : list (string * Course)) (cb : CB) :
  cb.1 ∉ fst <$> cs → cb ∉ course_batches cs.
Proof.
  intros Hk (c & Hc & _)%elem_of_course_batches. apply Hk.
  by apply (list_elem_of_fmap_2 fst _ _ Hc).
Qed.

Lemma allowance_well_keyed (cs : list (string * Course)) (cb0 : CB) :
  well_keyed cs →
  allowance (snd <$> cs) cb0
  = if decide (cb0 ∈ course_batches cs) then required_hours cs cb0 else 0.
Proof.
  induction cs as [|[k c] cs IH]; intros Hwk.
  - cbn. rewrite decide_False; [done | apply not_elem_of_nil].
  - apply well_keyed_cons in Hwk as (Hwk & Hk & Hcode & Hnd). cbn [fst snd] in *.
    rewrite fmap_cons. cbn [snd]. unfold allowance. cbn [foldr]. fold (allowance (snd <$> cs) cb0).
    rewrite (IH Hwk), Hcode, (batch_sum_NoDup k _ cb0 _ Hnd).
    unfold required_hours. rewrite dict_get_cons.
    assert (cb0 ∈ course_batches ((k, c) :: cs) ↔
            (cb0.1 = k ∧ cb0.2 ∈ batches c) ∨ cb0 ∈ course_batches cs) as Hin.
    { unfold course_batches. cbn [mbind list_bind fst snd]. rewrite elem_of_app, list_elem_of_fmap.
      split; (intros [H | H]; [left | by right]).
      - destruct H as (b & -> & Hb). done.
      - destruct H as [<- Hb]. exists cb0.2. split; [by destruct cb0 | done]. }
    destruct (decide (cb0.1 = k ∧ cb0.2 ∈ batches c)) as [[Hk0 Hb0]|Hout].
    + assert (cb0 ∉ course_batches cs) as Hnot
        by (apply not_elem_of_course_batches; by rewrite Hk0).
      rewrite (decide_False (P := cb0 ∈ course_batches cs)) by done.
      rewrite decide_True by (apply Hin; by left).
      rewrite decide_True by done. cbn. lia.
    + destruct (decide (cb0 ∈ course_batches cs)) as [Hcs|Hcs].
      * rewrite decide_True by (apply Hin; by right).
        rewrite decide_False; [unfold required_hours; lia |].
        intros ->. eapply not_elem_of_course_batches; [| exact Hcs]. done.
      * rewrite decide_False; [lia |]. intros [?|?]%Hin; done.
Qed.

Lemma required_hours_nonneg (cs : list (string * Course)) (cb : CB) : 0 ≤ required_hours cs cb.
Proof.
  unfold required_hours. destruct (dict_get cb.1 cs) as [c|]; cbn; [| done].
  unfold total_hours, theory_hours, lab_hours. case_decide; lia.
Qed.

Lemma course_batches_NoDup (cs : list (string * Course)) :
  well_keyed cs → NoDup (course_batches cs).
Proof.
  induction cs as [|[k c] cs IH]; intros Hwk; [constructor |].
  apply well_keyed_cons in Hwk as (Hwk & Hk & _ & Hnd). cbn [fst snd] in *.
  unfold course_batches. cbn [mbind list_bind fst snd]. apply NoDup_app. split_and!.
  - apply NoDup_fmap_2; [| done]. by intros b1 b2 [= ->].
  - intros cb (b & -> & _)%list_elem_of_fmap Hin.
    by eapply not_elem_of_course_batches; [| exact Hin].
  - by apply IH.
Qed.

Lemma required_hours_sum (cs : list (string * Course)) :
  NoDup (fst <$> cs) →
  foldr (λ cb r, required_hours cs cb + r) 0 (course_batches cs) = Verifier.total_required cs.
Proof.
  intros Hnd.
  assert (∀ cs0, (∀ kc, kc ∈ cs0 → dict_get kc.1 cs = Some kc.2) →
            foldr (λ cb r, required_hours cs cb + r) 0 (course_batches cs0)
            = Verifier.total_required cs0) as Hgen.
  { induction cs0 as [|[k c] cs0 IH]; intros Hget; [done |].
    rewrite total_required_cons. unfold course_batches. cbn [mbind list_bind fst snd].
    rewrite foldr_app. fold (course_batches cs0).
    rewrite IH by (intros kc Hkc; apply Hget; by right).
    assert (dict_get k cs = Some c) as Hk by (apply (Hget (k, c)); left).
    generalize (Verifier.total_required cs0) as t. intros t.
    induction (batches c) as [|b bs IHb]; cbn [fmap list_fmap foldr length]; [lia |].
    rewrite IHb. unfold required_hours at 1. cbn [fst]. rewrite Hk. cbn. lia. }
  apply Hgen. intros [k c] Hkc. by apply dict_get_NoDup.
Qed.

(** The entries are at most as many as the hours that a bound per
    course-batch allows. *)
Lemma length_le_allowed (es : list ScheduleEntry) (L : list CB) (f : CB → Z) :
  NoDup L → (∀ cb, 0 ≤ f cb) →
  (∀ cb, Z.of_nat (placed es cb) ≤ if decide (cb ∈ L) then f cb else 0) →
  Z.of_nat (length es) ≤ foldr (λ cb r, f cb + r) 0 L.
Proof.
  intros HL Hf. revert es. induction HL as [|a L Ha HL IH]; intros es Hes; cbn [foldr].
  - destruct es as [|e es]; [done |]. specialize (Hes (entry_cb e)).
    rewrite decide_False in Hes by apply not_elem_of_nil.
    unfold placed in Hes. rewrite filter_cons_True in Hes by done. cbn in Hes. lia.
  - assert (length es = (placed es a + length (filter (λ e, entry_cb e ≠ a) es))%nat) as ->.
    { unfold placed. clear. induction es as [|e es IHes]; [done |].
      rewrite !filter_cons. destruct (decide (entry_cb e = a)).
      - rewrite decide_False by tauto. cbn. lia.
      - rewrite decide_True by done. cbn. lia. }
    rewrite Nat2Z.inj_add.
    pose proof (Hes a) as Hpa. rewrite decide_True in Hpa by left.
    specialize (IH (filter (λ e, entry_cb e ≠ a) es)).
    assert (Z.of_nat (length (filter (λ e, entry_cb e ≠ a) es))
            ≤ foldr (λ cb r, f cb + r) 0 L); [| lia].
    apply IH. intros cb. unfold placed. rewrite list_filter_filter.
    destruct (decide (cb = a)) as [->|Hne].
    + rewrite decide_False by done.
      assert (filter (λ e, entry_cb e = a ∧ entry_cb e ≠ a) es = []) as ->; [| done].
      clear. induction es as [|e es IHes]; [done |].
      rewrite filter_cons_False by tauto. done.
    + rewrite (list_filter_iff _ (λ e, entry_cb e = cb)) by (intros e; split; [tauto | intros ->; done]).
      specialize (Hes cb). unfold placed in Hes.
      destruct (decide (cb ∈ L)) as [Hin|Hout].
      * rewrite decide_True in Hes by by right. done.
      * rewrite decide_False in Hes; [done |]. intros [->|?]%elem_of_cons; done.
Qed.

Section pa_totals.
Import PA.
Context (o : SetOrder) (conflicts : gmap CB (gset CB)).

Lemma schedule_placed cs teachers config strategy regular lab st (cb0 : CB) :
  well_keyed cs →
  _schedule_optimized o conflicts cs teachers config strategy regular lab = Some st →
  Z.of_nat (placed (st_entries st) cb0)
  ≤ if decide (cb0 ∈ course_batches cs) then required_hours cs cb0 else 0.
Proof.
  intros Hwk. unfold _schedule_optimized.
  destruct (generate_all_time_slots config) as [all_slots|]; [| done]. cbn. intros [= <-].
  rewrite <- (allowance_well_keyed cs cb0 Hwk).
  assert (allowance (snd <$> cs) cb0 = allowance (sort_courses cs) cb0) as ->
    by (symmetry; apply allowance_perm, sorted_by_perm).
  pose proof (schedule_courses_count o conflicts strategy all_slots regular lab
                (sort_courses cs) (mkState [] ∅ ∅ ∅ ∅) cb0) as H.
  cbn [st_entries] in H. unfold placed at 2 in H. cbn in H. lia.
Qed.

Lemma try_teachers_count item c all_slots rooms candidates st (cb0 : CB) :
  Z.of_nat (placed (st_entries (try_teachers o conflicts item c all_slots rooms candidates st))
              cb0)
  ≤ Z.of_nat (placed (st_entries st) cb0) +
    (if decide ((u_course item, u_batch item) = cb0) then theory_hours c else 0).
Proof.
  assert (0 ≤ theory_hours c) as Hth by (unfold theory_hours; case_decide; lia).
  induction candidates as [|alt rest IH]; cbn [try_teachers]; [case_decide; lia |].
  case_bool_decide; [done |]. case_bool_decide; [done |].
  rewrite commit_batch_entries, placed_app, Nat2Z.inj_add.
  rewrite (placed_same (_ <$> _) (u_course item, u_batch item) cb0).
  - case_decide; [| lia]. rewrite length_fmap, length_take. lia.
  - apply Forall_fmap, Forall_true. by intros p.
Qed.

Lemma fix_items_count cs all_slots rooms candidates items st st' (cb0 : CB) :
  fix_items o conflicts cs all_slots rooms candidates items st = Some st' →
  Z.of_nat (placed (st_entries st') cb0)
  ≤ Z.of_nat (placed (st_entries st) cb0) + repair_allowance cs items cb0.
Proof.
  revert st. induction items as [|item rest IH]; intros st; cbn [fix_items repair_allowance foldr].
  - intros [= <-]. lia.
  - destruct (dict_get (u_course item) cs) as [c|]; [| done]. cbn.
    intros H%IH. fold (repair_allowance cs rest cb0).
    pose proof (try_teachers_count item c all_slots rooms candidates st cb0). lia.
Qed.

Lemma find_unscheduled_keys es cs :
  ((λ item, (u_course item, u_batch item)) <$> _find_unscheduled es cs)
    `sublist_of` course_batches cs.
Proof.
  unfold _find_unscheduled, course_batches.
  induction cs as [|kc cs IH]; [done |].
  cbn [mbind list_bind]. rewrite fmap_app. apply sublist_app; [| exact IH].
  induction (batches kc.2) as [|b bs IHb]; [done |].
  cbn [mbind list_bind fmap list_fmap]. rewrite fmap_app.
  case_bool_decide; cbn [fmap list_fmap app].
  - by apply sublist_skip.
  - by apply sublist_cons.
Qed.

Lemma repair_allowance_bound cs items (cb0 : CB) :
  NoDup ((λ item, (u_course item, u_batch item)) <$> items) →
  repair_allowance cs items cb0
  ≤ if decide (cb0 ∈ (λ item, (u_course item, u_batch item)) <$> items)
    then required_hours cs cb0 else 0.
Proof.
  pose proof (required_hours_nonneg cs cb0) as Hreq.
  induction items as [|item rest IH]; cbn [repair_allowance foldr].
  - intros _. rewrite decide_False; [done | apply not_elem_of_nil].
  - rewrite fmap_cons, NoDup_cons. intros [Hout Hnd]. specialize (IH Hnd).
    fold (repair_allowance cs rest cb0).
    destruct (decide ((u_course item, u_batch item) = cb0)) as [<-|Hne].
    + rewrite (decide_False (P := _ ∈ _ <$> rest)) in IH by done.
      rewrite decide_True by left.
      unfold required_hours. cbn [fst].
      destruct (dict_get (u_course item) cs) as [c|]; cbn; [| lia].
      unfold total_hours, theory_hours, lab_hours. case_decide; lia.
    + destruct (decide (cb0 ∈ _ <$> rest)) as [Hin|Hnin].
      * rewrite decide_True by by right. lia.
      * rewrite decide_False; [lia |]. intros [->|?]%elem_of_cons; done.
Qed.

Lemma placed_filtered es unscheduled (cb0 : CB) :
  placed (filtered_entries es unscheduled) cb0
  = if decide (cb0 ∈ (λ item, (u_course item, u_batch item)) <$> unscheduled)
    then 0%nat else placed es cb0.
Proof.
  unfold placed, filtered_entries. rewrite list_filter_filter.
  case_decide as Hin.
  - assert (∀ l : list ScheduleEntry,
              filter (λ e, entry_cb e = cb0 ∧
                           entry_cb e ∉ (list_to_set ((λ item, (u_course item, u_batch item))
                                                        <$> unscheduled) : gset CB)) l = [])
      as ->; [| done].
    induction l as [|e l IHl]; [done |]. rewrite filter_cons_False; [done |].
    intros [-> Hout]. apply Hout. by apply elem_of_list_to_set.
  - f_equal. apply list_filter_iff. intros e. split; [tauto |].
    intros ->. split; [done |]. by rewrite elem_of_list_to_set.
Qed.

Lemma pa_placed now cs teachers config strategy p (cb0 : CB) :
  well_keyed cs →
  generate_proposal o conflicts now cs teachers config strategy = Some p →
  Z.of_nat (placed (entries p) cb0)
  ≤ if decide (cb0 ∈ course_batches cs) then required_hours cs cb0 else 0.
Proof.
  intros Hwk (st & Hs & Hp)%generate_proposal_cases.
  pose proof (schedule_placed _ _ _ _ _ _ _ cb0 Hwk Hs) as Hpass.
  destruct Hp as [-> | (st' & Hr & ->)]; [done |].
  set (unscheduled := _find_unscheduled (st_entries st) cs) in *.
  rewrite placed_app, placed_filtered, Nat2Z.inj_add.
  unfold repair in Hr.
  destruct (generate_all_time_slots config) as [all_slots|]; [| done]. cbn in Hr.
  apply (fix_items_count _ _ _ _ _ _ _ cb0) in Hr.
  rewrite occupy_entries in Hr. cbn [st_entries] in Hr. unfold placed at 2 in Hr. cbn in Hr.
  assert (NoDup ((λ item, (u_course item, u_batch item)) <$> unscheduled)) as Hnd.
  { eapply sublist_NoDup; [by apply course_batches_NoDup | apply find_unscheduled_keys]. }
  pose proof (repair_allowance_bound cs unscheduled cb0 Hnd) as Hbound.
  destruct (decide (cb0 ∈ (λ item, (u_course item, u_batch item)) <$> unscheduled))
    as [Hin|Hout].
  - rewrite decide_True; [lia |].
    eapply elem_of_sublist; [exact Hin | apply find_unscheduled_keys].
  - lia.
Qed.

End pa_totals.

Section pa_totals_verified.
Import PA.

(** For a course dictionary that holds every course under its own code
    and lists no batch of a course twice, a proposal of the optimized
    planner has, for every course-batch, at most as many entries as the
    course has hours, and none for a course-batch that the dictionary
    does not have; so it has no more entries than the verifier requires,
    and [verify] returns a result whose score is in the unit interval. *)
Theorem optimized_proposal_within_required (o : SetOrder) (conflicts : gmap CB (gset CB))
    (now : Z) (cs : list (string * Course)) (teachers : list (string * Teacher))
    (config : SchedulingConfig) (strategy : Strategy) (p : TimetableProposal) :
  well_keyed cs →
  generate_proposal o conflicts now cs teachers config strategy = Some p →
  (∀ cb, Z.of_nat (placed (entries p) cb)
         ≤ if decide (cb ∈ course_batches cs) then required_hours cs cb else 0) ∧
  Z.of_nat (length (entries p)) ≤ Verifier.total_required cs ∧
  ∃ r, Verifier.verify p cs teachers config = Some r ∧
       (0 <= Verifier.score r)%Q ∧ (Verifier.score r <= 1)%Q.
Proof.
  intros Hwk Hgen.
  assert (∀ cb, Z.of_nat (placed (entries p) cb)
                ≤ if decide (cb ∈ course_batches cs) then required_hours cs cb else 0)
    as Hplaced by (intros cb; by eapply pa_placed).
  assert (Z.of_nat (length (entries p)) ≤ Verifier.total_required cs) as Hle.
  { rewrite <- (required_hours_sum cs) by apply Hwk.
    apply length_le_allowed;
      [by apply course_batches_NoDup | apply required_hours_nonneg | done]. }
  split_and!; [done | done |].
  destruct (computed_score_unit p cs config Hle) as [H0 H1].
  by apply verify_returns.
Qed.

Lemma optimized_proposal_within_required_witness :
  well_keyed two_courses ∧
  match generate_proposal canonical_order ∅ 0 two_courses (mk_teachers ["T"; "U"])
          week default_strategy with
  | Some p =>
      (∀ cb, Z.of_nat (placed (entries p) cb)
             ≤ if decide (cb ∈ course_batches two_courses)
               then required_hours two_courses cb else 0) ∧
      Z.of_nat (length (entries p)) ≤ Verifier.total_required two_courses ∧
      ∃ r, Verifier.verify p two_courses (mk_teachers ["T"; "U"]) week = Some r ∧
           (0 <= Verifier.score r)%Q ∧ (Verifier.score r <= 1)%Q
  | None => False
  end.
Proof.
  assert (well_keyed two_courses) as Hwk.
  { split; [apply (bool_decide_unpack _); vm_compute; exact I |].
    repeat constructor; cbn; by intros ?%elem_of_nil. }
  split; [exact Hwk |].
  destruct (generate_proposal _ _ _ _ _ _ _) as [p|] eqn:E.
  - exact (optimized_proposal_within_required _ _ _ _ _ _ _ _ Hwk E).
  - returns_a_result E.
Defined.

End pa_totals_verified.
